(* ===== verification/_CoqProject ===== *)
-Q . S2P
Prelude.v
Pcm.v
Base64.v
JsString.v
Gemini.v
Video.v
Chat.v
Render.v
Studio.v
Shell.v
Tour.v
Voice.v
Tabs.v
ChatTab.v
Nav.v
Pages.v
