(* ===== verification/Prelude.v ===== *)
(** * Giga3 AI client: a verification development

    The repository is a React single-page application over a generative-AI
    SDK.  [App] (src/App.tsx) holds the session (signed in, tier, photos
    used today), the active tab and the search query; it renders [AuthView]
    while signed out, and otherwise the [Sidebar], one view per tab
    ([DashboardView], [ChatView], [StudioView], [VoiceView],
    [PricingView]) and the [Onboarding] tour.  The views talk to [App] only
    through callbacks ([onLogin], [setActiveTab], [onUpgrade],
    [onGeneration], [onComplete]), and to the SDK only through the service
    layer (src/geminiService.ts), except the voice view, which opens a live
    session itself.

    Library layout, in dependency order (each file one component, its
    definitions first, then its lemmas, then its properties):
    - [Prelude] (this file): the [outcome] type of thrown JS exceptions
      with stdpp's monad notation; the [js] state-and-exception monad
      ([js_bind], [js_modify], [js_lift], [js_catch] for [try]/[catch]);
      machine-width wrap-around ([wrap_u], [wrap_s]) in [giga_scope];
      generic lemmas on lists, options and integers, the hint database
      [giga] and the tactics [js_simpl] and friends.
    - [Pcm] (Module [Pcm], src/VoiceView.tsx lines 26-43, 84-88): the
      Float32 to Int16 store with its [ToInt16] wrap, the byte views of a
      typed array, [decodeAudioData] with [createBuffer]'s errors.
    - [Base64] (Module [Base64], src/VoiceView.tsx lines 7-24): [encode]
      and [decode] over the browser's [btoa]/[atob], the latter modelled
      from the HTML standard.
    - [JsString] (Module [JsString]): the ECMAScript string built-ins the
      sources call, modelled from the language specification.
    - [Gemini] (Module [Gemini], src/geminiService.ts lines 15-104):
      model routing and the text stream as an async generator's run, its
      chunks with their grounding chunks ([Web] sources with an optional
      uri and title), and [generateImage] in the [js] monad over a log of
      SDK calls.
    - [Video] (Module [Video], lines 109-151): [generateVideo] and its
      status poll loop [poll_loop].
    - [Chat] (Module [Chat], src/ChatView.tsx): [handleSend] cut at its
      awaits into the events of a step relation [cstep], the input
      handlers (typing, file reader, remove image), and the history
      filter; invariants: one reply in flight, written to the last
      message.
    - [Render] (Module [Render], src/ChatView.tsx lines 108-187):
      [renderContent] with both regular expressions run as ECMAScript
      runs them on UTF-16 code units, and the message list: each bubble's
      image, body (rendered text, the "Synthesizing response..." spinner,
      or nothing), "Verified Sources" links and copied text.
    - [Studio] (Module [Studio], src/StudioView.tsx): [handleGenerate]
      cut at its await, the controls, the loading-message interval and the
      [localStorage] effect as a step relation [sstep], proved in a
      section over the interface [MediaService]/[MediaServiceLaws] that
      the [Gemini] and [Video] models instantiate ([gemini_service]);
      the guards the disabled controls put on each event, and the Download
      button's file name ([downloadMedia]).
    - [Shell] (Module [Shell], src/App.tsx, AuthView.tsx, Onboarding.tsx,
      PricingView.tsx, DashboardView.tsx, Sidebar.tsx): every handler of
      the shell, the sign-in timers tagged with the [AuthView] instance
      that set them, the remounting of [AuthView] and [Onboarding], as a
      step relation [astep]; and the session contract [session_step] it
      refines.
    - [Voice] (Module [Voice], src/VoiceView.tsx): the shared refs, the
      AudioContext and session store and the callbacks of the live
      session as a step relation [vstep]; uses [Pcm] and [Base64].
    - [Tour] (Module [Tour], src/Onboarding.tsx lines 50-81): the
      tooltip's placement effect over the elements the logged-in page
      renders (Sidebar.tsx, DashboardView.tsx), for every layout [Q]
      coordinates the browser may give; uses [Shell]'s reachable states.
    - [Tabs] (Module [Tabs], src/App.tsx lines 89-169): the composition
      of [Shell], [Voice] and [Studio] through the tabs, a step relation
      [tstep] over their states: switching tab or signing out unmounts
      [VoiceView], which has no cleanup, and coming back mounts a fresh
      instance ([voice_mount]) over the browser objects the old one left
      open; an unmounted [StudioView]'s pending generation still settles
      and calls the [onGeneration] of the render that started it.
    - [ChatTab] (Module [ChatTab], src/App.tsx line 155): the shell with
      the [ChatView] instance on screen, a step relation [ctstep]:
      entering the chat tab mounts a new instance from the welcome
      message; the chat's events are [Chat]'s.
    - [Nav] (Module [Nav], src/App.tsx lines 17-18, 28-46, 93-101): the
      navigation progress bar, the one timed model: the effect on
      [activeTab], its three timeouts with deadlines in milliseconds, its
      cleanup, and the browser's queue running the timeout due first,
      as a step relation [nstep] in which a change of tab may come at any
      time before the next deadline.
    - [Pages] (Module [Pages], src/AuthView.tsx, Sidebar.tsx,
      DashboardView.tsx, PricingView.tsx, Onboarding.tsx lines 92-130,
      VoiceView.tsx lines 157-220, App.tsx lines 89-169): what each view
      renders, as a value of the state it reads (texts, cards, the
      highlighted nav button, the tooltip, the transcript lines), and
      the events its controls raise ([page_controls]; the loading
      overlay stops the pointer only, the tour's backdrop the page).

    What the theorems show, by group:
    - voice: the playback schedule never overlaps and ends by the cursor
      in every reachable state; [onmessage] schedules at
      [max(cursor, currentTime)], and a burst of chunks gets the closed-
      form gapless schedule; an interruption stops every source; the
      uplink frame survives the transport; and the defects: the cursor
      survives a restart, contexts leak when a session is restarted after
      a server close, a late [onclose] hides a live session, a bad chunk
      hides an interruption, and (in [Tabs]) a session outlives its view:
      after leaving the voice tab the microphone keeps streaming into it in
      every later state;
    - codec: [decode (encode b) = b], quantisation within one step, the
      wrap of a full-scale sample, the range of decoded samples;
    - service: routing, the image contract, the text stream never throws
      to its consumer, the poll loop terminates (201 turns of fuel from
      [attempts = 0] always suffice, more change nothing), polls at most
      200 times, times out or returns the first finished job;
    - chat: single flight, append-only messages, the result of a send;
      what the message list shows: HTML reaches [innerHTML] unescaped, the
      bullet is mojibake, the spinner shows exactly on the last message of
      an unfiltered list while the reply has no text yet (never under a
      search query), and a finished exchange shows its text, or an empty
      bubble for a reply without text, with one link per web source;
    - studio: no video call on the free tier, every shown URL comes from
      the service, preferences survive a remount, and the defects (a
      stale image in the video player and downloaded as [.mp4], a stored
      unknown type counted as a generation); the overlay's caption is
      always one of [LOADING_MESSAGES];
    - shell: step-wise refinement of the session contract, with the
      studio's callback pinned (it counts by the tier of the render that
      created it), the tour always completes, and the gaps (the free
      tier is never capped, sign-in checks no credential, and a second
      submit under the loading overlay leaves a timer that signs the
      user back in after a sign-out);
    - composition ([Tabs]): the composed application still refines the
      session contract, except when an orphaned generation settles: a
      free-tier image started before choosing the Base plan is counted
      as a free photo afterwards; [ChatTab] only composes the chat view
      with the shell (leaving its tab discards the conversation, by the
      definition of the mount);
    - tour: every step but the first finds its target on any tab and
      places the tooltip beside it, and the first step, replayed after a
      sign-out from another tab, finds nothing and is not placed;
    - progress bar: left alone, a navigation shows 30%, 70% at 200 ms,
      100% at 500 ms and hides at 800 ms; from every reachable state the
      pending timeouts (at most [pending_work] callbacks) run out and hide
      the bar; and the defect: the cleanup misses the inner timeout, so a
      tab change 500 to 800 ms after the previous one loses its bar;
    - pages: the active tab always names a view and the sidebar
      highlights exactly it, the
      tooltip's counter and main button stay within the five steps; and
      the defects: "Check your inbox" for a reset never confirmed, and a
      fresh voice page over a session that still has the microphone.

    Not modelled: styling and layout (CSS classes, icons, images, the
    emoji of the dashboard; the geometry is a parameter of [Tour]), the
    HTML parser behind [innerHTML], scrolling,
    the highlight class the tour toggles, locale time strings, the
    unused [handleRefresh], clipboard and download
    I/O beyond the values they are given, and the SDK and the browser
    themselves, which are records of answers the theorems quantify
    over.  Outside [Nav], timers and promise settlements are events of
    the step relations, not timed: the theorems hold for every order the
    browser may choose. *)

From stdpp Require Export base list strings gmap.
From Stdlib Require Export ZArith Lia ZifyNat.

(** ** Thrown exceptions *)

(** A JS computation either returns a value or throws an [Error] whose
    [message] is a string. *)
Inductive outcome (A : Type) : Type :=
| Ok (a : A)
| Throw (msg : string).
Arguments Ok {A} a.
Arguments Throw {A} msg.

#[export] Instance outcome_ret : MRet outcome := fun A a => Ok a.
#[export] Instance outcome_bind : MBind outcome :=
  fun A B f m => match m with Ok a => f a | Throw e => Throw e end.
#[export] Instance outcome_fmap : FMap outcome :=
  fun A B f m => match m with Ok a => Ok (f a) | Throw e => Throw e end.

Definition is_ok {A} (o : outcome A) : bool :=
  match o with Ok _ => true | Throw _ => false end.

(** ** Statement sequencing with exceptions

    A JS handler runs its statements in order against mutable state; a
    [throw] ends it, and the effects of the statements before the throw
    persist.  [js S A] is that: a state transformer returning a value or a
    thrown message together with the state reached. *)
Definition js (S A : Type) : Type := S -> S * outcome A.

#[export] Instance js_ret {S} : MRet (js S) := fun A a s => (s, Ok a).
#[export] Instance js_bind {S} : MBind (js S) :=
  fun A B f m s => match m s with
                   | (s', Ok a) => f a s'
                   | (s', Throw e) => (s', Throw e)
                   end.

Definition js_get {S} : js S S := fun s => (s, Ok s).
Definition js_modify {S} (f : S -> S) : js S unit := fun s => (f s, Ok tt).
Definition js_throw {S A} (e : string) : js S A := fun s => (s, Throw e).
(** Lift a computation that may throw. *)
Definition js_lift {S A} (o : outcome A) : js S A := fun s => (s, o).
(** [try { m } catch (e) { h(e) }]: the handler runs in the state the
    throw left. *)
Definition js_catch {S A} (m : js S A) (h : string -> js S A) : js S A :=
  fun s => match m s with
           | (s', Throw e) => h e s'
           | r => r
           end.

(** ** Machine-width integers *)

Declare Scope giga_scope.
Delimit Scope giga_scope with giga.
#[local] Open Scope Z_scope.

(** Unsigned [w]-bit wrap-around: what a store into a [Uint8Array] or the
    [ToUint16] conversion does. *)
Definition wrap_u (w : Z) (z : Z) : Z := z mod 2 ^ w.

(** Signed [w]-bit wrap-around: what a store into an [Int16Array]
    ([ToInt16]) does to an integer. *)
Definition wrap_s (w : Z) (z : Z) : Z := (z + 2 ^ (w - 1)) mod 2 ^ w - 2 ^ (w - 1).

Notation "'u8' z" := (wrap_u 8 z) (at level 10, z at level 9) : giga_scope.
Notation "'i16' z" := (wrap_s 16 z) (at level 10, z at level 9) : giga_scope.

(** ** Error results *)

Lemma outcome_bind_ok {A B} (a : A) (f : A -> outcome B) :
  (Ok a ≫= f) = f a.
Proof. reflexivity. Qed.

Lemma outcome_bind_throw {A B} (e : string) (f : A -> outcome B) :
  (Throw e ≫= f) = Throw e.
Proof. reflexivity. Qed.

Lemma outcome_bind_Ok_inv {A B} (m : outcome A) (f : A -> outcome B) b :
  (m ≫= f) = Ok b -> exists a, m = Ok a /\ f a = Ok b.
Proof. destruct m; simpl; [eauto | discriminate]. Qed.

(** ** Truncating division *)

Lemma quot_bounds n d : 0 < d -> d * Z.quot n d - d < n < d * Z.quot n d + d.
Proof. intros. pose proof (Z.quot_rem' n d). pose proof (Z.rem_bound_abs n d). lia. Qed.

Lemma quot_range n d lo hi :
  0 < d -> lo <= 0 < hi -> lo * d <= n < hi * d -> lo <= Z.quot n d < hi.
Proof.
  intros Hd Hlh Hn. pose proof (Z.quot_rem' n d) as Hq.
  pose proof (Z.rem_bound_abs n d).
  destruct (Z.le_gt_cases 0 n).
  - pose proof (Z.rem_nonneg n d). pose proof (Z.quot_pos n d). nia.
  - pose proof (Z.rem_nonpos n d).
    assert (0 <= Z.quot (- n) d) by (apply Z.quot_pos; lia).
    rewrite Z.quot_opp_l in * by lia. nia.
Qed.

Section Wrap.
Context (w : Z) (Hw : 0 < w).

Lemma wrap_u_range z : 0 <= wrap_u w z < 2 ^ w.
Proof. unfold wrap_u. apply Z.mod_pos_bound. lia. Qed.

Lemma wrap_u_small z : 0 <= z < 2 ^ w -> wrap_u w z = z.
Proof. unfold wrap_u. apply Z.mod_small. Qed.

Lemma pow_pred_double : 2 ^ w = 2 * 2 ^ (w - 1).
Proof.
  replace w with (Z.succ (w - 1)) at 1 by lia.
  rewrite Z.pow_succ_r; lia.
Qed.

Lemma wrap_s_range z : - 2 ^ (w - 1) <= wrap_s w z < 2 ^ (w - 1).
Proof.
  unfold wrap_s. pose proof pow_pred_double.
  pose proof (Z.mod_pos_bound (z + 2 ^ (w - 1)) (2 ^ w)). lia.
Qed.

Lemma wrap_s_small z : - 2 ^ (w - 1) <= z < 2 ^ (w - 1) -> wrap_s w z = z.
Proof.
  intros H. unfold wrap_s. pose proof pow_pred_double.
  rewrite Z.mod_small; lia.
Qed.

(** Signed and unsigned views of the same [w] bits agree. *)
Lemma wrap_s_u z : wrap_s w (wrap_u w z) = wrap_s w z.
Proof.
  unfold wrap_s, wrap_u. rewrite Zplus_mod_idemp_l. reflexivity.
Qed.

Lemma wrap_u_s z : wrap_u w (wrap_s w z) = wrap_u w z.
Proof.
  unfold wrap_s, wrap_u. pose proof pow_pred_double.
  rewrite Zminus_mod_idemp_l.
  replace (z + 2 ^ (w - 1) - 2 ^ (w - 1)) with z by lia. reflexivity.
Qed.
End Wrap.

(** ** Lists *)

(** Reading a list by index over [0 .. length - 1] is mapping over it. *)
Lemma map_seq_nth_app {A B} (f : A -> B) (d : A) (l l0 : list A) :
  map (fun i => f (nth i (l0 ++ l) d)) (seq (length l0) (length l)) = map f l.
Proof.
  revert l0. induction l as [|a l IH]; intros l0; [done|].
  simpl. rewrite nth_middle. f_equal.
  specialize (IH (l0 ++ [a])). rewrite <- app_assoc, length_app in IH.
  simpl in IH. by rewrite Nat.add_1_r in IH.
Qed.

Lemma map_seq_nth {A B} (f : A -> B) (d : A) (l : list A) :
  map (fun i => f (nth i l d)) (seq 0 (length l)) = map f l.
Proof. apply (map_seq_nth_app f d l []). Qed.

(** Induction over a list three (four) elements at a time, the shape of
    the group loops of base64. *)
Lemma list_ind3 {A} (P : list A -> Prop) :
  P [] -> (forall a, P [a]) -> (forall a b, P [a; b]) ->
  (forall a b c l, P l -> P (a :: b :: c :: l)) -> forall l, P l.
Proof.
  intros H0 H1 H2 H3 l. induction l as [l IH] using (induction_ltof1 _ (@length A)).
  destruct l as [|a [|b [|c l]]]; auto. apply H3, IH. unfold ltof; simpl; lia.
Qed.

Lemma list_ind4 {A} (P : list A -> Prop) :
  P [] -> (forall a, P [a]) -> (forall a b, P [a; b]) -> (forall a b c, P [a; b; c]) ->
  (forall a b c d l, P l -> P (a :: b :: c :: d :: l)) -> forall l, P l.
Proof.
  intros H0 H1 H2 H3 H4 l. induction l as [l IH] using (induction_ltof1 _ (@length A)).
  destruct l as [|a [|b [|c [|d l]]]]; auto. apply H4, IH. unfold ltof; simpl; lia.
Qed.

(** Splitting a list that ends with a known element at two positions. *)
Lemma app_snoc_split {A} (xs l1 l2 l3 : list A) (p q x : A) :
  l1 ++ p :: l2 ++ q :: l3 = xs ++ [x] ->
  (l3 = [] /\ q = x /\ xs = l1 ++ p :: l2) \/
  (exists l3', l3 = l3' ++ [x] /\ xs = l1 ++ p :: l2 ++ q :: l3').
Proof.
  intros E. destruct l3 as [|y l3'] using rev_ind.
  - left. replace (l1 ++ p :: l2 ++ [q]) with ((l1 ++ p :: l2) ++ [q]) in E
      by (rewrite <- app_assoc; reflexivity).
    apply app_inj_tail in E as [E1 E2]. subst. repeat split.
  - right. exists l3'.
    replace (l1 ++ p :: l2 ++ q :: l3' ++ [y]) with ((l1 ++ p :: l2 ++ q :: l3') ++ [y]) in E
      by (rewrite <- !app_assoc; simpl; rewrite <- !app_assoc; reflexivity).
    apply app_inj_tail in E as [E1 E2]. by subst.
Qed.

(** ** Hint databases *)

Create HintDb giga discriminated.
Create Rewrite HintDb giga_rw.
#[export] Hint Resolve wrap_u_range wrap_s_range : giga.
#[export] Hint Rewrite @outcome_bind_ok @outcome_bind_throw : giga_rw.

(** [invc H]: invert a hypothesis and substitute. *)
Ltac invc H := inversion H; subst; clear H.

(** [zbool_cases]: case on every integer comparison of the goal and close
    the arithmetic leaves. *)
Ltac zbool_cases :=
  repeat match goal with
  | |- context [Z.ltb ?a ?b] => destruct (Z.ltb_spec a b)
  | |- context [Z.leb ?a ?b] => destruct (Z.leb_spec a b)
  | |- context [Z.eqb ?a ?b] => destruct (Z.eqb_spec a b)
  end; simpl; try lia; try (f_equal; lia).

(** [js_simpl]: run the statements of a [js] computation. *)
Ltac js_simpl :=
  unfold mbind, mret, js_bind, js_ret, js_modify, js_lift, js_get, js_throw, js_catch; simpl.

(** [case_if]: split on the first boolean test of the goal. *)
Ltac case_if :=
  match goal with
  | |- context [if ?b then _ else _] => let E := fresh "E" in destruct b eqn:E
  end.
