(* ===== verification/Pcm.v ===== *)
(** * 16-bit PCM conversion of the voice link (src/VoiceView.tsx)

    The uplink converts each microphone sample, a Float32 in the
    channel data, to a 16-bit integer by a store into an [Int16Array]
    ([int16[i] = input[i] * 32768]) and reinterprets the buffer as bytes
    ([new Uint8Array(int16.buffer)]).  The downlink reinterprets decoded
    bytes as an [Int16Array] and scales every sample back by [1/32768]
    ([decodeAudioData]).

    Samples are rationals [Q]: a Float32 scaled by a power of two is exact,
    and every [k / 32768] with [k] a 16-bit integer is a Float32, so no
    rounding of the source is lost.  Typed-array stores follow ECMAScript:
    [ToInt16] truncates toward zero and wraps modulo [2^16]; buffers are
    little-endian, the byte order of every platform the app runs on. *)

From S2P Require Import Prelude.
From Stdlib Require Import QArith Lqa.

#[local] Open Scope Z_scope.

Module Pcm.

(** ** Uplink: Float32 samples to an [Int16Array] *)

(** ECMAScript truncation of a number toward zero. *)
Definition trunc (q : Q) : Z := Z.quot (Qnum q) (Zpos (Qden q)).

(** [int16[i] = input[i] * 32768]: the store applies [ToInt16]. *)
Definition to_int16 (x : Q) : Z := wrap_s 16 (trunc (x * inject_Z 32768)).

(** The loop of [onaudioprocess] filling [int16]. *)
Definition float_to_int16 (input : list Q) : list Z := map to_int16 input.

(** ** Typed-array views of one buffer *)

(** The two little-endian bytes of a 16-bit element. *)
Definition int16_bytes (v : Z) : list Z :=
  let u := wrap_u 16 v in [Z.land u 255; Z.shiftr u 8].

(** [new Uint8Array(int16.buffer)]. *)
Definition uint8_view (xs : list Z) : list Z := flat_map int16_bytes xs.

(** [new Int16Array(data.buffer)]: a [RangeError] when the byte length
    is odd. *)
Fixpoint int16_view (bs : list Z) : outcome (list Z) :=
  match bs with
  | [] => Ok []
  | [_] => Throw "byte length of Int16Array should be a multiple of 2"
  | lo :: hi :: rest =>
      vs ← int16_view rest;
      Ok (wrap_s 16 (Z.lor lo (Z.shiftl hi 8)) :: vs)
  end.

(** ** Downlink: [decodeAudioData] *)

Record AudioBuffer := {
  numberOfChannels : nat;
  buffer_length : nat;
  buffer_sampleRate : Q;
  channel_data : list (list Q)
}.

(** [AudioBuffer.duration]. *)
Definition duration (b : AudioBuffer) : Q :=
  (inject_Z (Z.of_nat (buffer_length b)) / buffer_sampleRate b)%Q.

(** [ctx.createBuffer(numChannels, length, sampleRate)]: Web Audio
    rejects zero channels, zero length and rates outside
    [3000, 768000] with a [NotSupportedError]. *)
Definition createBuffer (nc len : nat) (rate : Q) : outcome AudioBuffer :=
  if decide (nc = 0%nat) then Throw "NotSupportedError: number of channels"
  else if decide (len = 0%nat) then Throw "NotSupportedError: buffer length"
  else if Qlt_le_dec rate (inject_Z 3000) then Throw "NotSupportedError: sample rate"
  else if Qlt_le_dec (inject_Z 768000) rate then Throw "NotSupportedError: sample rate"
  else Ok {| numberOfChannels := nc; buffer_length := len;
             buffer_sampleRate := rate;
             channel_data := replicate nc (replicate len 0%Q) |}.

(** [channelData[i] = dataInt16[i * numChannels + channel] / 32768.0]
    for one channel. *)
Definition fill_channel (d16 : list Z) (nc frames ch : nat) : list Q :=
  map (fun i => (inject_Z (nth (i * nc + ch)%nat d16 0%Z) / inject_Z 32768)%Q)
      (seq 0 frames).

(** The whole function.  [frameCount] is a JS division; the [length]
    argument of [createBuffer] converts it by truncation, and the stores
    of the fill loop past that length are ignored, so each channel holds
    [length dataInt16 / numChannels] frames. *)
Definition decodeAudioData (data : list Z) (sampleRate : Q) (nc : nat)
  : outcome AudioBuffer :=
  d16 ← int16_view data;
  let frameCount := Nat.div (length d16) nc in
  buf ← createBuffer nc frameCount sampleRate;
  Ok {| numberOfChannels := nc; buffer_length := frameCount;
        buffer_sampleRate := sampleRate;
        channel_data := map (fill_channel d16 nc frameCount) (seq 0 nc) |}.

(** ** Truncation and the uplink conversion *)

Lemma trunc_spec q : (inject_Z (trunc q) - 1 < q < inject_Z (trunc q) + 1)%Q.
Proof.
  destruct q as [n d]. unfold trunc, Qlt, Qminus, Qplus; simpl.
  pose proof (quot_bounds n (Zpos d)). nia.
Qed.

Lemma trunc_scaled_range x :
  (-1 <= x < 1)%Q -> -32768 <= trunc (x * inject_Z 32768) < 32768.
Proof.
  intros [H1 H2]. destruct x as [n d]. unfold trunc, Qle, Qlt in *; simpl in *.
  rewrite Pos.mul_1_r. apply quot_range; lia.
Qed.

Lemma trunc_scaled_over x :
  (1 <= x < 2)%Q -> 32768 <= trunc (x * inject_Z 32768) < 65536.
Proof.
  intros [H1 H2]. destruct x as [n d]. unfold trunc, Qle, Qlt in *; simpl in *.
  rewrite Pos.mul_1_r, Z.quot_div_nonneg by lia. split.
  - apply Z.div_le_lower_bound; lia.
  - apply Z.div_lt_upper_bound; lia.
Qed.

(** Dividing by the scale of [decodeAudioData] preserves a distance of
    less than one unit. *)
Lemma scale_back (x : Q) t :
  (inject_Z t - 1 < x * inject_Z 32768 < inject_Z t + 1)%Q ->
  (x - (1 # 32768) < inject_Z t / inject_Z 32768 < x + (1 # 32768))%Q.
Proof.
  intros. unfold Qdiv. change (/ inject_Z 32768)%Q with (1 # 32768)%Q.
  change (inject_Z 32768) with (32768 # 1)%Q in *. lra.
Qed.

Lemma to_int16_small x : (-1 <= x < 1)%Q -> to_int16 x = trunc (x * inject_Z 32768).
Proof.
  intros Hx. unfold to_int16. apply wrap_s_small; [lia|].
  pose proof (trunc_scaled_range x Hx). simpl. lia.
Qed.

Lemma to_int16_close x :
  (-1 <= x < 1)%Q ->
  (x - (1 # 32768) < inject_Z (to_int16 x) / inject_Z 32768 < x + (1 # 32768))%Q.
Proof. intros Hx. rewrite to_int16_small by exact Hx. apply scale_back, trunc_spec. Qed.

(** A sample in [-1, 1) is stored without wrap-around, and the
    16-bit value, scaled back by [1/32768], is within one quantization
    step of the sample. *)
Theorem to_int16_quantization x :
  (-1 <= x < 1)%Q ->
  to_int16 x = trunc (x * inject_Z 32768) /\
  (x - (1 # 32768) < inject_Z (to_int16 x) / inject_Z 32768 < x + (1 # 32768))%Q.
Proof.
  intros Hx. split; [by apply to_int16_small | by apply to_int16_close].
Qed.

Lemma to_int16_quantization_witness :
  ((-1 <= 1 # 2 < 1)%Q) /\ to_int16 (1 # 2) = 16384.
Proof.
  assert (Hx : (-1 <= 1 # 2 < 1)%Q) by (split; vm_compute; easy).
  split; [exact Hx|].
  destruct (to_int16_quantization (1 # 2) Hx) as [H _].
  rewrite H. vm_compute. reflexivity.
Defined.

(** C39: a full-scale sample [1.0] (and every sample in [1, 2)) wraps
    around to a negative 16-bit value: [int16[i] = input[i] * 32768] is
    not clamped. *)
Theorem to_int16_overflow x :
  (1 <= x < 2)%Q ->
  to_int16 x = trunc (x * inject_Z 32768) - 65536 /\ to_int16 x < 0.
Proof.
  intros Hx. pose proof (trunc_scaled_over x Hx) as Ht.
  unfold to_int16, wrap_s. set (t := trunc (x * inject_Z 32768)) in *.
  assert (Hm : (t + 2 ^ (16 - 1)) mod 2 ^ 16 = t + 32768 - 65536)
    by (symmetry; apply Z.mod_unique with 1; simpl; lia).
  rewrite Hm. simpl. lia.
Qed.

Lemma to_int16_overflow_witness : (1 <= 1 < 2)%Q /\ to_int16 1 = -32768.
Proof.
  assert (Hx : (1 <= 1 < 2)%Q) by (split; vm_compute; easy).
  split; [exact Hx|].
  destruct (to_int16_overflow 1 Hx) as [H _].
  rewrite H. vm_compute. reflexivity.
Defined.

(** ** Typed-array views *)

Lemma lo_hi_recombine u : Z.lor (Z.land u 255) (Z.shiftl (Z.shiftr u 8) 8) = u.
Proof.
  apply Z.bits_inj'. intros n Hn.
  rewrite Z.lor_spec, Z.shiftl_spec by lia.
  change 255 with (Z.ones 8). rewrite Z.land_spec, Z.testbit_ones by lia.
  destruct (Z.ltb_spec n 8).
  - rewrite (Z.testbit_neg_r _ (n - 8)) by lia.
    destruct (Z.leb_spec 0 n); [|lia]. by destruct (Z.testbit u n).
  - rewrite Z.shiftr_spec by lia. replace (n - 8 + 8) with n by lia.
    by rewrite !andb_false_r.
Qed.

(** reading the byte view of an [Int16Array] back as an
    [Int16Array] gives its elements: the little-endian byte split of the
    uplink and the recombination of [decodeAudioData] are inverse. *)
Theorem int16_view_uint8_view xs :
  int16_view (uint8_view xs) = Ok (map (wrap_s 16) xs).
Proof.
  induction xs as [|x xs IH]; [done|]. simpl. rewrite IH. simpl.
  rewrite lo_hi_recombine, wrap_s_u by lia. reflexivity.
Qed.

Lemma int16_view_length bs vs :
  int16_view bs = Ok vs -> length bs = (2 * length vs)%nat.
Proof.
  revert vs. induction bs as [bs IH] using
    (induction_ltof1 _ (@length Z)); intros vs H.
  destruct bs as [|lo [|hi rest]]; simpl in H; [by invc H| discriminate|].
  destruct (int16_view rest) as [vs'|] eqn:E; [|discriminate]. invc H.
  simpl. rewrite (IH rest ltac:(unfold ltof; simpl; lia) vs' E). lia.
Qed.

Lemma int16_view_range bs vs :
  int16_view bs = Ok vs -> Forall (fun v => -32768 <= v < 32768) vs.
Proof.
  revert vs. induction bs as [bs IH] using
    (induction_ltof1 _ (@length Z)); intros vs H.
  destruct bs as [|lo [|hi rest]]; simpl in H; [by invc H| discriminate|].
  destruct (int16_view rest) as [vs'|] eqn:E; [|discriminate]. invc H.
  constructor; [apply (wrap_s_range 16); lia|].
  apply (IH rest); [unfold ltof; simpl; lia|done].
Qed.

Lemma int16_view_odd bs :
  Nat.odd (length bs) = true -> is_ok (int16_view bs) = false.
Proof.
  intros Hodd. destruct (int16_view bs) as [vs|] eqn:E; [|done].
  apply int16_view_length in E. rewrite E, Nat.odd_mul in Hodd. done.
Qed.

(** ** [decodeAudioData] *)

Lemma scaled_sample_range v :
  -32768 <= v < 32768 -> (-1 <= inject_Z v / inject_Z 32768 < 1)%Q.
Proof.
  intros [H1 H2]. rewrite Zle_Qle in H1. rewrite Zlt_Qlt in H2.
  unfold Qdiv. change (/ inject_Z 32768)%Q with (1 # 32768)%Q.
  change (inject_Z (-32768)) with ((-32768) # 1)%Q in H1.
  change (inject_Z 32768) with (32768 # 1)%Q in H2. lra.
Qed.

Lemma fill_channel_range d16 nc frames ch :
  Forall (fun v => -32768 <= v < 32768) d16 ->
  Forall (fun q => -1 <= q < 1)%Q (fill_channel d16 nc frames ch).
Proof.
  intros Hd. apply List.Forall_forall. intros q Hq.
  apply in_map_iff in Hq as (i & <- & _). apply scaled_sample_range.
  destruct (decide (i * nc + ch < length d16)%nat).
  - by apply (proj1 (List.Forall_nth _ d16) Hd).
  - rewrite nth_overflow by lia. lia.
Qed.

(** every sample [decodeAudioData] produces lies in [-1, 1). *)
Theorem decodeAudioData_range data rate nc b :
  decodeAudioData data rate nc = Ok b ->
  Forall (Forall (fun q => -1 <= q < 1)%Q) (channel_data b).
Proof.
  unfold decodeAudioData. destruct (int16_view data) as [d16|] eqn:E; [|done].
  simpl. destruct (createBuffer _ _ _); [|done]. intros H. invc H. simpl.
  apply List.Forall_forall. intros c Hc. apply in_map_iff in Hc as (ch & <- & _).
  apply fill_channel_range. by apply int16_view_range with data.
Qed.

Lemma decodeAudioData_range_witness :
  let b := {| numberOfChannels := 1; buffer_length := 2;
              buffer_sampleRate := inject_Z 24000;
              channel_data := [map (fun v => inject_Z v / inject_Z 32768)%Q [1; -2]] |} in
  decodeAudioData (uint8_view [1; -2]) (inject_Z 24000) 1 = Ok b /\
  Forall (Forall (fun q => -1 <= q < 1)%Q) (channel_data b).
Proof.
  intros b. assert (H : decodeAudioData (uint8_view [1; -2]) (inject_Z 24000) 1 = Ok b)
    by reflexivity.
  split; [exact H|]. exact (decodeAudioData_range _ _ _ _ H).
Defined.

(** on an even, non-empty byte string, one channel and a supported
    rate, [decodeAudioData] returns one channel holding every 16-bit
    element scaled by [1/32768]; an odd byte length is an error. *)
Theorem decodeAudioData_mono data d16 rate :
  int16_view data = Ok d16 -> d16 <> [] ->
  (inject_Z 3000 <= rate <= inject_Z 768000)%Q ->
  decodeAudioData data rate 1 =
    Ok {| numberOfChannels := 1; buffer_length := length d16;
          buffer_sampleRate := rate;
          channel_data := [map (fun v => inject_Z v / inject_Z 32768)%Q d16] |}
  /\ (forall data', Nat.odd (length data') = true ->
                    is_ok (decodeAudioData data' rate 1) = false).
Proof.
  intros E Hne [Hlo Hhi]. split.
  - unfold decodeAudioData. rewrite E, outcome_bind_ok. cbv beta. rewrite Nat.div_1_r.
    unfold createBuffer. simpl.
    destruct (decide (length d16 = 0%nat)) as [Hl|]; [by destruct d16|].
    destruct (Qlt_le_dec rate _) as [Hr|]; [exfalso; by apply (Qlt_not_le _ _ Hr)|].
    destruct (Qlt_le_dec _ rate) as [Hr|]; [exfalso; by apply (Qlt_not_le _ _ Hr)|].
    simpl. do 3 f_equal. unfold fill_channel.
    rewrite <- (map_seq_nth (fun v => inject_Z v / inject_Z 32768)%Q 0 d16).
    apply map_ext. intros i. by rewrite Nat.mul_1_r, Nat.add_0_r.
  - intros data' Hodd. unfold decodeAudioData.
    pose proof (int16_view_odd data' Hodd).
    by destruct (int16_view data').
Qed.

Lemma decodeAudioData_mono_witness :
  decodeAudioData (uint8_view [1; -2]) (inject_Z 24000) 1 =
    Ok {| numberOfChannels := 1; buffer_length := 2;
          buffer_sampleRate := inject_Z 24000;
          channel_data := [map (fun v => inject_Z v / inject_Z 32768)%Q [1; -2]] |}.
Proof.
  refine (proj1 (decodeAudioData_mono _ [1; -2] _ _ _ _)).
  - rewrite int16_view_uint8_view. reflexivity.
  - discriminate.
  - split; vm_compute; easy.
Defined.

Lemma decodeAudioData_rate data rate nc b :
  decodeAudioData data rate nc = Ok b -> buffer_sampleRate b = rate.
Proof.
  unfold decodeAudioData. destruct (int16_view data); [|done]. simpl.
  destruct (createBuffer _ _ _); [|done]. by intros [= <-].
Qed.

Lemma duration_nonneg b : (0 < buffer_sampleRate b)%Q -> (0 <= duration b)%Q.
Proof.
  intros Hr. unfold duration, Qdiv. apply Qmult_le_0_compat.
  - change 0%Q with (inject_Z 0). rewrite <- Zle_Qle. lia.
  - apply Qinv_le_0_compat, Qlt_le_weak, Hr.
Qed.

Lemma uint8_view_range xs : Forall (fun b => 0 <= b < 256) (uint8_view xs).
Proof.
  induction xs as [|x xs IH]; simpl; [constructor|].
  pose proof (wrap_u_range 16 ltac:(lia) x) as Hu. set (u := wrap_u 16 x) in *.
  repeat constructor; [..|exact IH].
  - apply Z.land_nonneg. lia.
  - change 255 with (Z.ones 8). rewrite Z.land_ones by lia.
    pose proof (Z.mod_pos_bound u (2 ^ 8)). simpl in *. lia.
  - rewrite Z.shiftr_div_pow2 by lia. apply Z.div_pos; lia.
  - rewrite Z.shiftr_div_pow2 by lia. apply Z.div_lt_upper_bound; simpl in *; lia.
Qed.

Lemma to_int16_wrap x : wrap_s 16 (to_int16 x) = to_int16 x.
Proof. apply wrap_s_small; [lia|]. apply (wrap_s_range 16). lia. Qed.

End Pcm.
