(* ===== verification/Base64.v ===== *)
(** * Base64 transport of the voice link (src/VoiceView.tsx, [encode] and
    [decode])

    [encode] turns a [Uint8Array] into a binary string, one code unit per
    byte ([String.fromCharCode]), and passes it to the browser's [btoa];
    [decode] passes a base64 string to [atob] and copies the code units of
    the result into a [Uint8Array] ([charCodeAt]).

    [btoa] and [atob] are not code of the repository: they are modelled
    from the HTML standard's "forgiving-base64" encode and decode (strip
    ASCII whitespace, drop one or two trailing [=] when the length is a
    multiple of four, reject a length of [1 mod 4] and any character
    outside the alphabet with an [InvalidCharacterError], decode 6-bit
    groups and discard the trailing bits).  A binary string is a list of
    8-bit code units, [ascii]; the bit packing of a group of three bytes
    into four sextets is written with [Z.div] and [Z.modulo]. *)

From S2P Require Import Prelude.
From Stdlib Require Import Ascii.

#[local] Open Scope Z_scope.

Module Base64.

(** ** Code units *)

Definition code (c : ascii) : Z := Z.of_N (Ascii.N_of_ascii c).
Definition chr (z : Z) : ascii := Ascii.ascii_of_N (Z.to_N z).

(** ** The alphabet of RFC 4648, section 4 *)

Definition sextet_code (v : Z) : Z :=
  if v <? 26 then v + 65
  else if v <? 52 then v + 71
  else if v <? 62 then v - 4
  else if v =? 62 then 43
  else 47.

Definition enc_char (v : Z) : ascii := chr (sextet_code v).

Definition dec_char (c : ascii) : option Z :=
  let n := code c in
  if (65 <=? n) && (n <=? 90) then Some (n - 65)
  else if (97 <=? n) && (n <=? 122) then Some (n - 71)
  else if (48 <=? n) && (n <=? 57) then Some (n + 4)
  else if n =? 43 then Some 62
  else if n =? 47 then Some 63
  else None.

(** ** Groups *)

(** Three bytes (or the last one or two) to four (three, two) sextets. *)
Fixpoint enc_sextets (bs : list Z) : list Z :=
  match bs with
  | b0 :: b1 :: b2 :: rest =>
      [b0 / 4; (b0 mod 4) * 16 + b1 / 16; (b1 mod 16) * 4 + b2 / 64; b2 mod 64]
        ++ enc_sextets rest
  | [b0; b1] => [b0 / 4; (b0 mod 4) * 16 + b1 / 16; (b1 mod 16) * 4]
  | [b0] => [b0 / 4; (b0 mod 4) * 16]
  | [] => []
  end.

(** Four sextets (or the last two or three) to three (one, two) bytes;
    the trailing bits of a short group are discarded. *)
Fixpoint dec_sextets (vs : list Z) : list Z :=
  match vs with
  | a :: b :: c :: d :: rest =>
      [a * 4 + b / 16; (b mod 16) * 16 + c / 4; (c mod 4) * 64 + d]
        ++ dec_sextets rest
  | [a; b; c] => [a * 4 + b / 16; (b mod 16) * 16 + c / 4]
  | [a; b] => [a * 4 + b / 16]
  | _ => []
  end.

Definition padding (n : nat) : list ascii :=
  match Nat.modulo n 3 with
  | 1%nat => ["="; "="]%char
  | 2%nat => ["="%char]
  | _ => []
  end.

(** ** [btoa] and [atob] (HTML standard, forgiving-base64) *)

(** Every code unit of an [ascii] string is at most [0xFF], so the
    [InvalidCharacterError] of [btoa] cannot occur. *)
Definition btoa (s : list ascii) : list ascii :=
  map enc_char (enc_sextets (map code s)) ++ padding (length s).

Definition is_ascii_whitespace (c : ascii) : bool :=
  let n := code c in (n =? 9) || (n =? 10) || (n =? 12) || (n =? 13) || (n =? 32).

Definition strip_padding (l : list ascii) : list ascii :=
  if Nat.eqb (Nat.modulo (length l) 4) 0 then
    match rev l with
    | c1 :: c2 :: r =>
        if decide (c1 = "="%char) then
          if decide (c2 = "="%char) then rev r else rev (c2 :: r)
        else l
    | [c1] => if decide (c1 = "="%char) then [] else l
    | [] => l
    end
  else l.

Definition atob (s : list ascii) : outcome (list ascii) :=
  let data := strip_padding (List.filter (fun c => negb (is_ascii_whitespace c)) s) in
  if Nat.eqb (Nat.modulo (length data) 4) 1 then Throw "InvalidCharacterError"
  else match mapM dec_char data with
       | Some vs => Ok (map chr (dec_sextets vs))
       | None => Throw "InvalidCharacterError"
       end.

(** ** The two functions of src/VoiceView.tsx *)

(** [encode(bytes)]: [binary += String.fromCharCode(bytes[i])], then
    [btoa(binary)]. *)
Definition encode (bytes : list Z) : list ascii :=
  btoa (map chr bytes).

(** [decode(base64)]: [bytes[i] = binaryString.charCodeAt(i)] over
    [atob(base64)]. *)
Definition decode (base64 : list ascii) : outcome (list Z) :=
  binary ← atob base64;
  Ok (map code binary).

Definition byte_range (b : Z) : Prop := 0 <= b < 256.

Definition sextet_range (v : Z) : Prop := 0 <= v < 64.

(** ** Code units and characters *)

Lemma code_range c : 0 <= code c < 256.
Proof.
  unfold code. pose proof (Ascii.N_ascii_bounded c). lia.
Qed.

Lemma chr_code c : chr (code c) = c.
Proof. unfold chr, code. rewrite N2Z.id. apply Ascii.ascii_N_embedding. Qed.

Lemma code_chr z : 0 <= z < 256 -> code (chr z) = z.
Proof.
  intros Hz. unfold chr, code. rewrite Ascii.N_ascii_embedding by lia. lia.
Qed.

Lemma dec_enc_char v : 0 <= v < 64 -> dec_char (enc_char v) = Some v.
Proof.
  intros Hv. unfold dec_char, enc_char.
  assert (Hs : 43 <= sextet_code v <= 122) by (unfold sextet_code; zbool_cases).
  rewrite code_chr by lia. unfold sextet_code. zbool_cases.
Qed.

Lemma enc_char_not_pad v : 0 <= v < 64 -> enc_char v <> "="%char.
Proof. intros Hv He. pose proof (dec_enc_char v Hv) as H. by rewrite He in H. Qed.

Lemma whitespace_not_sextet c : is_ascii_whitespace c = true -> dec_char c = None.
Proof.
  unfold is_ascii_whitespace, dec_char. pose proof (code_range c).
  set (n := code c). intros Hw.
  repeat rewrite orb_true_iff in Hw. rewrite !Z.eqb_eq in Hw.
  destruct Hw as [[[[-> | ->] | ->] | ->] | ->]; reflexivity.
Qed.

Lemma enc_char_not_whitespace v :
  0 <= v < 64 -> is_ascii_whitespace (enc_char v) = false.
Proof.
  intros Hv. destruct (is_ascii_whitespace (enc_char v)) eqn:E; [|done].
  apply whitespace_not_sextet in E. by rewrite dec_enc_char in E.
Qed.

(** ** Groups *)


Lemma enc_sextets_range bs :
  Forall byte_range bs -> Forall sextet_range (enc_sextets bs).
Proof.
  unfold byte_range, sextet_range.
  induction bs as [|a|a b|a b c l IH] using list_ind3; intros H;
    repeat rewrite Forall_cons in H; destruct_and?; simpl;
    repeat (rewrite ?Forall_app, ?Forall_cons; split); auto.
  all: Z.div_mod_to_equations; lia.
Qed.

(** Decoding the sextets of a byte string gives it back. *)
Lemma dec_enc_sextets bs :
  Forall byte_range bs -> dec_sextets (enc_sextets bs) = bs.
Proof.
  unfold byte_range.
  induction bs as [|a|a b|a b c l IH] using list_ind3; intros H;
    repeat rewrite Forall_cons in H; destruct_and?; simpl; [done|..];
    repeat f_equal; auto; Z.div_mod_to_equations; lia.
Qed.

Lemma padding_S3 n : padding (S (S (S n))) = padding n.
Proof.
  unfold padding. replace (S (S (S n))) with (n + 1 * 3)%nat by lia.
  by rewrite Nat.Div0.mod_add.
Qed.

Lemma enc_sextets_length bs :
  Nat.modulo (length (enc_sextets bs) + length (padding (length bs))) 4 = 0%nat /\
  Nat.modulo (length (enc_sextets bs)) 4 <> 1%nat /\
  (padding (length bs) <> [] -> enc_sextets bs <> []).
Proof.
  induction bs as [|a|a b|a b c l IH] using list_ind3; [done..|].
  simpl length. rewrite padding_S3. simpl enc_sextets.
  destruct IH as (H1 & H2 & _). simpl length.
  split; [|split]; [lia|lia|done].
Qed.

Lemma mapM_dec_enc vs :
  Forall sextet_range vs -> mapM dec_char (map enc_char vs) = Some vs.
Proof.
  induction vs as [|v vs IH]; intros H; [done|].
  apply Forall_cons in H as [Hv Hvs]. simpl.
  rewrite dec_enc_char by done. simpl. by rewrite IH.
Qed.

(** ** Padding *)

Lemma rev_last_not_pad (u : list ascii) :
  Forall (fun c => c <> "="%char) u -> u <> [] ->
  exists c r, rev u = c :: r /\ c <> "="%char.
Proof.
  intros Hu Hne. destruct (rev u) as [|c r] eqn:E.
  - apply (f_equal (@rev ascii)) in E. rewrite rev_involutive in E. by subst.
  - exists c, r. split; [done|].
    assert (Hc : In c (rev u)) by (rewrite E; left; reflexivity).
    apply in_rev in Hc. rewrite List.Forall_forall in Hu. by apply Hu.
Qed.

Lemma strip_padding_enc u p :
  Forall (fun c => c <> "="%char) u ->
  p = [] \/ (p = ["="%char] /\ u <> []) \/ p = ["="; "="]%char ->
  Nat.modulo (length (u ++ p)) 4 = 0%nat ->
  strip_padding (u ++ p) = u.
Proof.
  intros Hu Hp Hlen. unfold strip_padding. rewrite Hlen. simpl.
  rewrite rev_app_distr.
  destruct Hp as [-> | [[-> Hne] | ->]]; simpl.
  - rewrite app_nil_r. destruct (decide (u = [])) as [->|Hne]; [done|].
    destruct (rev_last_not_pad u Hu Hne) as (c & r & -> & Hc).
    destruct r; repeat case_decide; try contradiction; done.
  - destruct (rev_last_not_pad u Hu Hne) as (c & r & Er & Hc). rewrite Er.
    repeat case_decide; try contradiction. by rewrite <- (rev_involutive u), Er.
  - by rewrite rev_involutive.
Qed.

Lemma code_bytes s : Forall byte_range (map code s).
Proof.
  apply List.Forall_forall. intros b Hb.
  apply in_map_iff in Hb as (c & <- & _). apply code_range.
Qed.

Lemma padding_cases n :
  padding n = [] \/ padding n = ["="%char] \/ padding n = ["="; "="]%char.
Proof.
  unfold padding. destruct (Nat.modulo n 3) as [|[|[|k]]]; auto.
Qed.

Lemma btoa_no_whitespace s :
  forallb (fun c => negb (is_ascii_whitespace c)) (btoa s) = true.
Proof.
  unfold btoa. rewrite forallb_app. apply andb_true_intro. split.
  - apply forallb_forall. intros c Hc. apply in_map_iff in Hc as (v & <- & Hv).
    pose proof (enc_sextets_range _ (code_bytes s)) as Hr.
    rewrite List.Forall_forall in Hr. by rewrite enc_char_not_whitespace by (apply Hr; done).
  - by destruct (padding_cases (length s)) as [-> | [-> | ->]].
Qed.

Lemma strip_padding_keeps c l :
  In c l -> c <> "="%char -> In c (strip_padding l).
Proof.
  intros Hc Hne. unfold strip_padding. destruct (Nat.eqb _ 0); [|done].
  pose proof (in_rev l c) as [Hr _]. specialize (Hr Hc).
  destruct (rev l) as [|c1 [|c2 r]] eqn:E; [done| |].
  - case_decide as Hc1; [|done]. destruct Hr as [Hcc|[]]. congruence.
  - case_decide as Hc1; [|done]. case_decide as Hc2.
    + destruct Hr as [Hcc|[Hcc|Hr]]; [congruence|congruence|]. by rewrite <- in_rev.
    + destruct Hr as [Hcc|Hr]; [congruence|]. by rewrite <- in_rev.
Qed.

Lemma mapM_None_in {A B} (f : A -> option B) l x :
  In x l -> f x = None -> mapM f l = None.
Proof.
  induction l as [|y l IH]; [done|]. intros [->|Hx] Hf; simpl.
  - by rewrite Hf.
  - destruct (f y); [|done]. simpl. by rewrite IH.
Qed.

(** ** Round trip and errors *)

(** [atob] inverts [btoa] on every binary string. *)
Theorem atob_btoa s : atob (btoa s) = Ok s.
Proof.
  pose proof (code_bytes s) as Hb. pose proof (enc_sextets_range _ Hb) as Hr.
  destruct (enc_sextets_length (map code s)) as (Hl4 & Hl1 & Hne).
  rewrite length_map in Hl4, Hne.
  unfold atob. rewrite (forallb_filter_id _ _ (btoa_no_whitespace s)).
  unfold btoa. rewrite strip_padding_enc.
  - rewrite length_map. apply Nat.eqb_neq in Hl1. rewrite Hl1.
    rewrite mapM_dec_enc, dec_enc_sextets by done.
    f_equal. rewrite map_map. rewrite <- (map_id s) at 2.
    apply map_ext, chr_code.
  - apply List.Forall_forall. intros c Hc. apply in_map_iff in Hc as (v & <- & Hv).
    rewrite List.Forall_forall in Hr. by apply enc_char_not_pad, Hr.
  - destruct (padding_cases (length s)) as [E | [E | E]]; rewrite E in Hne |- *; auto.
    right; left. split; [done|]. intros Hu. apply map_eq_nil in Hu. by apply Hne.
  - by rewrite length_app, length_map.
Qed.

Lemma decode_encode_bytes bs : Forall byte_range bs -> decode (encode bs) = Ok bs.
Proof.
  intros Hb. unfold decode, encode. rewrite atob_btoa. simpl. f_equal.
  rewrite map_map. rewrite <- (map_id bs) at 2. apply List.map_ext_in.
  intros b Hin. rewrite List.Forall_forall in Hb. by apply code_chr, Hb.
Qed.

(** [decode] inverts [encode] on every byte string: the PCM bytes
    sent over the live session come back unchanged. *)
Theorem decode_encode bs : Forall byte_range bs -> decode (encode bs) = Ok bs.
Proof. apply decode_encode_bytes. Qed.

Lemma decode_encode_witness :
  Forall byte_range [0; 255; 128] /\ decode (encode [0; 255; 128]) = Ok [0; 255; 128].
Proof.
  assert (H : Forall byte_range [0; 255; 128]) by
    (repeat constructor; unfold byte_range; lia).
  split; [exact H|]. exact (decode_encode _ H).
Defined.

(** a character outside the alphabet, other than whitespace and
    padding (such as the [-] and [_] of URL-safe base64), makes [decode]
    throw [InvalidCharacterError]. *)
Theorem decode_invalid s c :
  In c s -> dec_char c = None -> is_ascii_whitespace c = false -> c <> "="%char ->
  decode s = Throw "InvalidCharacterError".
Proof.
  intros Hin Hd Hw Hp. unfold decode, atob.
  set (data := strip_padding _).
  assert (Hc : In c data).
  { apply strip_padding_keeps; [|done]. apply filter_In. by rewrite Hw. }
  destruct (Nat.eqb _ 1); [done|].
  by rewrite (mapM_None_in _ _ _ Hc Hd).
Qed.

Lemma decode_invalid_witness :
  decode (String.list_ascii_of_string "TW-u") = Throw "InvalidCharacterError".
Proof.
  apply (decode_invalid _ "-"%char); [simpl; auto | reflexivity | reflexivity | discriminate].
Defined.

End Base64.
