(* ===== verification/JsString.v ===== *)
(** * The JavaScript string built-ins the sources call

    [String.prototype.includes], [toLowerCase], [trim] and [split] with a
    one-character separator, the falsy-string [||] of JS, and
    [RegExp.prototype.test] of a case-insensitive alternation of literal
    words ([/code|math|.../i]).  None of them is code of the repository:
    they are modelled from the ECMAScript specification on strings of
    Latin-1 code units ([ascii]), which is all the sources feed them in the
    verified statements.

    - [includes s p] is true when [p] occurs in [s] at some index
      (the empty word occurs everywhere);
    - [toLowerCase] maps [A-Z] and the Latin-1 capitals [U+00C0-U+00DE]
      (but [U+00D7]) to their small letters;
    - [trim] drops the leading and trailing [WhiteSpace] and
      [LineTerminator] code units of Latin-1: tab, LF, VT, FF, CR, space
      and no-break space;
    - [split_on sep s] is [s.split(sep)]: the pieces between the
      occurrences of [sep], one more piece than occurrences;
    - [regex_test_i ws s] is [/w1|w2|.../i.test(s)] for ASCII words: in
      non-unicode case-insensitive mode both sides are canonicalised by
      [toUpperCase], and no code unit above 127 canonicalises to ASCII, so
      a code unit matches an ASCII pattern letter exactly when it is that
      letter in either case. *)

From S2P Require Import Prelude.
From Stdlib Require Import Ascii.

Module JsString.

#[local] Open Scope nat_scope.
#[local] Arguments String.append : simpl nomatch.

(** ** Code units *)

Definition cu (c : ascii) : nat := Ascii.nat_of_ascii c.

Definition is_js_whitespace (c : ascii) : bool :=
  match cu c with
  | 9 | 10 | 11 | 12 | 13 | 32 | 160 => true
  | _ => false
  end.

Definition lower_cu (c : ascii) : ascii :=
  let n := cu c in
  if (65 <=? n) && (n <=? 90) then Ascii.ascii_of_nat (n + 32)
  else if (192 <=? n) && (n <=? 222) && negb (n =? 215) then Ascii.ascii_of_nat (n + 32)
  else c.

(** [Canonicalize] of the non-unicode case-insensitive matcher restricted
    to what an ASCII pattern character can equal. *)
Definition upper_ascii (c : ascii) : ascii :=
  let n := cu c in
  if (97 <=? n) && (n <=? 122) then Ascii.ascii_of_nat (n - 32) else c.

Definition ci_eq (a b : ascii) : bool :=
  bool_decide (upper_ascii a = upper_ascii b).

(** ** String operations *)

Fixpoint map_cu (f : ascii -> ascii) (s : string) : string :=
  match s with
  | EmptyString => EmptyString
  | String c s' => String (f c) (map_cu f s')
  end.

Definition toLowerCase (s : string) : string := map_cu lower_cu s.

(** Does [p] occur at the start of [s], code units compared by [eq]? *)
Fixpoint starts_with_by (eq : ascii -> ascii -> bool) (p s : string) : bool :=
  match p, s with
  | EmptyString, _ => true
  | String a p', String b s' => eq b a && starts_with_by eq p' s'
  | String _ _, EmptyString => false
  end.

Fixpoint includes_by (eq : ascii -> ascii -> bool) (s p : string) : bool :=
  starts_with_by eq p s ||
  match s with
  | EmptyString => false
  | String _ s' => includes_by eq s' p
  end.

Definition ascii_eqb (a b : ascii) : bool := bool_decide (a = b).

Definition includes (s p : string) : bool := includes_by ascii_eqb s p.

Definition regex_test_i (words : list string) (s : string) : bool :=
  existsb (includes_by ci_eq s) words.

Fixpoint trim_start (s : string) : string :=
  match s with
  | String c s' => if is_js_whitespace c then trim_start s' else s
  | EmptyString => EmptyString
  end.

Definition rev_str (s : string) : string :=
  String.string_of_list_ascii (rev (String.list_ascii_of_string s)).

Definition trim (s : string) : string := rev_str (trim_start (rev_str (trim_start s))).

(** [s.split(sep)]: the current piece is accumulated in reverse. *)
Fixpoint split_acc (sep : ascii) (cur : list ascii) (s : string) : list string :=
  match s with
  | EmptyString => [String.string_of_list_ascii (rev cur)]
  | String c s' =>
      if ascii_eqb c sep
      then String.string_of_list_ascii (rev cur) :: split_acc sep [] s'
      else split_acc sep (c :: cur) s'
  end.

Definition split_on (sep : ascii) (s : string) : list string := split_acc sep [] s.

(** [a || b] on strings: the empty string is falsy. *)
Definition str_or (a b : string) : string :=
  match a with EmptyString => b | _ => a end.

(** [a || b] where [a] may be [undefined]. *)
Definition opt_str_or (a : option string) (b : string) : string :=
  match a with Some a' => str_or a' b | None => b end.

(** [String(x)] of [undefined] in a template literal. *)
Definition show_opt (a : option string) : string :=
  match a with Some a' => a' | None => "undefined"%string end.

Definition all_ws (s : string) : bool :=
  forallb is_js_whitespace (String.list_ascii_of_string s).

(** ** Laws *)

Lemma string_of_list_ascii_app (l1 l2 : list ascii) :
  String.string_of_list_ascii (l1 ++ l2) =
  String.append (String.string_of_list_ascii l1) (String.string_of_list_ascii l2).
Proof. induction l1 as [|a l1 IH]; simpl; [done|]. by rewrite IH. Qed.

Lemma append_assoc (a b c : string) :
  String.append a (String.append b c) = String.append (String.append a b) c.
Proof. induction a as [|x a IH]; simpl; [done|]. by rewrite IH. Qed.

Lemma append_nil_r (a : string) : String.append a EmptyString = a.
Proof. induction a as [|x a IH]; simpl; [done|]. by rewrite IH. Qed.

Lemma starts_with_spec (p s : string) :
  starts_with_by ascii_eqb p s = true <-> exists y, s = String.append p y.
Proof.
  revert s; induction p as [|a p IH]; intros [|b s]; simpl.
  - split; [by exists EmptyString | done].
  - split; [by exists (String b s) | done].
  - split; [discriminate | intros [y Hy]; discriminate].
  - unfold ascii_eqb. rewrite andb_true_iff, bool_decide_eq_true, IH.
    split; [intros [-> [y ->]]; eauto | intros [y Hy]; injection Hy as -> ->; eauto].
Qed.

(** [includes] is the reference "occurs somewhere" predicate. *)
Lemma includes_spec (s p : string) :
  includes s p = true <-> exists x y, s = String.append x (String.append p y).
Proof.
  unfold includes. induction s as [|c s IH]; simpl; rewrite orb_true_iff, starts_with_spec.
  - split.
    + intros [[y Hy]|Hf]; [exists EmptyString, y; exact Hy | discriminate].
    + intros [[|c' x] [y Hy]]; [left; exists y; exact Hy | discriminate].
  - rewrite IH. split.
    + intros [[y Hy]|[x [y Hy]]]; [exists EmptyString, y; exact Hy|].
      exists (String c x), y. simpl. by rewrite Hy.
    + intros [[|c' x] [y Hy]]; [left; exists y; exact Hy|].
      simpl in Hy. injection Hy as -> ->. right; eauto.
Qed.

Lemma includes_append (x p y : string) : includes (String.append x (String.append p y)) p = true.
Proof. apply includes_spec. eauto. Qed.

Lemma split_acc_cons sep cur s : exists h t, split_acc sep cur s = h :: t.
Proof.
  revert cur; induction s as [|c s IH]; intros cur; simpl; [eauto|].
  destruct (ascii_eqb c sep); eauto.
Qed.

Lemma split_acc_join sep cur s :
  String.concat (String sep EmptyString) (split_acc sep cur s) =
  String.append (String.string_of_list_ascii (rev cur)) s.
Proof.
  revert cur; induction s as [|c s IH]; intros cur; simpl.
  - by rewrite append_nil_r.
  - unfold ascii_eqb. destruct (decide (c = sep)) as [->|Hc].
    + rewrite bool_decide_eq_true_2 by done. destruct (split_acc_cons sep [] s) as (h & t & Ht).
      specialize (IH []). rewrite Ht in IH |- *. simpl in IH |- *.
      rewrite IH. reflexivity.
    + rewrite bool_decide_eq_false_2 by done.
      rewrite IH. simpl. rewrite string_of_list_ascii_app, <- append_assoc. reflexivity.
Qed.


Lemma trim_start_empty s : trim_start s = EmptyString <-> all_ws s = true.
Proof.
  unfold all_ws. induction s as [|c s IH]; simpl; [done|].
  destruct (is_js_whitespace c); simpl; [done|]. split; discriminate.
Qed.

Lemma trim_start_nonws s :
  trim_start s = EmptyString \/ exists c s', trim_start s = String c s' /\ is_js_whitespace c = false.
Proof.
  induction s as [|c s IH]; simpl; [auto|].
  destruct (is_js_whitespace c) eqn:E; eauto.
Qed.

Lemma all_ws_rev s : all_ws (rev_str s) = all_ws s.
Proof.
  unfold all_ws, rev_str. rewrite String.list_ascii_of_string_of_list_ascii.
  induction (String.list_ascii_of_string s) as [|c l IH]; simpl; [done|].
  rewrite forallb_app, IH. simpl. rewrite andb_true_r, andb_comm. reflexivity.
Qed.

Lemma rev_str_empty s : rev_str s = EmptyString <-> s = EmptyString.
Proof.
  unfold rev_str. destruct s as [|c s]; simpl; [done|].
  split; [|discriminate]. intros H.
  apply (f_equal String.list_ascii_of_string) in H.
  rewrite String.list_ascii_of_string_of_list_ascii in H. destruct (rev _); discriminate.
Qed.

Lemma all_ws_trim_start s : all_ws (trim_start s) = all_ws s.
Proof.
  unfold all_ws. induction s as [|c s IH]; simpl; [done|].
  destruct (is_js_whitespace c) eqn:E; simpl; rewrite ?E; done.
Qed.

(** [trim] empties exactly the all-whitespace strings. *)
Lemma trim_empty s : trim s = EmptyString <-> all_ws s = true.
Proof.
  unfold trim. rewrite rev_str_empty, trim_start_empty, all_ws_rev, all_ws_trim_start. done.
Qed.

(** ** Case-insensitive matching *)

Lemma upper_ascii_idem c : upper_ascii (upper_ascii c) = upper_ascii c.
Proof. destruct c as [[] [] [] [] [] [] [] []]; reflexivity. Qed.

Lemma ci_eq_refl c : ci_eq c c = true.
Proof. unfold ci_eq. by apply bool_decide_eq_true_2. Qed.

Lemma ci_eq_upper c a : ci_eq (upper_ascii c) a = ci_eq c a.
Proof. unfold ci_eq. by rewrite upper_ascii_idem. Qed.

Lemma starts_with_ci_refl w y : starts_with_by ci_eq w (String.append w y) = true.
Proof. induction w as [|c w IH]; simpl; [done|]. by rewrite ci_eq_refl, IH. Qed.

Lemma includes_by_here eq s p : starts_with_by eq p s = true -> includes_by eq s p = true.
Proof. intros H. destruct s; simpl; by rewrite H. Qed.

Lemma includes_by_later eq c s p : includes_by eq s p = true -> includes_by eq (String c s) p = true.
Proof. intros H. simpl. by rewrite H, orb_true_r. Qed.

(** A word occurs, up to case, in any string built around it. *)
Lemma includes_ci_append x w y : includes_by ci_eq (String.append x (String.append w y)) w = true.
Proof.
  induction x as [|c x IH].
  - apply includes_by_here. exact (starts_with_ci_refl w y).
  - by apply includes_by_later.
Qed.

Lemma starts_with_ci_upper w s :
  starts_with_by ci_eq w (map_cu upper_ascii s) = starts_with_by ci_eq w s.
Proof.
  revert s; induction w as [|a w IH]; intros [|c s]; simpl; try done.
  by rewrite ci_eq_upper, IH.
Qed.

(** Upper-casing the subject does not change a case-insensitive match. *)
Lemma includes_ci_upper s w : includes_by ci_eq (map_cu upper_ascii s) w = includes_by ci_eq s w.
Proof.
  induction s as [|c s IH]; simpl; [done|].
  rewrite IH. f_equal. apply (starts_with_ci_upper w (String c s)).
Qed.

Lemma ci_eq_upper_r c a : ci_eq c (upper_ascii a) = ci_eq c a.
Proof. unfold ci_eq. by rewrite upper_ascii_idem. Qed.

Lemma starts_with_ci_upper_pat w s :
  starts_with_by ci_eq (map_cu upper_ascii w) s = starts_with_by ci_eq w s.
Proof.
  revert s; induction w as [|a w IH]; intros [|c s]; simpl; try done.
  by rewrite ci_eq_upper_r, IH.
Qed.

(** Upper-casing the pattern does not change a case-insensitive match. *)
Lemma includes_ci_upper_pat s w : includes_by ci_eq s (map_cu upper_ascii w) = includes_by ci_eq s w.
Proof.
  induction s as [|c s IH]; simpl; rewrite starts_with_ci_upper_pat; [done|]. by rewrite IH.
Qed.

Lemma regex_test_i_upper ws s : regex_test_i ws (map_cu upper_ascii s) = regex_test_i ws s.
Proof.
  unfold regex_test_i. induction ws as [|w ws IH]; simpl; [done|]. by rewrite includes_ci_upper, IH.
Qed.

Lemma map_cu_length f s : String.length (map_cu f s) = String.length s.
Proof. induction s; simpl; auto. Qed.

(** ** Splitting at a separator *)

Lemma includes_single_cons c s sep :
  includes (String c s) (String sep EmptyString) = false ->
  c <> sep /\ includes s (String sep EmptyString) = false.
Proof.
  unfold includes, ascii_eqb. simpl. rewrite andb_true_r.
  intros [H1 H2]%orb_false_iff. split; [|done].
  intros ->. by rewrite bool_decide_eq_true_2 in H1.
Qed.

Lemma includes_single_app a b sep :
  includes a (String sep EmptyString) = false -> includes b (String sep EmptyString) = false ->
  includes (String.append a b) (String sep EmptyString) = false.
Proof.
  intros Ha Hb. induction a as [|c a IH]; simpl; [done|].
  apply includes_single_cons in Ha as [Hc Ha].
  unfold includes, ascii_eqb in *. simpl. rewrite andb_true_r, IH by done.
  by rewrite bool_decide_eq_false_2.
Qed.

Lemma split_acc_skip sep cur x z :
  includes x (String sep EmptyString) = false ->
  split_acc sep cur (String.append x z) =
  split_acc sep (rev (String.list_ascii_of_string x) ++ cur) z.
Proof.
  revert cur; induction x as [|c x IH]; intros cur Hx; simpl; [done|].
  apply includes_single_cons in Hx as [Hc Hx].
  unfold ascii_eqb. rewrite bool_decide_eq_false_2 by done.
  rewrite IH by done. by rewrite <- app_assoc.
Qed.

Lemma split_acc_last sep cur y :
  includes y (String sep EmptyString) = false ->
  split_acc sep cur y = [String.append (String.string_of_list_ascii (rev cur)) y].
Proof.
  intros Hy. rewrite <- (append_nil_r y) at 1. rewrite split_acc_skip by done.
  simpl. by rewrite rev_app_distr, rev_involutive, string_of_list_ascii_app,
    String.string_of_list_ascii_of_string.
Qed.

#[export] Hint Resolve includes_append includes_ci_append : giga.

End JsString.
