(* ===== verification/Gemini.v ===== *)
(** * The service layer: text and images (src/geminiService.ts)

    [GeminiService.generateTextStream] (lines 15-64) and
    [GeminiService.generateImage] (lines 69-104).  The SDK is a collaborator
    of the repository: it is a record of answers ([TextBackend],
    [ImageBackend]) that the theorems quantify over, and the requests the
    code builds (model name, parts, configuration) are data the theorems
    read off.

    - [generateTextStream] is an async generator; its observable run is
      the list of chunks it yields together with the error its consumer's
      [for await] sees, if any ([stream_run]).  The client is built before
      the [try] (line 16), so a failing constructor reaches the consumer;
      every error inside the [try] becomes one last chunk, "Neural uplink
      interrupted. Re-syncing systems...".
    - [generateImage] runs in the [js] monad over a log of the calls it
      makes ([Effect]), so that the theorems can say which model was asked
      and when [openSelectKey] runs.

    The system instruction comes from a file outside the sources; it is
    the variable [SYSTEM_INSTRUCTION] of the section. *)

From S2P Require Import Prelude JsString.
From Stdlib Require Import Ascii QArith.

Module Gemini.
Import JsString.

#[local] Open Scope string_scope.

(** ** Request and response shapes of the SDK *)

Record InlineData := { inline_data : string; inline_mime : string }.

Inductive ReqPart :=
| PartText (text : string)
| PartInline (d : InlineData).

Inductive Tool := GoogleSearch.

Record GenConfig := {
  systemInstruction : string;
  thinkingBudget : Z;
  temperature : Q;
  tools : list Tool
}.

Inductive TextRequest :=
| GenerateContentStream (model : string) (parts : list ReqPart) (config : GenConfig)
| SendMessageStream (model : string) (config : GenConfig) (message : string).

(** The SDK's [GroundingChunk] as the view reads it: an optional [web]
    source with an optional [uri] and [title]. *)
Record Web := { web_uri : option string; web_title : option string }.
Record GroundingChunk := { gc_web : option Web }.

(** A streamed [GenerateContentResponse]: its [text] and the grounding
    chunks of its first candidate,
    [candidates?.[0]?.groundingMetadata?.groundingChunks]. *)
Record Chunk := { chunk_text : option string; chunk_grounding : option (list GroundingChunk) }.

(** The SDK's answer to a streaming request: the call itself rejects, or
    the stream yields its chunks and then ends or throws. *)
Record TextBackend := {
  text_client : outcome unit;
  stream_of : TextRequest -> outcome (list Chunk * option string)
}.

(** The calls the service makes to the SDK and to the key selector. *)
Inductive Effect :=
| OpenSelectKey
| ImageCall (model prompt aspectRatio imageSize : string)
| VideoCall (model prompt aspectRatio resolution : string)
| Sleep (ms : Z)
| PollCall (attempt : nat)
| Fetch (url : string)
| CreateObjectURL.

Definition Log := list Effect.

Definition emit (e : Effect) : js Log unit := js_modify (fun l => (l ++ [e])%list).

(** ** [generateTextStream] *)

Section Text.
Context (SYSTEM_INSTRUCTION : string).

(** The two regular expressions of lines 19 and 30, as their alternatives. *)
Definition complex_words : list string :=
  ["code"; "math"; "analyze"; "research"; "reasoning"; "write a book"; "report"].
Definition search_words : list string :=
  ["news"; "today"; "recent"; "current"; "weather"; "latest"; "olympics"; "president"; "price"].

Definition isComplex (prompt : string) : bool :=
  regex_test_i complex_words prompt || Nat.ltb 600 (String.length prompt).

Definition modelName (prompt : string) : string :=
  if isComplex prompt then "gemini-3-pro-preview" else "gemini-3-flash-preview".

Definition text_config (prompt : string) : GenConfig := {|
  systemInstruction := SYSTEM_INSTRUCTION;
  thinkingBudget := 0;
  temperature := 7 # 10;
  tools := if regex_test_i search_words prompt then [GoogleSearch] else []
|}.

(** [if (imageBase64)]: [undefined] and the empty string are falsy. *)
Definition truthy (o : option string) : option string :=
  match o with Some (String _ _) => o | _ => None end.

(** [imageBase64.split(',')[1] || imageBase64]: the payload of a data URL. *)
Definition image_payload (img : string) : string :=
  opt_str_or (nth_error (split_on "," img) 1) img.

Definition text_request (prompt : string) (imageBase64 mimeType : option string) : TextRequest :=
  match truthy imageBase64 with
  | Some img =>
      GenerateContentStream (modelName prompt)
        [PartText prompt;
         PartInline {| inline_data := image_payload img;
                       inline_mime := opt_str_or mimeType "image/jpeg" |}]
        (text_config prompt)
  | None => SendMessageStream (modelName prompt) (text_config prompt) prompt
  end.

Definition uplink_error_chunk : Chunk :=
  {| chunk_text := Some "Neural uplink interrupted. Re-syncing systems...";
     chunk_grounding := None |}.

(** The run of the generator: what it yields and what its consumer's
    iteration throws.  [history] is a parameter of the source that its body
    never reads. *)
Definition generateTextStream {H} (b : TextBackend) (prompt : string) (history : list H)
    (imageBase64 mimeType : option string) : list Chunk * option string :=
  match text_client b with
  | Throw e => ([], Some e)
  | Ok _ =>
      match stream_of b (text_request prompt imageBase64 mimeType) with
      | Throw _ => ([uplink_error_chunk], None)
      | Ok (cs, None) => (cs, None)
      | Ok (cs, Some _) => ((cs ++ [uplink_error_chunk])%list, None)
      end
  end.

End Text.

(** ** [generateImage] *)

Record RespPart := { inlineData : option (option string) }.
Record Candidate := { content_parts : option (list RespPart) }.

Record ImageBackend := {
  aistudio : bool;
  hasSelectedApiKey : bool;
  image_client : outcome unit;
  generateContent : string -> string -> string -> string -> outcome (option (list Candidate))
}.

Definition not_found_msg : string := "Requested entity was not found".

(** The [catch] of lines 98-103 and 145-150: a missing key reopens the
    key selector, and the error is thrown again. *)
Definition on_error {A} (has_aistudio : bool) (msg : string) : js Log A :=
  _ ← (if includes msg not_found_msg && has_aistudio then emit OpenSelectKey else mret tt);
  js_throw msg.

(** [for (const part of parts) if (part.inlineData) return ...]. *)
Fixpoint first_inline (ps : list RespPart) : option (option string) :=
  match ps with
  | [] => None
  | p :: ps' => match inlineData p with Some d => Some d | None => first_inline ps' end
  end.

Definition image_model (highQuality : bool) : string :=
  if highQuality then "gemini-3-pro-image-preview" else "gemini-2.5-flash-image".

Definition image_body (b : ImageBackend) (prompt aspectRatio : string) (highQuality : bool) :
    js Log string :=
  let model := image_model highQuality in
  let size := if highQuality then "2K" else "1K" in
  _ ← emit (ImageCall model prompt aspectRatio size);
  resp ← js_lift (generateContent b model prompt aspectRatio size);
  match resp ≫= head with
  | None => js_throw "Synthesis failed: No candidates returned."
  | Some cand =>
      match content_parts cand with
      | None => js_throw "TypeError: candidate.content.parts is not iterable"
      | Some ps =>
          match first_inline ps with
          | Some d => mret ("data:image/png;base64," +:+ show_opt d)
          | None => js_throw "Visual buffer empty."
          end
      end
  end.

Definition generateImage (b : ImageBackend) (prompt aspectRatio : string) (highQuality : bool) :
    js Log string :=
  _ ← (if highQuality && aistudio b && negb (hasSelectedApiKey b) then emit OpenSelectKey else mret tt);
  _ ← js_lift (image_client b);
  js_catch (image_body b prompt aspectRatio highQuality) (on_error (aistudio b)).

(** ** Sample inputs *)

Definition demo_chunk : Chunk := {| chunk_text := Some "Hel"; chunk_grounding := None |}.

(** A backend whose stream yields one chunk and then breaks off. *)
Definition demo_text_backend : TextBackend :=
  {| text_client := Ok tt; stream_of := fun _ => Ok ([demo_chunk], Some "network error") |}.

(** An image backend whose first candidate has a text part and then an
    inline part, in a studio where no key is selected yet. *)
Definition demo_image_backend : ImageBackend := {|
  aistudio := true;
  hasSelectedApiKey := false;
  image_client := Ok tt;
  generateContent := fun _ _ _ _ =>
    Ok (Some [{| content_parts := Some [{| inlineData := None |};
                                         {| inlineData := Some (Some "iVBO") |}] |}])
|}.

(** ** Laws *)

#[local] Arguments String.append : simpl nomatch.

Lemma isComplex_spec p :
  isComplex p = true <->
  (exists w, In w complex_words /\ includes_by ci_eq p w = true) \/ (600 < String.length p)%nat.
Proof.
  unfold isComplex, regex_test_i. rewrite orb_true_iff, existsb_exists, Nat.ltb_lt.
  reflexivity.
Qed.

Lemma image_payload_raw img : includes img "," = false -> image_payload img = img.
Proof. intros H. unfold image_payload, split_on. by rewrite split_acc_last by done. Qed.

Lemma generateImage_unfold b p ar hq l :
  generateImage b p ar hq l =
  let l1 := (l ++ (if hq && aistudio b && negb (hasSelectedApiKey b) then [OpenSelectKey] else []))%list in
  match image_client b with
  | Throw e => (l1, Throw e)
  | Ok _ =>
      match image_body b p ar hq l1 with
      | (l2, Throw e) => on_error (aistudio b) e l2
      | r => r
      end
  end.
Proof.
  unfold generateImage. js_simpl.
  destruct (hq && aistudio b && negb (hasSelectedApiKey b)); simpl; rewrite ?app_nil_r;
    destruct (image_client b); reflexivity.
Qed.

Lemma image_body_log b p ar hq l :
  fst (image_body b p ar hq l) =
  (l ++ [ImageCall (image_model hq) p ar (if hq then "2K" else "1K")])%list.
Proof.
  unfold image_body, emit. js_simpl.
  destruct (generateContent _ _ _ _ _) as [[[|cand cands]|]|]; simpl; try reflexivity.
  destruct (content_parts cand); simpl; [|reflexivity].
  by destruct (first_inline _).
Qed.

Lemma image_body_state b p ar hq l l' : snd (image_body b p ar hq l) = snd (image_body b p ar hq l').
Proof.
  unfold image_body, emit. js_simpl.
  destruct (generateContent _ _ _ _ _) as [[[|cand cands]|]|]; simpl; try reflexivity.
  destruct (content_parts cand); simpl; [|reflexivity].
  by destruct (first_inline _).
Qed.

Lemma image_body_ok b p ar hq l url :
  snd (image_body b p ar hq l) = Ok url ->
  exists cand cands ps d,
    generateContent b (image_model hq) p ar (if hq then "2K" else "1K") = Ok (Some (cand :: cands)) /\
    content_parts cand = Some ps /\ first_inline ps = Some d /\
    url = "data:image/png;base64," +:+ show_opt d.
Proof.
  unfold image_body, emit. js_simpl.
  destruct (generateContent _ _ _ _ _) as [[[|cand cands]|]|]; simpl; try discriminate.
  destruct (content_parts cand) as [ps|] eqn:Ep; simpl; [|discriminate].
  destruct (first_inline ps) as [d|] eqn:Ed; simpl; [|discriminate].
  intros [= <-]. eauto 10.
Qed.

(** Routing of [generateTextStream] (line 19): the pro model is asked
    exactly when one of the words of the regular expression occurs in the
    prompt, compared without case, or the prompt is longer than 600 code
    units; in particular a prompt that contains a word, in whatever case
    and inside whatever longer word, goes to the pro model. *)
Theorem modelName_routes p :
  (modelName p = "gemini-3-pro-preview" <->
   (exists w, In w complex_words /\ includes_by ci_eq p w = true) \/ (600 < String.length p)%nat) /\
  (forall x w y, In w complex_words -> p = String.append x (String.append (map_cu upper_ascii w) y) ->
   modelName p = "gemini-3-pro-preview").
Proof.
  split.
  - rewrite <- isComplex_spec. unfold modelName.
    destruct (isComplex p); split; done.
  - intros x w y Hw ->. unfold modelName.
    replace (isComplex _) with true; [done|]. symmetry. apply isComplex_spec. left.
    exists w. split; [done|]. rewrite <- includes_ci_upper_pat. apply includes_ci_append.
Qed.

(** the search tool (line 30) is attached exactly when a word of the
    second expression occurs in the prompt without regard to case, and
    both routing decisions are blind to the case of the prompt. *)
Theorem search_grounding_routes SI p :
  (tools (text_config SI p) = [GoogleSearch] <->
   exists w, In w search_words /\ includes_by ci_eq p w = true) /\
  modelName (map_cu upper_ascii p) = modelName p /\
  tools (text_config SI (map_cu upper_ascii p)) = tools (text_config SI p).
Proof.
  unfold text_config, modelName, isComplex. cbn [tools].
  rewrite !regex_test_i_upper, map_cu_length. split; [|done].
  unfold regex_test_i. rewrite <- existsb_exists.
  destruct (existsb _ _); split; done.
Qed.

Lemma text_stream_no_throw {H} SI b p (h : list H) img mt u :
  text_client b = Ok u -> snd (generateTextStream SI b p h img mt) = None.
Proof.
  intros Hc. unfold generateTextStream. rewrite Hc.
  destruct (stream_of _ _) as [[cs [e|]]|e]; reflexivity.
Qed.

(** [generateTextStream] never throws to its consumer once the client
    is built: every chunk of the SDK's stream is passed on in order, and a
    rejected call or a stream that breaks off ends with the single chunk
    "Neural uplink interrupted. Re-syncing systems...".  Which request
    goes out depends on the image: a non-empty image is sent as the data
    of a data URL next to the prompt, otherwise the prompt goes to a chat. *)
Theorem text_stream_never_throws {H} SI b p (h : list H) img mt u :
  text_client b = Ok u ->
  snd (generateTextStream SI b p h img mt) = None /\
  fst (generateTextStream SI b p h img mt) =
    match stream_of b (text_request SI p img mt) with
    | Throw _ => [uplink_error_chunk]
    | Ok (cs, None) => cs
    | Ok (cs, Some _) => (cs ++ [uplink_error_chunk])%list
    end /\
  (truthy img = None -> text_request SI p img mt = SendMessageStream (modelName p) (text_config SI p) p).
Proof.
  intros Hc. split; [by apply (text_stream_no_throw _ _ _ _ _ _ u)|].
  unfold generateTextStream, text_request. rewrite Hc. split.
  - destruct (stream_of _ _) as [[cs [e|]]|e]; reflexivity.
  - by intros ->.
Qed.

(** the image of a chat message is read as a data URL
    ([FileReader.readAsDataURL]); [split(',')[1] || imageBase64] hands the
    SDK its base64 payload, and a string without a comma is passed whole. *)
Theorem image_payload_data_url mime b64 :
  includes mime "," = false -> includes b64 "," = false -> b64 <> EmptyString ->
  image_payload ("data:" +:+ mime +:+ ";base64," +:+ b64) = b64.
Proof.
  intros Hm Hb Hne. unfold image_payload, split_on.
  replace ("data:" +:+ mime +:+ ";base64," +:+ b64)
    with (("data:" +:+ mime +:+ ";base64") +:+ String "," b64)
    by (rewrite <- !append_assoc; reflexivity).
  rewrite split_acc_skip.
  - cbn [split_acc]. unfold ascii_eqb. rewrite bool_decide_eq_true_2 by done.
    rewrite split_acc_last by done. simpl. by destruct b64.
  - apply includes_single_app; [reflexivity|]. by apply includes_single_app.
Qed.

(** A result of [generateImage] is the result of its [try] body. *)
Lemma generateImage_ok b p ar hq l url :
  snd (generateImage b p ar hq l) = Ok url -> snd (image_body b p ar hq []) = Ok url.
Proof.
  rewrite generateImage_unfold. destruct (image_client b); [|discriminate]. cbv zeta.
  set (l1 := (l ++ _)%list). rewrite (image_body_state b p ar hq [] l1).
  destruct (image_body _ _ _ _ _) as [l2 [v|e]]; simpl; [done|].
  unfold on_error, emit. js_simpl. by destruct (includes e not_found_msg && aistudio b).
Qed.

(** C40: [generateImage] asks the pro image model at 2K exactly for high
    quality; it opens the key selector first when high quality is asked
    and no key is selected; a result is the data URL of the first inline
    part of the first candidate; every error inside the [try] is thrown
    again unchanged, after reopening the key selector when its message
    says the key's entity was not found. *)
Theorem generateImage_contract b p ar hq l u :
  image_client b = Ok u ->
  let pre := if hq && aistudio b && negb (hasSelectedApiKey b) then [OpenSelectKey] else [] in
  let size := if hq then "2K" else "1K" in
  let r := generateImage b p ar hq l in
  snd r = snd (image_body b p ar hq []) /\
  fst r = (l ++ pre ++ [ImageCall (image_model hq) p ar size] ++
           match snd r with
           | Throw e => if includes e not_found_msg && aistudio b then [OpenSelectKey] else []
           | Ok _ => []
           end)%list /\
  (forall url, snd r = Ok url ->
   exists cand cands ps d,
     generateContent b (image_model hq) p ar size = Ok (Some (cand :: cands)) /\
     content_parts cand = Some ps /\ first_inline ps = Some d /\
     url = "data:image/png;base64," +:+ show_opt d).
Proof.
  intros Hc. cbv zeta. rewrite generateImage_unfold, Hc. cbv zeta.
  set (pre := if hq && _ && _ then _ else _).
  pose proof (image_body_log b p ar hq (l ++ pre)%list) as Hl.
  pose proof (image_body_state b p ar hq (l ++ pre)%list []) as Hs.
  destruct (image_body b p ar hq (l ++ pre)%list) as [l2 [v|e]] eqn:E; simpl in Hl, Hs |- *; subst l2.
  - rewrite <- Hs, <- !app_assoc. split_and!; [done|done|].
    intros url [= <-]. apply (image_body_ok b p ar hq []). by rewrite <- Hs.
  - rewrite <- Hs. unfold on_error, emit. js_simpl. rewrite ?E. simpl.
    destruct (includes e not_found_msg && aistudio b) eqn:Ei; simpl; rewrite ?Ei;
      rewrite <- ?app_assoc, ?app_nil_r; split_and!; try done.
Qed.

(** ** Witnesses *)

(** "decode" contains "code": the prompt goes to the pro model. *)
Lemma modelName_routes_witness :
  In "code" complex_words /\ modelName "please deCODE this" = "gemini-3-pro-preview".
Proof.
  split; [simpl; tauto|].
  apply (proj2 (modelName_routes "please deCODE this") "please de" "code" " this");
    [simpl; tauto | reflexivity].
Defined.

Lemma text_stream_never_throws_witness :
  text_client demo_text_backend = Ok tt /\
  generateTextStream "" demo_text_backend "hello" ([] : list unit) None None =
    ([demo_chunk; uplink_error_chunk], None).
Proof.
  split; [reflexivity|].
  destruct (text_stream_never_throws "" demo_text_backend "hello" ([] : list unit) None None tt
    eq_refl) as [H1 [H2 _]].
  destruct (generateTextStream _ _ _ _ _ _) as [ys e]. simpl in H1, H2. subst. reflexivity.
Defined.

Lemma image_payload_data_url_witness :
  includes "image/png" "," = false /\ includes "iVBORw0K" "," = false /\
  image_payload "data:image/png;base64,iVBORw0K" = "iVBORw0K".
Proof.
  split; [reflexivity|]. split; [reflexivity|].
  apply (image_payload_data_url "image/png" "iVBORw0K"); [reflexivity | reflexivity | discriminate].
Defined.

Lemma generateImage_contract_witness :
  image_client demo_image_backend = Ok tt /\
  generateImage demo_image_backend "a lion" "1:1" true [] =
    ([OpenSelectKey; ImageCall "gemini-3-pro-image-preview" "a lion" "1:1" "2K"],
     Ok "data:image/png;base64,iVBO").
Proof.
  split; [reflexivity|].
  destruct (generateImage_contract demo_image_backend "a lion" "1:1" true [] tt eq_refl)
    as [H1 [H2 _]].
  destruct (generateImage _ _ _ _ _) as [l o]. simpl in H1, H2. subst. vm_compute. reflexivity.
Defined.

End Gemini.
