(* ===== verification/Video.v ===== *)
(** * The service layer: the video poll loop (src/geminiService.ts)

    [GeminiService.generateVideo] (lines 109-151): submit a generation job,
    poll its operation every 8000 ms until it is [done], giving up with
    "Cinematic rendering timeout." once [attempts] passes 200 (lines
    129-135), then read the video's URI, fetch it with the API key appended
    and return an object URL of the blob.

    The loop is [poll_loop], a [Fixpoint] on fuel over the log of calls of
    [Gemini] ([Sleep], [PollCall], ...); [attempts] grows by one on each
    turn and the loop ends once it passes 200, so 201 turns are always
    enough ([poll_loop_total]) and more fuel changes nothing
    ([poll_loop_fuel_mono]).  [generateVideo] runs it with 201 turns.  The
    SDK's answers are a [VideoBackend]: the answer to the [n]-th poll is
    [getVideosOperation n]. *)

From S2P Require Import Prelude JsString Gemini.

Module Video.
Import JsString Gemini.


(** An operation: [done] and
    [response?.generatedVideos?.[0]?.video?.uri]. *)
Record Operation := { done : bool; video_uri : option string }.

Record VideoBackend := {
  v_aistudio : bool;
  v_hasSelectedApiKey : bool;
  video_client : outcome unit;
  generateVideos : string -> string -> string -> string -> outcome Operation;
  getVideosOperation : nat -> outcome Operation;
  fetch_ok : string -> bool;
  api_key : option string;
  blob_url : string
}.

Definition timeout_msg : string := "Cinematic rendering timeout."%string.
Definition poll_interval : Z := 8000.
Definition max_attempts : nat := 200.

(** [while (!operation.done) { attempts++; if (attempts > 200) throw ...;
    await sleep(8000); operation = await getVideosOperation(...) }]. *)
Fixpoint poll_loop (b : VideoBackend) (fuel attempts : nat) (op : Operation) (l : Log) :
    option (Log * outcome Operation) :=
  match fuel with
  | O => None
  | S fuel' =>
      if done op then Some (l, Ok op)
      else
        let a := S attempts in
        if Nat.ltb max_attempts a then Some (l, Throw timeout_msg)
        else
          let l' := (l ++ [Sleep poll_interval; PollCall a])%list in
          match getVideosOperation b a with
          | Ok op' => poll_loop b fuel' a op' l'
          | Throw e => Some (l', Throw e)
          end
  end.

(** Turns of the loop that suffice from [attempts = 0]. *)
Definition poll_fuel : nat := S max_attempts.

Definition poll (b : VideoBackend) (op : Operation) : js Log Operation :=
  fun l => match poll_loop b poll_fuel 0 op l with
           | Some r => r
           | None => (l, Throw timeout_msg)
           end.

Definition video_model (resolution : string) : string :=
  if String.eqb resolution "720p"%string then "veo-3.1-fast-generate-preview"%string
  else "veo-3.1-generate-preview"%string.

(** [`${downloadLink}&key=${process.env.API_KEY}`]. *)
Definition download_url (b : VideoBackend) (uri : string) : string :=
  uri +:+ "&key="%string +:+ show_opt (api_key b).

(** Lines 137-144, once the loop has ended. *)
Definition fetch_video (b : VideoBackend) (op : Operation) : js Log string :=
  match video_uri op with
  | None | Some EmptyString => js_throw "Video manifest not found."%string
  | Some uri =>
      _ ← emit (Fetch (download_url b uri));
      if fetch_ok b (download_url b uri)
      then _ ← emit CreateObjectURL; mret (blob_url b)
      else js_throw "Asset retrieval failure."%string
  end.

Definition video_body (b : VideoBackend) (prompt aspectRatio resolution : string) : js Log string :=
  let model := video_model resolution in
  _ ← emit (VideoCall model prompt aspectRatio resolution);
  op ← js_lift (generateVideos b model prompt aspectRatio resolution);
  op' ← poll b op;
  fetch_video b op'.

Definition generateVideo (b : VideoBackend) (prompt aspectRatio resolution : string) : js Log string :=
  _ ← (if v_aistudio b && negb (v_hasSelectedApiKey b) then emit OpenSelectKey else mret tt);
  _ ← js_lift (video_client b);
  js_catch (video_body b prompt aspectRatio resolution) (on_error (v_aistudio b)).

(** The calls a run of [n] turns makes, from attempt [a + 1] on. *)
Definition poll_calls (a n : nat) : Log :=
  flat_map (fun i => [Sleep poll_interval; PollCall i]) (seq (S a) n).

Definition is_poll (e : Effect) : bool :=
  match e with PollCall _ => true | _ => false end.

Definition polls (l : Log) : nat := length (List.filter is_poll l).

(** ** Sample inputs *)

Definition pending_op : Operation := {| done := false; video_uri := None |}.

(** A job that is ready at the third poll, in a deployment where
    [process.env.API_KEY] is not set. *)
Definition demo_video_backend : VideoBackend := {|
  v_aistudio := false;
  v_hasSelectedApiKey := true;
  video_client := Ok tt;
  generateVideos := fun _ _ _ _ => Ok pending_op;
  getVideosOperation := fun n =>
    Ok {| done := Nat.eqb n 3; video_uri := Some "https://v/clip?alt=media"%string |};
  fetch_ok := fun _ => true;
  api_key := None;
  blob_url := "blob:giga/1"%string
|}.

(** A job that never finishes. *)
Definition stuck_video_backend : VideoBackend := {|
  v_aistudio := true;
  v_hasSelectedApiKey := true;
  video_client := Ok tt;
  generateVideos := fun _ _ _ _ => Ok pending_op;
  getVideosOperation := fun _ => Ok pending_op;
  fetch_ok := fun _ => true;
  api_key := Some "k"%string;
  blob_url := "blob:giga/2"%string
|}.

(** ** The loop *)

Lemma poll_calls_S a n :
  poll_calls a (S n) = ([Sleep poll_interval; PollCall (S a)] ++ poll_calls (S a) n)%list.
Proof. reflexivity. Qed.

Lemma poll_loop_S b f a op l :
  poll_loop b (S f) a op l =
  if done op then Some (l, Ok op)
  else if Nat.ltb max_attempts (S a) then Some (l, Throw timeout_msg)
  else match getVideosOperation b (S a) with
       | Ok op' => poll_loop b f (S a) op' (l ++ [Sleep poll_interval; PollCall (S a)])%list
       | Throw e => Some ((l ++ [Sleep poll_interval; PollCall (S a)])%list, Throw e)
       end.
Proof. reflexivity. Qed.

Lemma polls_cons e l : polls (e :: l) = ((if is_poll e then 1 else 0) + polls l)%nat.
Proof. unfold polls. simpl. by destruct (is_poll e). Qed.

Lemma polls_nil : polls [] = 0%nat.
Proof. reflexivity. Qed.

Lemma polls_app l1 l2 : polls (l1 ++ l2) = (polls l1 + polls l2)%nat.
Proof. unfold polls. induction l1 as [|e l1 IH]; simpl; [done|]. destruct (is_poll e); simpl; lia. Qed.

Lemma polls_poll_calls a n : polls (poll_calls a n) = n.
Proof.
  revert a; induction n as [|n IH]; intros a; [done|].
  rewrite poll_calls_S, polls_app, IH. reflexivity.
Qed.

(** 201 turns from [attempts = 0], in general [201 - attempts], always
    end the loop. *)
Lemma poll_loop_total b fuel a op l :
  (S max_attempts - a <= fuel)%nat -> (0 < fuel)%nat -> exists r, poll_loop b fuel a op l = Some r.
Proof.
  revert a op l; induction fuel as [|f IH]; intros a op l Hf Hp; [lia|]. simpl.
  destruct (done op); [eauto|].
  destruct (Nat.ltb_spec max_attempts (S a)); [eauto|].
  destruct (getVideosOperation b (S a)); [|eauto]. apply IH; unfold max_attempts in *; lia.
Qed.

Lemma poll_loop_fuel_mono b f k a op l r :
  poll_loop b f a op l = Some r -> poll_loop b (f + k) a op l = Some r.
Proof.
  revert a op l; induction f as [|f IH]; intros a op l; [discriminate|]. simpl.
  destruct (done op); [done|]. destruct (Nat.ltb max_attempts (S a)); [done|].
  destruct (getVideosOperation b (S a)); [apply IH | done].
Qed.

(** Every run of the loop is a prefix of polls [a + 1, a + 2, ...] that
    stops at attempt 200 at the latest. *)
Lemma poll_loop_log b f a op l l' r :
  (a <= max_attempts)%nat -> poll_loop b f a op l = Some (l', r) ->
  exists n, l' = (l ++ poll_calls a n)%list /\ (a + n <= max_attempts)%nat.
Proof.
  revert a op l; induction f as [|f IH]; intros a op l Ha; [discriminate|]. simpl.
  destruct (done op); [intros [= <- _]; exists 0; rewrite app_nil_r; split; [done|lia]|].
  destruct (Nat.ltb_spec max_attempts (S a)) as [Hlt|Hge];
    [intros [= <- _]; exists 0; rewrite app_nil_r; split; [done|lia]|].
  destruct (getVideosOperation b (S a)) as [op'|e].
  - intros H. destruct (IH (S a) op' _ Hge H) as [n [-> Hn]].
    exists (S n). rewrite poll_calls_S, <- app_assoc. split; [done|lia].
  - intros [= <- _]. exists 1. split; [done|lia].
Qed.

Lemma poll_loop_never_done b f a op l :
  (S max_attempts - a <= f)%nat -> (a <= max_attempts)%nat -> done op = false ->
  (forall i, (a < i <= max_attempts)%nat -> exists op', getVideosOperation b i = Ok op' /\ done op' = false) ->
  poll_loop b f a op l = Some ((l ++ poll_calls a (max_attempts - a))%list, Throw timeout_msg).
Proof.
  revert a op l; induction f as [|f IH]; intros a op l Hf Ha Hd Hi; [unfold max_attempts in *; lia|].
  simpl. rewrite Hd.
  destruct (Nat.ltb_spec max_attempts (S a)) as [Hlt|Hge].
  - replace (max_attempts - a)%nat with 0%nat by lia. by rewrite app_nil_r.
  - destruct (Hi (S a)) as (op' & Hg & Hd'); [lia|]. rewrite Hg.
    rewrite IH by (try done; try lia; intros i Hi'; apply Hi; lia).
    replace (max_attempts - a)%nat with (S (max_attempts - S a)) by lia.
    by rewrite poll_calls_S, <- app_assoc.
Qed.

Lemma poll_loop_first_done b f a k op opk l :
  (k - a <= f)%nat -> (a < k <= max_attempts)%nat -> done op = false ->
  (forall i, (a < i < k)%nat -> exists op', getVideosOperation b i = Ok op' /\ done op' = false) ->
  getVideosOperation b k = Ok opk -> done opk = true ->
  poll_loop b (S f) a op l = Some ((l ++ poll_calls a (k - a))%list, Ok opk).
Proof.
  revert a op l; induction f as [|f IH]; intros a op l Hf Hk Hd Hi Hg Hdk; [lia|].
  rewrite poll_loop_S, Hd. destruct (Nat.ltb_spec max_attempts (S a)) as [Hlt|Hge]; [lia|].
  destruct (decide (S a = k)) as [<-|Hne].
  - rewrite Hg. simpl. rewrite Hdk. replace (S a - a)%nat with 1%nat by lia. done.
  - destruct (Hi (S a)) as (op' & Hg' & Hd'); [lia|]. rewrite Hg'.
    rewrite IH by (try done; try lia; intros i Hi'; apply Hi; lia).
    replace (k - a)%nat with (S (k - S a)) by lia.
    by rewrite poll_calls_S, <- app_assoc.
Qed.

(** ** The handler *)

#[local] Arguments polls : simpl never.
Create Rewrite HintDb polls.
#[local] Hint Rewrite polls_app polls_cons polls_nil polls_poll_calls : polls.

Lemma fetch_video_polls b op l : polls (fst (fetch_video b op l)) = polls l.
Proof.
  unfold fetch_video, emit. js_simpl.
  destruct (video_uri op) as [[|c u]|]; simpl; try done.
  destruct (fetch_ok _ _); simpl; autorewrite with polls; simpl; lia.
Qed.

Lemma fetch_video_state b op l l' : snd (fetch_video b op l) = snd (fetch_video b op l').
Proof.
  unfold fetch_video, emit. js_simpl.
  destruct (video_uri op) as [[|c u]|]; simpl; try done. by destruct (fetch_ok _ _).
Qed.

Lemma on_error_polls a e l : polls (fst (on_error (A := string) a e l)) = polls l.
Proof.
  unfold on_error, emit. js_simpl. destruct (_ && _); simpl; autorewrite with polls; simpl; lia.
Qed.

Lemma on_error_result a e l : snd (on_error (A := string) a e l) = Throw e.
Proof. unfold on_error, emit. js_simpl. by destruct (_ && _). Qed.

Lemma video_body_unfold b p ar res l :
  video_body b p ar res l =
  let l1 := (l ++ [VideoCall (video_model res) p ar res])%list in
  match generateVideos b (video_model res) p ar res with
  | Throw e => (l1, Throw e)
  | Ok op => match poll b op l1 with
             | (l2, Ok op') => fetch_video b op' l2
             | (l2, Throw e) => (l2, Throw e)
             end
  end.
Proof.
  unfold video_body, emit, mbind, js_bind, js_modify, js_lift. cbn -[poll fetch_video].
  destruct (generateVideos _ _ _ _ _); [|reflexivity]. by destruct (poll _ _ _) as [? []].
Qed.

Lemma generateVideo_unfold b p ar res l :
  generateVideo b p ar res l =
  let l1 := (l ++ (if v_aistudio b && negb (v_hasSelectedApiKey b) then [OpenSelectKey] else []))%list in
  match video_client b with
  | Throw e => (l1, Throw e)
  | Ok _ =>
      match video_body b p ar res l1 with
      | (l2, Throw e) => on_error (v_aistudio b) e l2
      | r => r
      end
  end.
Proof.
  unfold generateVideo. unfold mbind, js_bind, js_lift, js_catch, mret, js_ret.
  destruct (v_aistudio b && negb (v_hasSelectedApiKey b)); cbn -[video_body on_error];
    rewrite ?app_nil_r; destruct (video_client b); reflexivity.
Qed.

Lemma video_body_polls b p ar res l :
  exists n, (n <= max_attempts)%nat /\ polls (fst (video_body b p ar res l)) = (polls l + n)%nat.
Proof.
  rewrite video_body_unfold. cbv zeta.
  destruct (generateVideos _ _ _ _ _) as [op|e];
    [|exists 0; unfold max_attempts; simpl; autorewrite with polls; simpl; lia].
  unfold poll.
  destruct (poll_loop_total b poll_fuel 0 op (l ++ [VideoCall (video_model res) p ar res])%list)
    as [[l2 r] E]; [unfold poll_fuel; lia | unfold poll_fuel; lia |]. rewrite E.
  destruct (poll_loop_log b poll_fuel 0 op _ l2 r ltac:(unfold max_attempts; lia) E) as [n [-> Hn]].
  exists n. split; [lia|].
  destruct r; simpl; rewrite ?fetch_video_polls; autorewrite with polls; simpl; lia.
Qed.

(** C5: the poll loop of [generateVideo] terminates: from [attempts = 0]
    the 201 turns it is given always end it, with the same result as any
    larger number of turns. *)
Theorem poll_terminates b op l :
  exists r, poll_loop b poll_fuel 0 op l = Some r /\
            forall k, poll_loop b (poll_fuel + k) 0 op l = Some r.
Proof.
  destruct (poll_loop_total b poll_fuel 0 op l) as [r Hr]; [unfold poll_fuel; lia | unfold poll_fuel; lia |].
  exists r. split; [done|]. intros k. by apply poll_loop_fuel_mono.
Qed.

(** C6: a call of [generateVideo] polls the job's status at most 200
    times (and waits 8000 ms before each poll), whatever the server
    answers. *)
Theorem video_poll_bound b p ar res l :
  (polls (fst (generateVideo b p ar res l)) <= polls l + max_attempts)%nat.
Proof.
  rewrite generateVideo_unfold. cbv zeta.
  set (pre := if v_aistudio b && negb (v_hasSelectedApiKey b) then [OpenSelectKey] else []).  
  assert (Hpre : polls pre = 0%nat) by (subst pre; case_match; reflexivity).
  destruct (video_client b); [|simpl; autorewrite with polls; lia].
  destruct (video_body_polls b p ar res (l ++ pre)%list) as [n [Hn Hp]].
  destruct (video_body b p ar res (l ++ pre)%list) as [l2 [v|e]]; simpl in Hp |- *;
    rewrite ?on_error_polls, Hp; autorewrite with polls; lia.
Qed.

(** C7: when the job never reports [done], [generateVideo] submits it,
    sleeps and polls exactly 200 times (attempts 1 to 200) and throws
    "Cinematic rendering timeout."; the catch rethrows it without opening
    the key selector. *)
Theorem video_timeout b p ar res l u op0 :
  video_client b = Ok u ->
  generateVideos b (video_model res) p ar res = Ok op0 -> done op0 = false ->
  (forall i, (1 <= i <= max_attempts)%nat ->
     exists op, getVideosOperation b i = Ok op /\ done op = false) ->
  generateVideo b p ar res l =
    ((l ++ (if v_aistudio b && negb (v_hasSelectedApiKey b) then [OpenSelectKey] else [])
        ++ [VideoCall (video_model res) p ar res] ++ poll_calls 0 max_attempts)%list,
     Throw timeout_msg).
Proof.
  intros Hc Hg Hd Hi. rewrite generateVideo_unfold, Hc. cbv zeta.
  rewrite video_body_unfold, Hg. cbv zeta. unfold poll.
  rewrite poll_loop_never_done; [| unfold poll_fuel; lia | unfold max_attempts; lia | done |].
  - unfold on_error, emit. js_simpl.
    replace (includes timeout_msg not_found_msg) with false by reflexivity.
    simpl. by rewrite <- !app_assoc.
  - intros i Hi'. apply Hi. lia.
Qed.

(** C8: when the job first reports [done] at the [k]-th poll
    ([1 <= k <= 200]), [generateVideo] polls exactly [k] times and its
    result is that of reading, fetching and wrapping the video of that
    operation. *)
Theorem video_first_done b p ar res l u op0 k opk :
  video_client b = Ok u ->
  generateVideos b (video_model res) p ar res = Ok op0 -> done op0 = false ->
  (1 <= k <= max_attempts)%nat ->
  (forall i, (1 <= i < k)%nat -> exists op, getVideosOperation b i = Ok op /\ done op = false) ->
  getVideosOperation b k = Ok opk -> done opk = true ->
  snd (generateVideo b p ar res l) = snd (fetch_video b opk []) /\
  polls (fst (generateVideo b p ar res l)) = (polls l + k)%nat.
Proof.
  intros Hc Hg Hd Hk Hi Hgk Hdk. rewrite generateVideo_unfold, Hc. cbv zeta.
  rewrite video_body_unfold, Hg. cbv zeta. unfold poll, poll_fuel.
  rewrite (poll_loop_first_done b max_attempts 0 k op0 opk)
    by (try done; try lia; intros i Hi'; apply Hi; lia).
  set (L := (((l ++ (if v_aistudio b && negb (v_hasSelectedApiKey b) then [OpenSelectKey] else []))
      ++ [VideoCall (video_model res) p ar res]) ++ poll_calls 0 (k - 0))%list).
  pose proof (fetch_video_polls b opk L) as Hp.
  pose proof (fetch_video_state b opk L []) as Hs.
  destruct (fetch_video b opk L) as [l2 [v|e]] eqn:E; simpl in Hp, Hs |- *; rewrite <- Hs.
  - split; [done|]. rewrite Hp. subst L. case_match; autorewrite with polls; simpl; lia.
  - rewrite on_error_result, on_error_polls, Hp. split; [done|]. subst L.
    case_match; autorewrite with polls; simpl; lia.
Qed.

(** ** Witnesses *)

Lemma video_timeout_witness :
  snd (generateVideo stuck_video_backend "a city" "16:9" "720p" []) = Throw timeout_msg /\
  polls (fst (generateVideo stuck_video_backend "a city" "16:9" "720p" [])) = 200%nat.
Proof.
  rewrite (video_timeout stuck_video_backend "a city" "16:9" "720p" [] tt pending_op
             eq_refl eq_refl eq_refl (fun i _ => ex_intro _ pending_op (conj eq_refl eq_refl))).
  split; [reflexivity|]. vm_compute. reflexivity.
Defined.

(** The job is ready at the third poll; the download URL carries
    "&key=undefined" when [process.env.API_KEY] is not set. *)
Lemma video_first_done_witness :
  snd (generateVideo demo_video_backend "a city" "9:16" "1080p" []) = Ok "blob:giga/1" /\
  polls (fst (generateVideo demo_video_backend "a city" "9:16" "1080p" [])) = 3%nat /\
  In (Fetch "https://v/clip?alt=media&key=undefined")
     (fst (generateVideo demo_video_backend "a city" "9:16" "1080p" [])).
Proof.
  assert (Hi : forall i, (1 <= i < 3)%nat ->
            exists op, getVideosOperation demo_video_backend i = Ok op /\ done op = false).
  { intros i Hi. eexists. split; [reflexivity|]. simpl.
    destruct i as [|[|[|i]]]; simpl; try reflexivity; lia. }
  destruct (video_first_done demo_video_backend "a city" "9:16" "1080p" [] tt pending_op 3
              {| done := true; video_uri := Some "https://v/clip?alt=media" |}
              eq_refl eq_refl eq_refl ltac:(unfold max_attempts; lia) Hi eq_refl eq_refl) as [H1 H2].
  split; [rewrite H1; vm_compute; reflexivity|]. split; [rewrite H2; reflexivity|].
  vm_compute. tauto.
Defined.

End Video.
