(* ===== verification/Chat.v ===== *)
(** * The chat view (src/ChatView.tsx)

    [handleSend] (lines 41-106) appends the user's message and an empty
    model message tagged with [id = Date.now()], then consumes the text
    stream of [Gemini.generateTextStream]: each chunk appends its text to
    the model message and its grounding chunks to the message's sources;
    if the iteration throws, the model message becomes "Neural lag
    detected. Re-processing required."; [loading] is reset at the end.
    The search box filters the messages by a case-insensitive substring
    test (lines 118-120).

    The handler is asynchronous: between two chunks the user may type,
    pick an image or press send again.  The view is therefore a step
    relation [cstep] over [ChatState], whose events are the synchronous
    part of [handleSend] up to its first [await] ([EvSend]), the arrival
    of one chunk ([EvChunk]), the end of the stream with its [catch] and
    [finally] ([EvEnd]), and the input handlers: typing ([EvInput],
    only while not loading: the field is [disabled={loading}]), the
    file reader's result ([EvFile]) and the remove-image button
    ([EvClearImage]).  The rendering of a message is in [Render].
    The stream in flight is the rest of the generator's run, fixed when
    the generator is created.  Every [setMessages(prev => ...)] updater is
    applied in order, as React applies queued updaters. *)

From S2P Require Import Prelude JsString Gemini.

Module Chat.
Import JsString Gemini.

(** ** State *)

Inductive Role := User | Model.

(** [metadata]: [{ image }] on a user message with an image,
    [{ id, sources }] on a streamed model message. *)
Inductive Metadata :=
| MetaImage (image : string)
| MetaStream (id : nat) (sources : list GroundingChunk).

Record Message := {
  role : Role;
  content : string;
  timestamp : nat;
  metadata : option Metadata
}.

Record Image := { base64 : string; mimeType : string }.

(** The generator run still to be consumed, with the [let]s of the
    [try] block ([fullContent], [groundingChunks]). *)
Record Inflight := {
  if_id : nat;
  if_content : string;
  if_sources : list GroundingChunk;
  if_rest : list Chunk;
  if_error : option string
}.

Record ChatState := {
  messages : list Message;
  input : string;
  loading : bool;
  selectedImage : option Image;
  inflight : option Inflight
}.

Definition welcome : Message := {|
  role := Model;
  content := "System Online. I am Giga AI, the premium intelligence engine. How can I assist your workflow today?";
  timestamp := 0;
  metadata := None
|}.

Definition init : ChatState :=
  {| messages := [welcome]; input := ""; loading := false; selectedImage := None; inflight := None |}.

(** ** Handlers *)

(** [msg.metadata?.id]. *)
Definition msg_id (m : Message) : option nat :=
  match metadata m with Some (MetaStream i _) => Some i | _ => None end.

(** [prev.map(msg => msg.metadata?.id === id ? f(msg) : msg)]. *)
Definition update_msg (id : nat) (f : Message -> Message) (ms : list Message) : list Message :=
  map (fun m => if bool_decide (msg_id m = Some id) then f m else m) ms.

Definition with_content (c : string) (m : Message) : Message :=
  {| role := role m; content := c; timestamp := timestamp m; metadata := metadata m |}.

Definition with_stream (id : nat) (c : string) (srcs : list GroundingChunk) (m : Message) : Message :=
  {| role := role m; content := c; timestamp := timestamp m; metadata := Some (MetaStream id srcs) |}.

(** [chunk.text || ""]. *)
Definition chunk_str (c : Chunk) : string := opt_str_or (chunk_text c) "".

Definition lag_msg : string := "Neural lag detected. Re-processing required.".

Definition no_image (s : ChatState) : bool :=
  match selectedImage s with None => true | Some _ => false end.

(** [(!input.trim() && !selectedImage) || loading]. *)
Definition send_blocked (s : ChatState) : bool :=
  (bool_decide (trim (input s) = EmptyString) && no_image s) || loading s.

Definition user_msg (now : nat) (s : ChatState) : Message := {|
  role := User;
  content := input s;
  timestamp := now;
  metadata := option_map (fun i => MetaImage (base64 i)) (selectedImage s)
|}.

Definition placeholder (now : nat) : Message :=
  {| role := Model; content := ""; timestamp := now; metadata := Some (MetaStream now []) |}.

Section Handlers.
Context (SI : string) (b : TextBackend).

(** The generator of line 70: [currentInput || "Analyze visual data"],
    the [messages] of the render that created the handler, the image. *)
Definition stream_for (s : ChatState) : list Chunk * option string :=
  generateTextStream SI b (str_or (input s) "Analyze visual data") (messages s)
    (option_map base64 (selectedImage s)) (option_map mimeType (selectedImage s)).

(** [handleSend] up to its first [await]. *)
Definition handleSend (now : nat) (s : ChatState) : ChatState :=
  if send_blocked s then s
  else
    let run := stream_for s in
    {| messages := messages s ++ [user_msg now s; placeholder now];
       input := "";
       loading := true;
       selectedImage := None;
       inflight := Some {| if_id := now; if_content := ""; if_sources := [];
                           if_rest := fst run; if_error := snd run |} |}.

(** One turn of [for await (const chunk of stream)]. *)
Definition on_chunk (s : ChatState) : ChatState :=
  match inflight s with
  | Some f =>
      match if_rest f with
      | c :: rest =>
          let content' := if_content f +:+ chunk_str c in
          let sources' := match chunk_grounding c with
                          | Some gs => if_sources f ++ gs
                          | None => if_sources f
                          end in
          {| messages := update_msg (if_id f) (with_stream (if_id f) content' sources') (messages s);
             input := input s; loading := loading s; selectedImage := selectedImage s;
             inflight := Some {| if_id := if_id f; if_content := content'; if_sources := sources';
                                 if_rest := rest; if_error := if_error f |} |}
      | [] => s
      end
  | None => s
  end.

(** The end of the loop: the [catch] when the iteration threw, then the
    [finally]. *)
Definition on_end (s : ChatState) : ChatState :=
  match inflight s with
  | Some f =>
      {| messages := match if_error f with
                     | Some _ => update_msg (if_id f) (with_content lag_msg) (messages s)
                     | None => messages s
                     end;
         input := input s; loading := false; selectedImage := selectedImage s;
         inflight := None |}
  | None => s
  end.

Inductive Event :=
| EvInput (v : string)
| EvFile (img : Image)
| EvClearImage
| EvSend (now : nat)
| EvChunk
| EvEnd.

Definition enabled (e : Event) (s : ChatState) : bool :=
  match e, inflight s with
  | EvChunk, Some f => negb (bool_decide (if_rest f = []))
  | EvChunk, None => false
  | EvEnd, Some f => bool_decide (if_rest f = [])
  | EvEnd, None => false
  | EvInput _, _ => negb (loading s)
  | _, _ => true
  end.

Definition run (e : Event) (s : ChatState) : ChatState :=
  match e with
  | EvInput v => {| messages := messages s; input := v; loading := loading s;
                    selectedImage := selectedImage s; inflight := inflight s |}
  | EvFile img => {| messages := messages s; input := input s; loading := loading s;
                     selectedImage := Some img; inflight := inflight s |}
  | EvClearImage => {| messages := messages s; input := input s; loading := loading s;
                       selectedImage := None; inflight := inflight s |}
  | EvSend now => handleSend now s
  | EvChunk => on_chunk s
  | EvEnd => on_end s
  end.

Inductive cstep : ChatState -> ChatState -> Prop :=
| cstep_run e s : enabled e s = true -> cstep s (run e s).

Definition reachable (s : ChatState) : Prop := rtc cstep init s.

(** A whole exchange with nothing interleaved: the send, every chunk,
    the end. *)
Definition complete_send (now : nat) (s : ChatState) : ChatState :=
  on_end (Nat.iter (length (fst (stream_for s))) on_chunk (handleSend now s)).

End Handlers.

(** ** The search filter (lines 118-120) *)

Definition filteredMessages (searchQuery : string) (ms : list Message) : list Message :=
  if bool_decide (trim searchQuery = EmptyString) then ms
  else List.filter (fun m => includes (toLowerCase (content m)) (toLowerCase searchQuery)) ms.

(** ** Sample states *)

Definition demo_typed : ChatState :=
  {| messages := [welcome]; input := "hi"; loading := false; selectedImage := None; inflight := None |}.

(** "hi" typed and sent at [t = 7] to a backend whose stream breaks off
    after one chunk. *)
Definition demo_sent : ChatState :=
  run "" demo_text_backend (EvSend 7) (run "" demo_text_backend (EvInput "hi") init).

Definition demo_user_msg : Message :=
  {| role := User; content := "Hello there"; timestamp := 3; metadata := None |}.

(** ** Laws *)

#[local] Arguments String.append : simpl nomatch.

(** What [setMessages] never changes: who spoke and when. *)
Definition skeleton (m : Message) : Role * nat := (role m, timestamp m).

Definition stream_msg (id : nat) (c : string) (srcs : list GroundingChunk) : Message :=
  {| role := Model; content := c; timestamp := id; metadata := Some (MetaStream id srcs) |}.

Definition groundings (cs : list Chunk) : list GroundingChunk :=
  flat_map (fun c => default [] (chunk_grounding c)) cs.

Definition chat_inv (s : ChatState) : Prop :=
  (loading s = true <-> is_Some (inflight s)) /\
  (forall f, inflight s = Some f -> Exists (fun m => msg_id m = Some (if_id f)) (messages s)).

(** While a reply streams, the message it writes to is the last one and
    shows the text received so far. *)
Definition streaming_last (s : ChatState) : Prop :=
  forall f, inflight s = Some f ->
  exists ms0 srcs, messages s = ms0 ++ [stream_msg (if_id f) (if_content f) srcs].

Lemma update_msg_skeleton id f ms :
  (forall m, skeleton (f m) = skeleton m) -> map skeleton (update_msg id f ms) = map skeleton ms.
Proof.
  intros Hf. unfold update_msg. rewrite map_map. apply map_ext. intros m. by case_bool_decide.
Qed.

Lemma update_msg_app id f ms1 ms2 :
  update_msg id f (ms1 ++ ms2) = update_msg id f ms1 ++ update_msg id f ms2.
Proof. apply map_app. Qed.

Lemma update_msg_fresh id f ms :
  Forall (fun m => msg_id m <> Some id) ms -> update_msg id f ms = ms.
Proof.
  unfold update_msg. induction 1 as [|m ms Hm _ IH]; simpl; [done|].
  rewrite bool_decide_eq_false_2 by done. by rewrite IH.
Qed.

Lemma update_msg_keeps_id id c srcs ms :
  Exists (fun m => msg_id m = Some id) ms ->
  Exists (fun m => msg_id m = Some id) (update_msg id (with_stream id c srcs) ms).
Proof.
  unfold update_msg. induction 1 as [m ms Hm|m ms _ IH]; simpl.
  - left. rewrite bool_decide_eq_true_2 by done. reflexivity.
  - by right.
Qed.

Lemma update_msg_keeps_id_content id c ms :
  Exists (fun m => msg_id m = Some id) ms ->
  Exists (fun m => msg_id m = Some id) (update_msg id (with_content c) ms).
Proof.
  unfold update_msg. induction 1 as [m ms Hm|m ms _ IH]; simpl.
  - left. rewrite bool_decide_eq_true_2 by done. exact Hm.
  - by right.
Qed.

Lemma update_msg_last id c srcs ms0 c0 srcs0 :
  update_msg id (with_stream id c srcs) (ms0 ++ [stream_msg id c0 srcs0]) =
  update_msg id (with_stream id c srcs) ms0 ++ [stream_msg id c srcs].
Proof.
  rewrite update_msg_app. unfold update_msg at 2. simpl.
  by rewrite bool_decide_eq_true_2 by done.
Qed.

Lemma user_msg_id now s id : msg_id (user_msg now s) <> Some id.
Proof. unfold msg_id, user_msg. simpl. by destruct (selectedImage s). Qed.

Lemma send_blocked_iff s :
  send_blocked s = true <-> (all_ws (input s) = true /\ selectedImage s = None) \/ loading s = true.
Proof.
  unfold send_blocked, no_image. rewrite orb_true_iff, andb_true_iff, bool_decide_eq_true, trim_empty.
  destruct (selectedImage s); intuition congruence.
Qed.

Lemma concat_nil_cons x xs : String.concat "" (x :: xs) = x +:+ String.concat "" xs.
Proof. destruct xs; simpl; [by rewrite append_nil_r | reflexivity]. Qed.

Lemma map_cu_append f a c : map_cu f (a +:+ c) = map_cu f a +:+ map_cu f c.
Proof. induction a as [|x a IH]; simpl; [done|]. by rewrite IH. Qed.


Section Laws.
Context (SI : string) (b : TextBackend).

Lemma cstep_skeleton s s' :
  cstep SI b s s' -> map skeleton (messages s) `prefix_of` map skeleton (messages s').
Proof.
  intros [e s0 He]. destruct e; simpl; try done.
  - unfold handleSend. case_if; [done|]. simpl. rewrite map_app. by eexists.
  - unfold on_chunk. repeat case_match; try done; simpl; by rewrite update_msg_skeleton.
  - unfold on_end. repeat case_match; try done; simpl; by rewrite update_msg_skeleton.
Qed.


Lemma chat_inv_init : chat_inv init.
Proof. split; [split; [discriminate | intros []; discriminate] | discriminate]. Qed.

Lemma chat_inv_step s s' : chat_inv s -> cstep SI b s s' -> chat_inv s'.
Proof.
  intros Hinv Hs. inversion Hs as [e s0 He]; subst. destruct Hinv as [Hl Hx].
  destruct e; simpl.
  - split; [exact Hl | exact Hx].
  - split; [exact Hl | exact Hx].
  - split; [exact Hl | exact Hx].
  - unfold handleSend. case_if; [split; done|]. split; [split; eauto|].
    intros f [= <-]. simpl. apply Exists_app. right. right. left. reflexivity.
  - unfold on_chunk. destruct (inflight s) as [f|] eqn:Ef; [|split; rewrite Ef; [exact Hl | exact Hx]].
    destruct (if_rest f) as [|c rest]; [split; rewrite Ef; [exact Hl | exact Hx]|]. split; simpl.
    + rewrite Hl. split; eauto.
    + intros f' [= <-]. simpl. by apply update_msg_keeps_id, Hx.
  - unfold on_end. destruct (inflight s) as [f|] eqn:Ef; [|split; rewrite Ef; [exact Hl | exact Hx]].
    split; simpl; [split; [discriminate | intros []; discriminate] | discriminate].
Qed.

Lemma iter_on_chunk id ms u c0 srcs0 err cs inp sel :
  Forall (fun m => msg_id m <> Some id) ms -> msg_id u <> Some id ->
  Nat.iter (length cs) (on_chunk)
    {| messages := ms ++ [u; stream_msg id c0 srcs0]; input := inp; loading := true;
       selectedImage := sel;
       inflight := Some {| if_id := id; if_content := c0; if_sources := srcs0;
                           if_rest := cs; if_error := err |} |} =
    {| messages := ms ++ [u; stream_msg id (c0 +:+ String.concat "" (map chunk_str cs))
                                         (srcs0 ++ groundings cs)];
       input := inp; loading := true; selectedImage := sel;
       inflight := Some {| if_id := id; if_content := c0 +:+ String.concat "" (map chunk_str cs);
                           if_sources := srcs0 ++ groundings cs; if_rest := []; if_error := err |} |}.
Proof.
  intros Hms Hu. revert c0 srcs0. induction cs as [|c cs IH]; intros c0 srcs0.
  - simpl. by rewrite append_nil_r, app_nil_r.
  - simpl length. rewrite Nat.iter_succ_r.
    set (srcs1 := srcs0 ++ default [] (chunk_grounding c)).
    assert (E1 : on_chunk
      {| messages := ms ++ [u; stream_msg id c0 srcs0]; input := inp; loading := true;
         selectedImage := sel;
         inflight := Some {| if_id := id; if_content := c0; if_sources := srcs0;
                             if_rest := c :: cs; if_error := err |} |} =
      {| messages := ms ++ [u; stream_msg id (c0 +:+ chunk_str c) srcs1]; input := inp;
         loading := true; selectedImage := sel;
         inflight := Some {| if_id := id; if_content := c0 +:+ chunk_str c; if_sources := srcs1;
                             if_rest := cs; if_error := err |} |}).
    { unfold on_chunk. cbn [inflight if_rest if_content if_sources if_id if_error messages
                            input loading selectedImage].
      rewrite update_msg_app, update_msg_fresh by done. unfold update_msg. cbn [map].
      rewrite bool_decide_eq_false_2 by done. rewrite bool_decide_eq_true_2 by done.
      subst srcs1. destruct (chunk_grounding c); cbn [default]; rewrite ?app_nil_r; reflexivity. }
    rewrite E1, IH. subst srcs1. unfold groundings. cbn [map flat_map].
    by rewrite concat_nil_cons, append_assoc, app_assoc.
Qed.

Lemma reachable_chat_inv s : reachable SI b s -> chat_inv s.
Proof.
  intros H. apply (rtc_ind_r (R := cstep SI b) chat_inv init); [exact chat_inv_init | | exact H].
  intros y z _ Hyz IH. by eapply chat_inv_step.
Qed.

Lemma streaming_last_step s s' : streaming_last s -> cstep SI b s s' -> streaming_last s'.
Proof.
  intros H Hs. inversion Hs as [e s0 He]; subst. destruct e; simpl; try exact H.
  - unfold handleSend. destruct (send_blocked s); [exact H|]. intros f [= <-]. simpl.
    exists (messages s ++ [user_msg now s]), []. by rewrite <- app_assoc.
  - unfold on_chunk. destruct (inflight s) as [f|] eqn:Ef; [|exact H].
    destruct (if_rest f) as [|c rest]; [exact H|]. intros f' [= <-]. simpl.
    destruct (H f Ef) as (ms & srcs & ->). rewrite update_msg_last. eauto.
  - unfold on_end. destruct (inflight s); [discriminate|exact H].
Qed.

Lemma reachable_streaming_last s : reachable SI b s -> streaming_last s.
Proof.
  intros Hr. apply (rtc_ind_r (R := cstep SI b) streaming_last init); [discriminate| |exact Hr].
  intros y z _ Hyz IH. by eapply streaming_last_step.
Qed.

Lemma rtc_skeleton s s' :
  rtc (cstep SI b) s s' -> map skeleton (messages s) `prefix_of` map skeleton (messages s').
Proof.
  induction 1 as [|x y z Hxy _ IH]; [done|].
  by transitivity (map skeleton (messages y)); [apply cstep_skeleton|].
Qed.

(** C16: one reply streams at a time: in every reachable state of the chat
    view [loading] is set exactly while a stream is being consumed, the
    message that stream writes to is in the list, and pressing send then
    does nothing. *)
Theorem chat_single_flight s :
  reachable SI b s ->
  (loading s = true <-> is_Some (inflight s)) /\
  (forall f, inflight s = Some f -> Exists (fun m => msg_id m = Some (if_id f)) (messages s)) /\
  (is_Some (inflight s) -> forall now, handleSend SI b now s = s).
Proof.
  intros Hr. destruct (reachable_chat_inv s Hr) as [Hl Hx].
  split_and!; [done|done|]. intros Hf now. unfold handleSend.
  rewrite (proj2 (send_blocked_iff s)); [done|]. right. by apply Hl.
Qed.

(** C17: messages are appended in order: along any run of the view the
    list of (role, timestamp) of the messages only grows at its end;
    streamed text and the [catch] rewrite contents, never the order. *)
Theorem messages_append_only s s' :
  rtc (cstep SI b) s s' -> map skeleton (messages s) `prefix_of` map skeleton (messages s').
Proof. apply rtc_skeleton. Qed.

(** the send guard: [handleSend] leaves the view as it is exactly
    when the input is blank ([trim] empties it) and no image is selected,
    or a reply is loading. *)
Theorem handleSend_guard now s :
  handleSend SI b now s = s <->
  (all_ws (input s) = true /\ selectedImage s = None) \/ loading s = true.
Proof.
  rewrite <- send_blocked_iff. unfold handleSend.
  destruct (send_blocked s); split; try done.
  intros H. apply (f_equal (fun s => length (messages s))) in H. simpl in H.
  rewrite length_app in H. simpl in H. lia.
Qed.

Lemma complete_send_spec now s :
  send_blocked s = false -> Forall (fun m => msg_id m <> Some now) (messages s) ->
  let yields := fst (stream_for SI b s) in
  messages (complete_send SI b now s) =
    messages s ++ [user_msg now s;
                   match text_client b with
                   | Throw _ => stream_msg now lag_msg []
                   | Ok _ => stream_msg now (String.concat "" (map chunk_str yields)) (groundings yields)
                   end] /\
  loading (complete_send SI b now s) = false /\ inflight (complete_send SI b now s) = None.
Proof.
  intros Hb Hf yields. unfold complete_send, handleSend. rewrite Hb.
  change (placeholder now) with (stream_msg now "" []).
  rewrite (iter_on_chunk now (messages s) (user_msg now s) "" [] (snd (stream_for SI b s))
             (fst (stream_for SI b s)) "" None Hf) by (apply user_msg_id).
  unfold on_end. cbn [inflight if_error if_id messages loading].
  fold yields. unfold yields, stream_for, generateTextStream.
  destruct (text_client b) as [u|e] eqn:Ec.
  - pose proof (text_stream_no_throw SI b (str_or (input s) "Analyze visual data") (messages s)
      (option_map base64 (selectedImage s)) (option_map mimeType (selectedImage s)) u Ec) as Hn.
    unfold generateTextStream in Hn. rewrite Ec in Hn. rewrite Hn. simpl. split_and!; done.
  - simpl. rewrite update_msg_app, update_msg_fresh by done.
    unfold update_msg. simpl. rewrite bool_decide_eq_false_2 by (apply user_msg_id).
    rewrite bool_decide_eq_true_2 by done. split_and!; done.
Qed.

(** C15: an exchange with nothing interleaved, from a state where send is
    not blocked and no message carries the new id: the view ends with the
    user's message and one model message, whose sources are the grounding
    chunks of the stream in order and whose text is the concatenation of
    the chunks' texts (the last being "Neural uplink interrupted..." when
    the SDK failed); "Neural lag detected. Re-processing required." is
    shown only when the client could not be built. *)
Theorem complete_send_result now s :
  send_blocked s = false -> Forall (fun m => msg_id m <> Some now) (messages s) ->
  let yields := fst (stream_for SI b s) in
  messages (complete_send SI b now s) =
    messages s ++ [user_msg now s;
                   match text_client b with
                   | Throw _ => stream_msg now lag_msg []
                   | Ok _ => stream_msg now (String.concat "" (map chunk_str yields)) (groundings yields)
                   end] /\
  loading (complete_send SI b now s) = false /\ inflight (complete_send SI b now s) = None.
Proof. apply complete_send_spec. Qed.

End Laws.

(** the search filter: a query that is not blank keeps exactly the
    messages whose lower-cased content contains the lower-cased query, so
    every message containing the query verbatim is kept; a blank query
    keeps every message. *)
Theorem filteredMessages_spec q ms :
  (all_ws q = true -> filteredMessages q ms = ms) /\
  (all_ws q = false ->
   (forall m, In m (filteredMessages q ms) <->
              In m ms /\ includes (toLowerCase (content m)) (toLowerCase q) = true) /\
   (forall m x y, In m ms -> content m = x +:+ q +:+ y -> In m (filteredMessages q ms))).
Proof.
  unfold filteredMessages. split.
  - intros Hq. by rewrite bool_decide_eq_true_2 by (by apply trim_empty).
  - intros Hq. rewrite bool_decide_eq_false_2
      by (intros H; apply trim_empty in H; congruence).
    assert (Hin : forall m, In m (List.filter (fun m => includes (toLowerCase (content m)) (toLowerCase q)) ms) <->
              In m ms /\ includes (toLowerCase (content m)) (toLowerCase q) = true)
      by (intros m; apply filter_In).
    split; [done|]. intros m x y Hm Hc. apply Hin. split; [done|].
    rewrite Hc. unfold toLowerCase. rewrite !map_cu_append. apply includes_append.
Qed.

(** ** Witnesses *)

Lemma demo_sent_reachable : reachable "" demo_text_backend demo_sent.
Proof.
  apply (rtc_l _ _ (run "" demo_text_backend (EvInput "hi") init)); [by apply cstep_run|].
  apply rtc_once. by apply cstep_run.
Qed.

Lemma chat_single_flight_witness :
  reachable "" demo_text_backend demo_sent /\ handleSend "" demo_text_backend 8 demo_sent = demo_sent.
Proof.
  split; [exact demo_sent_reachable|].
  destruct (chat_single_flight "" demo_text_backend demo_sent demo_sent_reachable) as [_ [_ H]].
  apply H. vm_compute. eauto.
Defined.

Lemma messages_append_only_witness :
  rtc (cstep "" demo_text_backend) init demo_sent /\
  map skeleton (messages init) `prefix_of` map skeleton (messages demo_sent).
Proof.
  split; [exact demo_sent_reachable|].
  exact (messages_append_only "" demo_text_backend init demo_sent demo_sent_reachable).
Defined.

Lemma complete_send_result_witness :
  send_blocked demo_typed = false /\ Forall (fun m => msg_id m <> Some 7) (messages demo_typed) /\
  messages (complete_send "" demo_text_backend 7 demo_typed) =
    [welcome; user_msg 7 demo_typed;
     stream_msg 7 "HelNeural uplink interrupted. Re-syncing systems..." []].
Proof.
  assert (Hf : Forall (fun m => msg_id m <> Some 7) (messages demo_typed))
    by (repeat constructor; discriminate).
  split; [reflexivity|]. split; [exact Hf|].
  destruct (complete_send_result "" demo_text_backend 7 demo_typed eq_refl Hf) as [H _].
  rewrite H. vm_compute. reflexivity.
Defined.

Lemma filteredMessages_spec_witness :
  all_ws "ll" = false /\ In demo_user_msg (filteredMessages "ll" [welcome; demo_user_msg]).
Proof.
  split; [reflexivity|].
  apply (proj2 (proj2 (filteredMessages_spec "ll" [welcome; demo_user_msg]) eq_refl)
           demo_user_msg "He" "o there"); [simpl; tauto | reflexivity].
Defined.

End Chat.
