(* ===== verification/Render.v ===== *)
(** * Rendering of chat messages (src/ChatView.tsx, [renderContent] and the message list)

    [renderContent] (lines 108-116) splits a message on ['\n'] and turns
    each line into the [__html] of a [div] set by
    [dangerouslySetInnerHTML]: first [/\*\*(.*?)\*\*/g] becomes
    [<strong>$1</strong>], then a line that starts with [* ] (the pattern [^\* ] and a
    capture group of [.*] to the end of the line, flag [g]) becomes
    ['â€¢ $1'].

    The output holds code units outside Latin-1 (the bullet literal is the
    three code units U+00E2 U+20AC U+00A2), so a line is a list of UTF-16
    code units, [Z]; the message itself is a Latin-1 string ([JsString]),
    read as code units by [units].  The two regular expressions are
    written out as the ECMAScript matcher runs them: [.] matches every
    code unit but the line terminators, [*?] is lazy (the first closing
    [**] ends the match), a failed match at one index is retried at the
    next, [/g] resumes after the match, and [^] without the [m] flag only
    matches at index 0.  [bold] scans with fuel; the length of the line
    is enough, each turn consuming at least one code unit.

    The message list (lines 118-187) maps [filteredMessages] to bubbles;
    its index [i] is the index in the filtered list while the spinner's
    test compares it with the length of the whole list. *)

From S2P Require Import Prelude JsString Gemini Chat.
From Stdlib Require Import Ascii.

Module Render.
Import JsString Gemini Chat.

#[local] Open Scope Z_scope.

(** ** Code units *)

Fixpoint units (s : string) : list Z :=
  match s with
  | EmptyString => []
  | String c s' => Z.of_nat (cu c) :: units s'
  end.

(** [LineTerminator]: what [.] does not match. *)
Definition is_line_terminator (c : Z) : bool :=
  (c =? 10) || (c =? 13) || (c =? 8232) || (c =? 8233).

Definition head_is_star (t : list Z) : bool :=
  match t with d :: _ => d =? 42 | [] => false end.

(** ** [/\*\*(.*?)\*\*/g] *)

(** After an opening [**]: the lazy [(.*?)] and the closing [**], i.e.
    the text up to the first [**] if no line terminator comes first. *)
Fixpoint find_close (t : list Z) : option (list Z * list Z) :=
  match t with
  | [] => None
  | c :: t' =>
      if (c =? 42) && head_is_star t' then Some ([], tail t')
      else if is_line_terminator c then None
      else option_map (fun r => (c :: fst r, snd r)) (find_close t')
  end.

Definition strong (inner : list Z) : list Z :=
  (units "<strong>" ++ inner ++ units "</strong>")%list.

Fixpoint bold_go (fuel : nat) (s : list Z) : list Z :=
  match fuel with
  | O => s
  | S f =>
      match s with
      | [] => []
      | c :: t =>
          if (c =? 42) && head_is_star t then
            match find_close (tail t) with
            | Some (inner, rest) => (strong inner ++ bold_go f rest)%list
            | None => c :: bold_go f t
            end
          else c :: bold_go f t
      end
  end.

Definition bold (s : list Z) : list Z := bold_go (length s) s.

(** ** The bullet pattern: [^\* ] then a capture group of [.*] *)

(** The replacement ['â€¢ $1'] as the source file spells it. *)
Definition bullet : list Z := [226; 8364; 162].

(** The capture group of [.*] takes the line up to a line terminator and the replacement
    puts it back, so what follows the matched ["* "] is kept as is. *)
Definition bullet_line (l : list Z) : list Z :=
  match l with
  | c :: d :: r => if (c =? 42) && (d =? 32) then (bullet ++ 32 :: r)%list else l
  | _ => l
  end.

(** ** [renderContent] *)

Definition render_line (line : string) : list Z := bullet_line (bold (units line)).

Definition renderContent (text : string) : list (list Z) :=
  map render_line (split_on "010"%char text).

(** ** The message list (lines 122-187) *)

(** What the text [div] of a bubble holds (lines 138-145): the rendered
    lines, the spinner with "Synthesizing response...", or [null]. *)
Inductive Body :=
| Rendered (lines : list (list Z))
| Synthesizing
| Blank.

(** An [<a>] of the sources block: its [href] and its text. *)
Record Link := { href : option string; label : string }.

(** One bubble: who speaks (the side and colours, lines 126-131), the
    image (132-136), the text (138-145), the "Verified Sources" block
    with its links (147-170) and what the copy button writes (177). *)
Record Bubble := {
  b_role : Role;
  b_image : option string;
  b_body : Body;
  b_sources : option (list Link);
  b_copy : string
}.

(** [msg.metadata?.image && <img src=...>]: an empty string is falsy. *)
Definition bubble_image (m : Message) : option string :=
  match metadata m with
  | Some (MetaImage img) => if bool_decide (img = "") then None else Some img
  | _ => None
  end.

(** [source.web && <a href={source.web.uri}>{source.web.title || 'Source'}</a>]. *)
Definition source_link (g : GroundingChunk) : option Link :=
  option_map (fun w => {| href := web_uri w; label := opt_str_or (web_title w) "Source" |}) (gc_web g).

(** [msg.metadata?.sources && msg.metadata.sources.length > 0 && ...]:
    the block is shown for any non-empty list, each source without [web]
    rendering nothing inside it. *)
Definition bubble_sources (m : Message) : option (list Link) :=
  match metadata m with
  | Some (MetaStream _ ((_ :: _) as srcs)) => Some (omap source_link srcs)
  | _ => None
  end.

(** [msg.content ? renderContent(msg.content) : (msg.role === 'model' &&
    loading && i === messages.length - 1 ? spinner : null)]; [i] is the
    index in the filtered list, [messages.length] the whole list's. *)
Definition bubble_body (loading : bool) (n i : nat) (m : Message) : Body :=
  if bool_decide (content m = "") then
    if match role m with Model => true | User => false end && loading &&
       (Z.of_nat i =? Z.of_nat n - 1)
    then Synthesizing else Blank
  else Rendered (renderContent (content m)).

Definition bubble (loading : bool) (n i : nat) (m : Message) : Bubble := {|
  b_role := role m;
  b_image := bubble_image m;
  b_body := bubble_body loading n i m;
  b_sources := bubble_sources m;
  b_copy := content m
|}.

(** [filteredMessages.map((msg, i) => ...)]. *)
Definition message_list (searchQuery : string) (s : ChatState) : list Bubble :=
  imap (bubble (loading s) (length (messages s))) (filteredMessages searchQuery (messages s)).

(** A reply the SDK streams as one chunk without text (a blocked
    response, whose [text] is [undefined]) grounded on a source that is
    not a web page. *)
Definition blocked_backend : TextBackend :=
  {| text_client := Ok tt;
     stream_of := fun _ => Ok ([{| chunk_text := None; chunk_grounding := Some [{| gc_web := None |}] |}], None) |}.

(** ** Lemmas *)

(** [42 ∉ units "..."] on a literal. *)
Ltac no_star :=
  vm_compute; intros Hx; repeat (apply elem_of_cons in Hx as [Hx|Hx]; [discriminate|]); by apply elem_of_nil in Hx.

Lemma units_app a b : units (String.append a b) = (units a ++ units b)%list.
Proof. induction a as [|c a IH]; simpl; [done|by rewrite IH]. Qed.

Lemma bold_go_nostar f s : 42 ∉ s -> bold_go f s = s.
Proof.
  revert s; induction f as [|f IH]; intros s Hs; [done|].
  destruct s as [|c t]; [done|]; simpl.
  apply not_elem_of_cons in Hs as [Hc Ht].
  rewrite (proj2 (Z.eqb_neq c 42) (not_eq_sym Hc)); simpl; by rewrite IH.
Qed.

Lemma bullet_line_nostar l : 42 ∉ l -> bullet_line l = l.
Proof.
  destruct l as [|c [|d r]]; simpl; auto; intros Hs.
  apply not_elem_of_cons in Hs as [Hc _]; by rewrite (proj2 (Z.eqb_neq c 42) (not_eq_sym Hc)).
Qed.

Lemma render_line_nostar l : 42 ∉ units l -> render_line l = units l.
Proof.
  intros H; unfold render_line, bold; rewrite bold_go_nostar by done; by apply bullet_line_nostar.
Qed.

Lemma units_string_of_list cs : units (String.string_of_list_ascii cs) = map (fun c => Z.of_nat (cu c)) cs.
Proof. induction cs; simpl; [done|by f_equal]. Qed.

Lemma units_list_of_string s : units s = map (fun c => Z.of_nat (cu c)) (String.list_ascii_of_string s).
Proof. induction s; simpl; [done|by f_equal]. Qed.

Lemma elem_of_rev {A} (x : A) l : x ∈ rev l -> x ∈ l.
Proof. rewrite !list_elem_of_In; apply in_rev. Qed.

Lemma split_acc_units sep cur s l x :
  l ∈ split_acc sep cur s -> x ∈ units l -> x ∈ map (fun c => Z.of_nat (cu c)) cur \/ x ∈ units s.
Proof.
  revert cur; induction s as [|c s IH]; intros cur; simpl.
  - intros ->%list_elem_of_singleton Hx; left.
    rewrite units_string_of_list, map_rev in Hx; by apply elem_of_rev in Hx.
  - destruct (ascii_eqb c sep).
    + intros [->|Hl]%elem_of_cons Hx.
      * left; rewrite units_string_of_list, map_rev in Hx; by apply elem_of_rev in Hx.
      * destruct (IH [] Hl Hx) as [[]%elem_of_nil|?]; right; by apply elem_of_cons; right.
    + intros Hl Hx; destruct (IH (c :: cur) Hl Hx) as [[->|?]%elem_of_cons|?]; set_solver.
Qed.

Lemma find_close_app u rest :
  42 ∉ u -> Forall (fun c => is_line_terminator c = false) u ->
  find_close (u ++ 42 :: 42 :: rest)%list = Some (u, rest).
Proof.
  induction u as [|c u IH]; intros Hs Hl; [done|].
  apply not_elem_of_cons in Hs as [Hc Hs]; inversion Hl as [|? ? Hlc Hlu]; subst.
  simpl; rewrite (proj2 (Z.eqb_neq c 42) (not_eq_sym Hc)), Hlc, IH by done; done.
Qed.

(** An empty message is shown under a search query only when the query
    is blank: [includes("", q)] fails for a non-empty [q]. *)
Lemma filtered_empty_blank q ms m :
  In m (filteredMessages q ms) -> content m = "" -> all_ws q = true.
Proof.
  intros Hm Hc. destruct (all_ws q) eqn:Hq; [done|].
  apply (proj1 (proj1 (proj2 (filteredMessages_spec q ms) Hq) m)) in Hm as [_ Hi].
  rewrite Hc in Hi. destruct q; [discriminate|done].
Qed.

Lemma message_list_blank q s :
  all_ws q = true ->
  message_list q s = imap (bubble (loading s) (length (messages s))) (messages s).
Proof. intros Hq. unfold message_list. by rewrite (proj1 (filteredMessages_spec q _) Hq). Qed.

(** The bubble of the last of [n] messages after a turn that set
    [loading]. *)
Lemma bubble_body_last (ld : bool) ms0 m :
  bubble_body ld (length (ms0 ++ [m])) (length ms0) m =
  if bool_decide (content m = "") then
    if match role m with Model => true | User => false end && ld then Synthesizing else Blank
  else Rendered (renderContent (content m)).
Proof.
  unfold bubble_body. rewrite length_app. simpl.
  rewrite (proj2 (Z.eqb_eq (Z.of_nat (length ms0)) _)) by lia.
  by rewrite andb_true_r.
Qed.

Section Messages.
Context (SI : string) (b : TextBackend).

Lemma loading_streaming s f :
  reachable SI b s -> inflight s = Some f ->
  loading s = true /\ exists ms0 srcs, messages s = ms0 ++ [stream_msg (if_id f) (if_content f) srcs].
Proof.
  intros Hr Ef. split; [apply (proj1 (reachable_chat_inv SI b s Hr)); eauto|].
  by apply (reachable_streaming_last SI b s Hr).
Qed.

(** ** Properties *)

(** C18: message text reaches the DOM unescaped: a message with no [*]
    renders, line by line, to exactly its own code units, so any HTML it
    holds (from the model's reply or the user's input) is parsed by
    [dangerouslySetInnerHTML]. *)
Theorem render_verbatim text :
  42 ∉ units text -> renderContent text = map units (split_on "010"%char text).
Proof.
  intros H; unfold renderContent; apply map_ext_in; intros l Hl%list_elem_of_In.
  apply render_line_nostar; intros Hx.
  destruct (split_acc_units _ _ _ _ _ Hl Hx) as [[]%elem_of_nil|?]; auto.
Qed.

(** The list bullet is mojibake: a line [* r] renders as the three
    code units U+00E2 U+20AC U+00A2 ("â€¢", the UTF-8 bytes of U+2022
    read as Windows-1252) and a space, followed by [r]. *)
Theorem render_bullet_mojibake r :
  42 ∉ units r -> render_line (String "*" (String " " r)) = ([226; 8364; 162; 32] ++ units r)%list.
Proof.
  intros H; unfold render_line, bold; simpl.
  rewrite bold_go_nostar by done; reflexivity.
Qed.

(** [**a**] renders as [<strong>a</strong>] when [a] holds no [*]
    and no line terminator. *)
Theorem render_bold a :
  42 ∉ units a -> Forall (fun c => is_line_terminator c = false) (units a) ->
  render_line ("**" ++ a ++ "**")%string = strong (units a).
Proof.
  intros Hs Hl; unfold render_line, bold; rewrite !units_app; simpl.
  rewrite find_close_app by done; simpl; rewrite app_nil_r; reflexivity.
Qed.

(** C19: the "Synthesizing response..." spinner tracks the reply in
    flight: in every reachable state of the chat view, bubble [i] shows it
    exactly when the search query is blank, [i] is the last message and a
    reply is streaming with no text received yet.  Under a search query the
    spinner is never shown, since the empty reply does not contain the
    query. *)
Theorem synthesizing_indicator s q i :
  reachable SI b s ->
  (b_body <$> message_list q s !! i = Some Synthesizing <->
   all_ws q = true /\ S i = length (messages s) /\
   exists f, inflight s = Some f /\ if_content f = "").
Proof.
  intros Hr. unfold message_list. rewrite list_lookup_imap. split.
  - destruct (filteredMessages q (messages s) !! i) as [m|] eqn:Em; [|discriminate].
    intros [= Hb]. unfold bubble_body in Hb.
    destruct (bool_decide (content m = "")) eqn:Ec; [apply bool_decide_eq_true in Ec|discriminate].
    destruct (_ && loading s && _) eqn:Et; [|discriminate].
    apply andb_prop in Et as [[_ Hl]%andb_prop Hi%Z.eqb_eq].
    assert (Hq : all_ws q = true).
    { apply (filtered_empty_blank q (messages s) m); [|exact Ec].
      rewrite <- list_elem_of_In. by eapply list_elem_of_lookup_2. }
    rewrite (proj1 (filteredMessages_spec q _) Hq) in Em.
    destruct (proj1 (proj1 (reachable_chat_inv SI b s Hr)) Hl) as [f Ef].
    destruct (loading_streaming s f Hr Ef) as [_ (ms0 & srcs & Hms)].
    rewrite Hms, length_app in Hi; rewrite Hms in Em; simpl in Hi.
    rewrite list_lookup_middle in Em by lia. injection Em as <-.
    split_and!; [done|rewrite Hms, length_app; simpl; lia|by exists f].
  - intros (Hq & Hi & f & Ef & Hc). rewrite (proj1 (filteredMessages_spec q _) Hq).
    destruct (loading_streaming s f Hr Ef) as [Hl (ms0 & srcs & Hms)].
    rewrite Hms, length_app in Hi; simpl in Hi. rewrite Hms.
    replace i with (length ms0) by lia. rewrite list_lookup_middle by done.
    cbn [fmap option_fmap option_map b_body bubble]. rewrite bubble_body_last, Hl.
    cbn [content stream_msg role]. by rewrite Hc.
Qed.

(** C20: what a complete exchange shows: after a send and its whole
    stream, with a blank search query, the bubble after the user's message
    is the model's, with no image; its text is the concatenated chunk
    texts rendered by [renderContent], or nothing at all when they are
    empty (no spinner, no error text); the "Verified Sources" block is
    shown exactly when the stream carried grounding chunks, with one link
    per chunk that has a [web] source, labelled by its title or "Source";
    the copy button copies the raw text. *)
Theorem exchange_bubble now s q u :
  send_blocked s = false -> Forall (fun m => msg_id m <> Some now) (messages s) ->
  text_client b = Ok u -> all_ws q = true ->
  let yields := fst (stream_for SI b s) in
  let text := String.concat "" (map chunk_str yields) in
  message_list q (complete_send SI b now s) !! S (length (messages s)) =
    Some {| b_role := Model; b_image := None;
            b_body := if bool_decide (text = "") then Blank else Rendered (renderContent text);
            b_sources := match groundings yields with [] => None | gs => Some (omap source_link gs) end;
            b_copy := text |}.
Proof.
  intros Hb Hf Hc Hq yields text. rewrite message_list_blank by exact Hq.
  destruct (complete_send_spec SI b now s Hb Hf) as (Hm & Hl & _).
  rewrite Hc in Hm. rewrite Hm, Hl, list_lookup_imap, lookup_app_r by lia.
  replace (S (length (messages s)) - length (messages s))%nat with 1%nat by lia.
  cbn [lookup list_lookup fmap option_fmap option_map].
  unfold bubble, bubble_body, bubble_sources, bubble_image. cbn [content role metadata stream_msg].
  fold yields text. by destruct (bool_decide (text = "")), (groundings yields).
Qed.

End Messages.

(** ** Witnesses *)

Lemma render_verbatim_witness :
  (42 ∉ units "<img src=x onerror=alert(1)>") /\
  renderContent "<img src=x onerror=alert(1)>" = [units "<img src=x onerror=alert(1)>"].
Proof.
  assert (H : 42 ∉ units "<img src=x onerror=alert(1)>") by no_star.
  split; [exact H|rewrite (render_verbatim _ H); reflexivity].
Defined.

Lemma render_bullet_mojibake_witness :
  (42 ∉ units "item") /\ render_line "* item" = [226; 8364; 162; 32; 105; 116; 101; 109].
Proof.
  assert (H : 42 ∉ units "item") by no_star.
  split; [exact H|rewrite (render_bullet_mojibake "item" H); reflexivity].
Defined.

Lemma render_bold_witness :
  (42 ∉ units "Giga") /\ Forall (fun c => is_line_terminator c = false) (units "Giga") /\
  render_line "**Giga**" = strong (units "Giga").
Proof.
  assert (H1 : 42 ∉ units "Giga") by no_star.
  assert (H2 : Forall (fun c => is_line_terminator c = false) (units "Giga")) by (repeat constructor).
  split_and!; [exact H1|exact H2|exact (render_bold "Giga" H1 H2)].
Defined.

(** A blocked reply grounded on a non-web source: an empty bubble under
    an empty "Verified Sources" block. *)
Lemma exchange_bubble_witness :
  send_blocked demo_typed = false /\ Forall (fun m => msg_id m <> Some 7%nat) (messages demo_typed) /\
  text_client blocked_backend = Ok tt /\ all_ws "" = true /\
  message_list "" (complete_send "" blocked_backend 7%nat demo_typed) !! 2%nat =
    Some {| b_role := Model; b_image := None; b_body := Blank; b_sources := Some []; b_copy := "" |}.
Proof.
  assert (Hf : Forall (fun m => msg_id m <> Some 7%nat) (messages demo_typed))
    by (repeat constructor; discriminate).
  split_and!; [reflexivity|exact Hf|reflexivity|reflexivity|].
  etransitivity;
    [exact (exchange_bubble "" blocked_backend 7%nat demo_typed "" tt eq_refl Hf eq_refl eq_refl)|].
  vm_compute. reflexivity.
Defined.

(** While the demo reply streams its first chunk, the spinner is gone:
    the reply already shows "Hel". *)
Lemma synthesizing_indicator_witness :
  reachable "" demo_text_backend demo_sent /\
  b_body <$> message_list "" demo_sent !! 2%nat = Some Synthesizing.
Proof.
  split; [exact demo_sent_reachable|].
  apply (synthesizing_indicator "" demo_text_backend demo_sent "" 2 demo_sent_reachable).
  split_and!; [reflexivity|reflexivity|]. eexists. split; reflexivity.
Defined.

End Render.
