(* ===== verification/Studio.v ===== *)
(** * The creative studio (src/StudioView.tsx) against a media service

    [StudioView] keeps its preferences (workflow type, aspect ratio,
    resolution, prompt, style) in React state initialised from
    [localStorage] and written back by an effect (lines 32-52); a
    generation ([handleGenerate], lines 64-94) calls the service's
    [generateImage] or [generateVideo], stores the URL or the error
    message, and reports the generation to the shell through the
    [onGeneration] callback; an interval rotates the loading message
    every 7000 ms while loading (lines 54-62).

    The studio only relies on what a media service promises, stated as
    the class [MediaService] of its two operations and the class
    [MediaServiceLaws] of what their results are; the studio's theorems
    are proved in a section over any instance.  [Gemini.generateImage]
    and [Video.generateVideo] over fixed SDK answers form the instance
    [gemini_service], and [gemini_service_laws] discharges the laws from
    [Gemini.generateImage_ok] and [Gemini.image_body_ok].

    [handleGenerate] is asynchronous: [EvGenerate] is its part up to the
    first [await] and [EvFinish] the rest, when the service's promise
    settles; the user may switch the workflow type or edit the prompt in
    between.  The SDK's result is fixed when the call is made ([Pending]).
    The persistence effect runs after every event ([persist]).

    The page is a function of the state ([studio_page], lines 201-296):
    the generate button's label, the error box, the output panel (an
    [<img>] for the image workflow, a [<video>] otherwise), the loading
    overlay with its rotating caption and the copy button's label; the
    Download button is [downloadMedia] (lines 105-113), which changes no
    state and is modelled as the link it clicks.  The clipboard write of
    [copyToClipboard] is assumed to succeed (its [catch] only logs). *)

From S2P Require Import Prelude JsString Gemini Video.
From stdpp Require Import pretty.

Module Studio.
Import JsString Gemini.

(** ** The service interface *)

Class MediaService := {
  gen_image : string -> string -> bool -> outcome string;
  gen_video : string -> string -> string -> outcome string
}.

Class MediaServiceLaws `{MediaService} := {
  gen_image_data_url : forall p ar hq u,
    gen_image p ar hq = Ok u -> exists d, u = String.append "data:image/png;base64," d
}.

(** [src/types.ts], [SubscriptionTier]. *)
Inductive SubscriptionTier := FREE | BASE | POPULAR | ENTERPRISE.

#[export] Instance SubscriptionTier_eq_dec : EqDecision SubscriptionTier.
Proof. solve_decision. Defined.

(** ** State *)

Inductive Call :=
| CallImage (prompt aspectRatio : string) (highQuality : bool)
| CallVideo (prompt aspectRatio resolution : string).

Record Pending := { pending_result : outcome string }.

Record StudioState := {
  stype : string;
  aspectRatio : string;
  resolution : string;
  prompt : string;
  style : string;
  loading : bool;
  loadingMessageIndex : nat;
  result : option string;
  error : option string;
  isCopied : bool;
  pending : option Pending;
  calls : list Call;
  generations : nat;
  storage : gmap string string
}.

(** Field updates, [s <| f := v |>]. *)

Declare Scope studio_scope.
#[local] Open Scope studio_scope.

Definition set_stype (x : string) (s : StudioState) : StudioState :=
  {| stype := x; aspectRatio := aspectRatio s; resolution := resolution s; prompt := prompt s; style := style s; loading := loading s; loadingMessageIndex := loadingMessageIndex s; result := result s; error := error s; isCopied := isCopied s; pending := pending s; calls := calls s; generations := generations s; storage := storage s |}.
Definition set_aspectRatio (x : string) (s : StudioState) : StudioState :=
  {| stype := stype s; aspectRatio := x; resolution := resolution s; prompt := prompt s; style := style s; loading := loading s; loadingMessageIndex := loadingMessageIndex s; result := result s; error := error s; isCopied := isCopied s; pending := pending s; calls := calls s; generations := generations s; storage := storage s |}.
Definition set_resolution (x : string) (s : StudioState) : StudioState :=
  {| stype := stype s; aspectRatio := aspectRatio s; resolution := x; prompt := prompt s; style := style s; loading := loading s; loadingMessageIndex := loadingMessageIndex s; result := result s; error := error s; isCopied := isCopied s; pending := pending s; calls := calls s; generations := generations s; storage := storage s |}.
Definition set_prompt (x : string) (s : StudioState) : StudioState :=
  {| stype := stype s; aspectRatio := aspectRatio s; resolution := resolution s; prompt := x; style := style s; loading := loading s; loadingMessageIndex := loadingMessageIndex s; result := result s; error := error s; isCopied := isCopied s; pending := pending s; calls := calls s; generations := generations s; storage := storage s |}.
Definition set_style (x : string) (s : StudioState) : StudioState :=
  {| stype := stype s; aspectRatio := aspectRatio s; resolution := resolution s; prompt := prompt s; style := x; loading := loading s; loadingMessageIndex := loadingMessageIndex s; result := result s; error := error s; isCopied := isCopied s; pending := pending s; calls := calls s; generations := generations s; storage := storage s |}.
Definition set_loading (x : bool) (s : StudioState) : StudioState :=
  {| stype := stype s; aspectRatio := aspectRatio s; resolution := resolution s; prompt := prompt s; style := style s; loading := x; loadingMessageIndex := loadingMessageIndex s; result := result s; error := error s; isCopied := isCopied s; pending := pending s; calls := calls s; generations := generations s; storage := storage s |}.
Definition set_loadingMessageIndex (x : nat) (s : StudioState) : StudioState :=
  {| stype := stype s; aspectRatio := aspectRatio s; resolution := resolution s; prompt := prompt s; style := style s; loading := loading s; loadingMessageIndex := x; result := result s; error := error s; isCopied := isCopied s; pending := pending s; calls := calls s; generations := generations s; storage := storage s |}.
Definition set_result (x : option string) (s : StudioState) : StudioState :=
  {| stype := stype s; aspectRatio := aspectRatio s; resolution := resolution s; prompt := prompt s; style := style s; loading := loading s; loadingMessageIndex := loadingMessageIndex s; result := x; error := error s; isCopied := isCopied s; pending := pending s; calls := calls s; generations := generations s; storage := storage s |}.
Definition set_error (x : option string) (s : StudioState) : StudioState :=
  {| stype := stype s; aspectRatio := aspectRatio s; resolution := resolution s; prompt := prompt s; style := style s; loading := loading s; loadingMessageIndex := loadingMessageIndex s; result := result s; error := x; isCopied := isCopied s; pending := pending s; calls := calls s; generations := generations s; storage := storage s |}.
Definition set_isCopied (x : bool) (s : StudioState) : StudioState :=
  {| stype := stype s; aspectRatio := aspectRatio s; resolution := resolution s; prompt := prompt s; style := style s; loading := loading s; loadingMessageIndex := loadingMessageIndex s; result := result s; error := error s; isCopied := x; pending := pending s; calls := calls s; generations := generations s; storage := storage s |}.
Definition set_pending (x : option Pending) (s : StudioState) : StudioState :=
  {| stype := stype s; aspectRatio := aspectRatio s; resolution := resolution s; prompt := prompt s; style := style s; loading := loading s; loadingMessageIndex := loadingMessageIndex s; result := result s; error := error s; isCopied := isCopied s; pending := x; calls := calls s; generations := generations s; storage := storage s |}.
Definition set_calls (x : list Call) (s : StudioState) : StudioState :=
  {| stype := stype s; aspectRatio := aspectRatio s; resolution := resolution s; prompt := prompt s; style := style s; loading := loading s; loadingMessageIndex := loadingMessageIndex s; result := result s; error := error s; isCopied := isCopied s; pending := pending s; calls := x; generations := generations s; storage := storage s |}.
Definition set_generations (x : nat) (s : StudioState) : StudioState :=
  {| stype := stype s; aspectRatio := aspectRatio s; resolution := resolution s; prompt := prompt s; style := style s; loading := loading s; loadingMessageIndex := loadingMessageIndex s; result := result s; error := error s; isCopied := isCopied s; pending := pending s; calls := calls s; generations := x; storage := storage s |}.
Definition set_storage (x : gmap string string) (s : StudioState) : StudioState :=
  {| stype := stype s; aspectRatio := aspectRatio s; resolution := resolution s; prompt := prompt s; style := style s; loading := loading s; loadingMessageIndex := loadingMessageIndex s; result := result s; error := error s; isCopied := isCopied s; pending := pending s; calls := calls s; generations := generations s; storage := x |}.

Notation "s <| 'stype' := x |>" := (set_stype x s)
  (at level 1, left associativity, x at level 99) : studio_scope.
Notation "s <| 'aspectRatio' := x |>" := (set_aspectRatio x s)
  (at level 1, left associativity, x at level 99) : studio_scope.
Notation "s <| 'resolution' := x |>" := (set_resolution x s)
  (at level 1, left associativity, x at level 99) : studio_scope.
Notation "s <| 'prompt' := x |>" := (set_prompt x s)
  (at level 1, left associativity, x at level 99) : studio_scope.
Notation "s <| 'style' := x |>" := (set_style x s)
  (at level 1, left associativity, x at level 99) : studio_scope.
Notation "s <| 'loading' := x |>" := (set_loading x s)
  (at level 1, left associativity, x at level 99) : studio_scope.
Notation "s <| 'loadingMessageIndex' := x |>" := (set_loadingMessageIndex x s)
  (at level 1, left associativity, x at level 99) : studio_scope.
Notation "s <| 'result' := x |>" := (set_result x s)
  (at level 1, left associativity, x at level 99) : studio_scope.
Notation "s <| 'error' := x |>" := (set_error x s)
  (at level 1, left associativity, x at level 99) : studio_scope.
Notation "s <| 'isCopied' := x |>" := (set_isCopied x s)
  (at level 1, left associativity, x at level 99) : studio_scope.
Notation "s <| 'pending' := x |>" := (set_pending x s)
  (at level 1, left associativity, x at level 99) : studio_scope.
Notation "s <| 'calls' := x |>" := (set_calls x s)
  (at level 1, left associativity, x at level 99) : studio_scope.
Notation "s <| 'generations' := x |>" := (set_generations x s)
  (at level 1, left associativity, x at level 99) : studio_scope.
Notation "s <| 'storage' := x |>" := (set_storage x s)
  (at level 1, left associativity, x at level 99) : studio_scope.

(** [LOADING_MESSAGES] (lines 20-29): the overlay's rotating captions. *)
Definition LOADING_MESSAGES : list string := [
  "Initializing Giga Cinematic Engine...";
  "Synthesizing neural video frames...";
  "Optimizing resolution and lighting...";
  "Applying cinematic color grading...";
  "This may take a few minutes for complex scenes...";
  "Finalizing production buffers...";
  "Giga AI: Optimizing for viral engagement...";
  "Preparing high-fidelity stream..."
].

Definition LOADING_MESSAGES_length : nat := length LOADING_MESSAGES.

(** [CINEMATIC_STYLES] (lines 11-18): the options of the preset select. *)
Definition CINEMATIC_STYLES : list (string * string) := [
  ("Original", "");
  ("Cinematic Master", "stunning cinematic style, 8k, photorealistic, anamorphic lens, high contrast");
  ("African Futurism", "african futuristic aesthetic, vibrance, neon traditional patterns, high tech gold accents");
  ("Anime / Ghibli", "studio ghibli hand-painted style, whimsical, soft atmospheric lighting");
  ("Cyberpunk 2077", "cyberpunk neon city, night rain, sharp reflections, futuristic mood");
  ("IMAX Drone View", "majestic aerial view, sweeping horizon, high-speed movement, grand scale")
].

Definition premium_msg : string :=
  "Giga Cinematic Engine is reserved for premium tiers. Please upgrade to unleash full potential.".
Definition offline_msg : string := "Synthesizer offline. Check API connectivity.".

(** [localStorage.getItem(k) || d]. *)
Definition stored_or (st : gmap string string) (k d : string) : string :=
  match st !! k with Some v => str_or v d | None => d end.

(** The [useState] initialisers of lines 32-36 and the constants of
    lines 38-42. *)
Definition mount (st : gmap string string) : StudioState := {|
  stype := stored_or st "giga_studio_type" "image";
  aspectRatio := stored_or st "giga_studio_ratio" "1:1";
  resolution := stored_or st "giga_studio_res" "720p";
  prompt := stored_or st "giga_studio_prompt" "";
  style := stored_or st "giga_studio_style" "";
  loading := false;
  loadingMessageIndex := 0;
  result := None;
  error := None;
  isCopied := false;
  pending := None;
  calls := [];
  generations := 0;
  storage := st
|}.

(** The effect of lines 46-52. *)
Definition save (s : StudioState) (st : gmap string string) : gmap string string :=
  <["giga_studio_style" := style s]> (<["giga_studio_prompt" := prompt s]>
  (<["giga_studio_res" := resolution s]> (<["giga_studio_ratio" := aspectRatio s]>
  (<["giga_studio_type" := stype s]> st)))).

(** ** Handlers *)

(** [downloadMedia] (lines 113-121): with a (truthy) result, a link to
    it named [giga-ai-${type}-${Date.now()}.${type === 'image' ? 'png'
    : 'mp4'}] is clicked; no state changes, so the handler is the
    download it starts, [(href, file name)]. *)
Definition download_ext (t : string) : string :=
  if bool_decide (t = "image") then "png" else "mp4".

Definition downloadMedia (now : nat) (s : StudioState) : option (string * string) :=
  match result s with
  | Some r =>
      if bool_decide (r = "") then None
      else Some (r, "giga-ai-" +:+ stype s +:+ "-" +:+ pretty now +:+ "." +:+ download_ext (stype s))
  | None => None
  end.

(** ** The page (lines 115-302) *)

(** The output panel: [result ? (type === 'image' ? <img src={result}>
    : <video src={result}>) : placeholder]. *)
Inductive Output :=
| ImgOut (src : string)
| VideoOut (src : string)
| Placeholder.

(** What the page shows beside the controls: the generate button's
    label (outside the editor), the error box, the output panel, the
    loading overlay with [LOADING_MESSAGES[loadingMessageIndex]] (an
    index out of range reads [undefined], which renders nothing) and the
    action bar with the copy button's label. *)
Record StudioPage := {
  pg_generate : option string;
  pg_error : option string;
  pg_output : Output;
  pg_overlay : option (option string);
  pg_copy : option string
}.

Definition studio_page (s : StudioState) : StudioPage := {|
  pg_generate := if bool_decide (stype s = "editor") then None
                 else Some (if loading s then "Processing Neural Buffers..." else "Generate " +:+ stype s);
  pg_error := truthy (error s);
  pg_output := match truthy (result s) with
               | Some r => if bool_decide (stype s = "image") then ImgOut r else VideoOut r
               | None => Placeholder
               end;
  pg_overlay := if loading s then Some (LOADING_MESSAGES !! loadingMessageIndex s) else None;
  pg_copy := match truthy (result s) with
             | Some _ => Some (if isCopied s then "Copied" else "Copy URL")
             | None => None
             end
|}.

Section Handlers.
Context `{MediaService} (tier : SubscriptionTier).

(** [tier !== SubscriptionTier.FREE]. *)
Definition isPremium : bool := bool_decide (tier <> FREE).

(** [style ? `${prompt}. ${style}` : prompt]. *)
Definition enhancedPrompt (s : StudioState) : string :=
  if bool_decide (style s = "") then prompt s else prompt s +:+ ". " +:+ style s.

(** [handleGenerate] up to its [await] (or to its end on the paths
    without one). *)
Definition handleGenerate (s : StudioState) : StudioState :=
  if bool_decide (stype s = "editor") || bool_decide (trim (prompt s) = "") || loading s then s
  else
    let s1 := s <| loading := true |> <| result := None |> <| error := None |> <| isCopied := false |> in
    let p := enhancedPrompt s in
    if bool_decide (stype s = "image") then
      s1 <| calls := calls s ++ [CallImage p (aspectRatio s) isPremium] |>
         <| pending := Some {| pending_result := gen_image p (aspectRatio s) isPremium |} |>
    else if bool_decide (stype s = "video") then
      if negb isPremium then s1 <| error := Some premium_msg |> <| loading := false |>
      else
        s1 <| calls := calls s ++ [CallVideo p (aspectRatio s) (resolution s)] |>
           <| pending := Some {| pending_result := gen_video p (aspectRatio s) (resolution s) |} |>
    else s1 <| generations := S (generations s) |> <| loading := false |>.

(** The service's promise settles: [setResult(url); onGeneration()] or
    [setError(err.message || ...)], then [finally]. *)
Definition finishGenerate (s : StudioState) : StudioState :=
  match pending s with
  | Some pd =>
      match pending_result pd with
      | Ok url => s <| result := Some url |> <| generations := S (generations s) |>
                    <| loading := false |> <| pending := None |>
      | Throw msg => s <| error := Some (str_or msg offline_msg) |> <| loading := false |>
                       <| pending := None |>
      end
  | None => s
  end.

Inductive Event :=
| EvSetType (t : string)
| EvPrompt (v : string)
| EvStyle (v : string)
| EvRatio (r : string)
| EvRes (r : string)
| EvGenerate
| EvFinish
| EvTick
| EvCopy
| EvCopyReset.

(** Which events the page can deliver: the type buttons always; the
    prompt, the preset select, the ratio buttons and the generate button
    only outside the editor (lines 144-209), the resolution buttons only
    for video (line 186), the generate button only when it is not
    [disabled={loading || !prompt.trim()}]; a settled promise only when
    one is pending, the interval only while loading, a copy only with a
    result, the copy timer's reset only after a copy. *)
Definition enabled (e : Event) (s : StudioState) : bool :=
  let controls := negb (bool_decide (stype s = "editor")) in
  match e with
  | EvSetType t => bool_decide (t ∈ ["image"; "video"; "editor"])
  | EvPrompt _ => controls
  | EvStyle v => controls && bool_decide (v ∈ map snd CINEMATIC_STYLES)
  | EvRatio r => controls && bool_decide (r ∈ ["1:1"; "16:9"; "9:16"])
  | EvRes r => bool_decide (stype s = "video") && bool_decide (r ∈ ["720p"; "1080p"])
  | EvGenerate => controls && negb (loading s) && negb (bool_decide (trim (prompt s) = ""))
  | EvFinish => bool_decide (is_Some (pending s))
  | EvTick => loading s
  | EvCopy => bool_decide (is_Some (truthy (result s)))
  | EvCopyReset => isCopied s
  end.

Definition run0 (e : Event) (s : StudioState) : StudioState :=
  match e with
  | EvSetType t => s <| stype := t |> <| result := None |>
  | EvPrompt v => s <| prompt := v |>
  | EvStyle v => s <| style := v |>
  | EvRatio r => s <| aspectRatio := r |>
  | EvRes r => s <| resolution := r |>
  | EvGenerate => handleGenerate s
  | EvFinish => finishGenerate s
  | EvTick => s <| loadingMessageIndex := (loadingMessageIndex s + 1) mod LOADING_MESSAGES_length |>
  | EvCopy => s <| isCopied := true |>
  | EvCopyReset => s <| isCopied := false |>
  end.

(** Every event followed by the persistence effect. *)
Definition persist (s : StudioState) : StudioState := s <| storage := save s (storage s) |>.

Definition run (e : Event) (s : StudioState) : StudioState := persist (run0 e s).

Inductive sstep : StudioState -> StudioState -> Prop :=
| sstep_run e s : enabled e s = true -> sstep s (run e s).

(** The persistence effect also runs after the first render. *)
Definition reachable (st : gmap string string) (s : StudioState) : Prop :=
  rtc sstep (persist (mount st)) s.

Definition run_trace (es : list Event) (s : StudioState) : StudioState :=
  fold_left (fun s e => run e s) es s.

Definition trace_enabled (es : list Event) (s : StudioState) : bool :=
  (fix go es s := match es with
                  | [] => true
                  | e :: es' => enabled e s && go es' (run e s)
                  end) es s.

End Handlers.

(** The preferences the studio persists. *)
Definition prefs (s : StudioState) : string * string * string * string * string :=
  (stype s, aspectRatio s, resolution s, prompt s, style s).


(** ** The SDK-backed service *)

Definition gemini_service (ib : ImageBackend) (vb : Video.VideoBackend) : MediaService := {|
  gen_image p ar hq := snd (generateImage ib p ar hq []);
  gen_video p ar r := snd (Video.generateVideo vb p ar r [])
|}.

(** ** Sample states *)

(** The studio mounted on an empty store with "a lion" typed. *)
Definition demo_prompted `{MediaService} : StudioState :=
  run FREE (EvPrompt "a lion") (persist (mount ∅)).

(** The same state after generating and switching to the video
    workflow before the result arrives. *)
Definition demo_race `{MediaService} : StudioState :=
  run FREE EvFinish (run FREE (EvSetType "video") (run FREE EvGenerate demo_prompted)).

(** The service over the sample SDK answers of [Gemini] and [Video]. *)
Definition GS : MediaService := gemini_service demo_image_backend Video.demo_video_backend.

(** A store holding a workflow type the page has no button for. *)
Definition tampered_store : gmap string string :=
  <["giga_studio_prompt" := "sunset"]> (<["giga_studio_type" := "images"]> ∅).

(** ** Laws *)

Definition is_video_call (c : Call) : bool :=
  match c with CallVideo _ _ _ => true | CallImage _ _ _ => false end.

Definition prefs_nonempty (s : StudioState) : Prop :=
  stype s <> "" /\ aspectRatio s <> "" /\ resolution s <> "".

Section Specs.
Context `{MediaService} (tier : SubscriptionTier).

(** What a URL shown by the studio can be. *)
Definition result_ok (u : string) : Prop :=
  (exists d, u = String.append "data:image/png;base64," d) \/
  (exists p ar r, gen_video p ar r = Ok u).

Definition studio_inv (s : StudioState) : Prop :=
  (tier = FREE -> Forall (fun c => is_video_call c = false) (calls s)) /\
  (forall u, result s = Some u -> result_ok u) /\
  (forall pd u, pending s = Some pd -> pending_result pd = Ok u -> result_ok u) /\
  (loadingMessageIndex s < LOADING_MESSAGES_length)%nat.

End Specs.

Lemma save_lookups s st :
  save s st !! "giga_studio_type" = Some (stype s) /\
  save s st !! "giga_studio_ratio" = Some (aspectRatio s) /\
  save s st !! "giga_studio_res" = Some (resolution s) /\
  save s st !! "giga_studio_prompt" = Some (prompt s) /\
  save s st !! "giga_studio_style" = Some (style s).
Proof. unfold save. split_and!; by simplify_map_eq. Qed.

Lemma str_or_l v d : v <> "" -> str_or v d = v.
Proof. by destruct v. Qed.

Lemma str_or_empty v : str_or v "" = v.
Proof. by destruct v. Qed.

(** Reading back what the effect wrote restores the preferences. *)
Lemma mount_save s st : prefs_nonempty s -> prefs (mount (save s st)) = prefs s.
Proof.
  intros (Ht & Hr & Hs). destruct (save_lookups s st) as (E1 & E2 & E3 & E4 & E5).
  unfold prefs, mount, stored_or. simpl.
  by rewrite E1, E2, E3, E4, E5, !str_or_l, !str_or_empty by done.
Qed.

Lemma save_persist x st : save (persist x) st = save x st.
Proof. reflexivity. Qed.

Lemma stored_or_nonempty st k d : d <> "" -> stored_or st k d <> "".
Proof. unfold stored_or. destruct (st !! k) as [[|c v]|]; simpl; congruence. Qed.

Lemma in_buttons_nonempty (t : string) l : t ∈ l -> Forall (fun x => x <> "") l -> t <> "".
Proof. intros Hin Hl. rewrite Forall_forall in Hl. by apply Hl. Qed.

#[local] Arguments Nat.modulo : simpl never.

Section Laws.
Context `{MediaServiceLaws} (tier : SubscriptionTier).

Lemma studio_inv_mount st : studio_inv tier (persist (mount st)).
Proof.
  split_and!; simpl; [intros _; constructor | intros u [=] | intros pd u [=] |].
  unfold LOADING_MESSAGES_length. simpl. lia.
Qed.

Lemma handleGenerate_inv s : studio_inv tier s -> studio_inv tier (handleGenerate tier s).
Proof.
  intros (Hc & Hr & Hp & Hi). unfold handleGenerate.
  destruct (bool_decide (stype s = "editor") || bool_decide (trim (prompt s) = "") || loading s);
    [split_and!; done|].
  destruct (bool_decide (stype s = "image")).
  - split_and!; simpl; try done.
    + intros Hf. apply Forall_app; split; [by apply Hc | by repeat constructor].
    + intros pd u [= <-]. simpl. intros Hu. left. by eapply gen_image_data_url.
  - destruct (bool_decide (stype s = "video")); [destruct (isPremium tier) eqn:Ep; simpl|].
    + split_and!; simpl; try done.
      * intros ->. unfold isPremium in Ep. by rewrite bool_decide_eq_false_2 in Ep.
      * intros pd u [= <-]. simpl. intros Hu. right. eauto.
    + split_and!; simpl; done.
    + split_and!; simpl; done.
Qed.

Lemma studio_inv_step s s' : studio_inv tier s -> sstep tier s s' -> studio_inv tier s'.
Proof.
  intros Hinv Hs. inversion Hs as [e s0 He]; subst.
  assert (Hp : forall x, studio_inv tier x -> studio_inv tier (persist x)) by (intros x Hx; exact Hx).
  unfold run. apply Hp. pose proof Hinv as (Hc & Hr & Hpd & Hi).
  destruct e; simpl; try (split_and!; simpl; by eauto).
  - by apply handleGenerate_inv.
  - unfold finishGenerate. destruct (pending s) as [pd|] eqn:E; [|exact Hinv].
    destruct (pending_result pd) as [url|msg] eqn:Eu; split_and!; simpl; try by eauto;
      try (intros ? ? [=]).
    intros u [= <-]. by eapply Hpd.
  - split_and!; simpl; try by eauto. unfold LOADING_MESSAGES_length. simpl. lia.
Qed.

Lemma reachable_studio_inv st s : reachable tier st s -> studio_inv tier s.
Proof.
  intros Hr. apply (rtc_ind_r (R := sstep tier) (studio_inv tier) (persist (mount st)));
    [apply studio_inv_mount| |exact Hr].
  intros y z _ Hyz IH. by eapply studio_inv_step.
Qed.

Lemma handleGenerate_prefs s : prefs (handleGenerate tier s) = prefs s.
Proof.
  unfold handleGenerate.
  destruct (bool_decide (stype s = "editor") || bool_decide (trim (prompt s) = "") || loading s);
    [done|].
  destruct (bool_decide (stype s = "image")); [done|].
  destruct (bool_decide (stype s = "video")); [destruct (negb (isPremium tier))|]; done.
Qed.

Lemma finishGenerate_prefs s : prefs (finishGenerate s) = prefs s.
Proof. unfold finishGenerate. by repeat case_match. Qed.

Lemma step_prefs_nonempty s s' : prefs_nonempty s -> sstep tier s s' -> prefs_nonempty s'.
Proof.
  intros Hn Hs. inversion Hs as [e s0 He]; subst.
  assert (Hp : forall x, stype x = stype s -> aspectRatio x = aspectRatio s ->
                          resolution x = resolution s -> prefs_nonempty (persist x)).
  { intros x E1 E2 E3. unfold prefs_nonempty. simpl. rewrite E1, E2, E3. exact Hn. }
  assert (Hq : forall x, prefs x = prefs s -> prefs_nonempty (persist x)).
  { intros x Hx. unfold prefs in Hx. injection Hx as E1 E2 E3 _ _. by apply Hp. }
  destruct Hn as (Ht & Hr & Hres). unfold run.
  destruct e; simpl in He |- *; try (apply Hp; reflexivity).
  - repeat apply andb_prop in He as [_ He]. apply bool_decide_eq_true in He. split_and!; simpl; try done.
    eapply in_buttons_nonempty; [exact He | repeat constructor; discriminate].
  - repeat apply andb_prop in He as [_ He]. apply bool_decide_eq_true in He. split_and!; simpl; try done.
    eapply in_buttons_nonempty; [exact He | repeat constructor; discriminate].
  - repeat apply andb_prop in He as [_ He]. apply bool_decide_eq_true in He. split_and!; simpl; try done.
    eapply in_buttons_nonempty; [exact He | repeat constructor; discriminate].
  - apply Hq, handleGenerate_prefs.
  - apply Hq, finishGenerate_prefs.
Qed.

Lemma reachable_persisted st s :
  reachable tier st s -> prefs_nonempty s /\ exists x, s = persist x.
Proof.
  intros Hr. apply (rtc_ind_r (R := sstep tier) (fun s => prefs_nonempty s /\ exists x, s = persist x)
                      (persist (mount st))); [| |exact Hr].
  - split; [|eauto]. split_and!; simpl; apply stored_or_nonempty; discriminate.
  - intros y z _ Hyz [Hn _]. split; [by eapply step_prefs_nonempty|].
    inversion Hyz; subst. unfold run. eauto.
Qed.

Lemma studio_trace_reachable es s :
  trace_enabled tier es s = true -> rtc (sstep tier) s (run_trace tier es s).
Proof.
  revert s; induction es as [|e es IH]; intros s Hs; [done|].
  simpl in Hs. apply andb_true_iff in Hs as [He Hes].
  eapply rtc_l; [by apply sstep_run | by apply IH].
Qed.

(** C21: the tier gate of [handleGenerate]: on the free tier the studio
    never calls the video service, whatever the user does in whatever
    order. *)
Theorem studio_free_tier_no_video st s :
  tier = FREE -> reachable tier st s -> Forall (fun c => is_video_call c = false) (calls s).
Proof. intros Hf Hr. by apply (reachable_studio_inv st s Hr). Qed.

(** C24: against any media service satisfying the interface's laws, a
    URL the studio shows is a PNG data URL from the image service or a
    result of the video service. *)
Theorem studio_result_sound st s u :
  reachable tier st s -> result s = Some u -> result_ok u.
Proof. intros Hr Hu. by apply (reachable_studio_inv st s Hr). Qed.

(** C38: Preferences survive a remount: in every reachable state the store
    holds the current workflow type, ratio, resolution, prompt and style,
    and mounting the studio again from the store restores them all. *)
Theorem studio_prefs_roundtrip st s :
  reachable tier st s -> prefs (mount (storage s)) = prefs s.
Proof.
  intros Hr. destruct (reachable_persisted st s Hr) as [Hn [x ->]].
  cbn [storage persist set_storage]. rewrite mount_save by exact Hn. reflexivity.
Qed.

(** A workflow type other than image, video and editor (read back
    from [localStorage] by line 32) makes [handleGenerate] report a
    generation through [onGeneration] without calling any service. *)
Theorem unknown_type_counts_generation s :
  stype s ∉ ["image"; "video"; "editor"] -> all_ws (prompt s) = false -> loading s = false ->
  let s' := run tier EvGenerate s in
  generations s' = S (generations s) /\ calls s' = calls s /\ result s' = None /\ loading s' = false.
Proof.
  intros Ht Hp Hl. unfold run, run0, persist, handleGenerate.
  rewrite (bool_decide_eq_false_2 (stype s = "editor")) by set_solver.
  rewrite (bool_decide_eq_false_2 (trim (prompt s) = "")) by (rewrite trim_empty; congruence).
  rewrite Hl. simpl.
  rewrite (bool_decide_eq_false_2 (stype s = "image")) by set_solver.
  rewrite (bool_decide_eq_false_2 (stype s = "video")) by set_solver.
  done.
Qed.

Lemma handleGenerate_image s :
  stype s = "image" -> all_ws (prompt s) = false -> loading s = false ->
  pending (handleGenerate tier s) =
    Some {| pending_result := gen_image (enhancedPrompt s) (aspectRatio s) (isPremium tier) |}.
Proof.
  intros Et Ep El. unfold handleGenerate. rewrite Et, El.
  rewrite (bool_decide_eq_false_2 ("image" = "editor")) by discriminate.
  rewrite (bool_decide_eq_false_2 (trim (prompt s) = "")) by (rewrite trim_empty; congruence).
  rewrite (bool_decide_eq_true_2 ("image" = "image")) by done. reflexivity.
Qed.

Lemma stype_run e x : stype (run tier e x) = stype (run0 tier e x).
Proof. reflexivity. Qed.

Lemma result_run e x : result (run tier e x) = result (run0 tier e x).
Proof. reflexivity. Qed.

Lemma pending_run e x : pending (run tier e x) = pending (run0 tier e x).
Proof. reflexivity. Qed.

Lemma finishGenerate_stype x : stype (finishGenerate x) = stype x.
Proof. unfold finishGenerate. by repeat case_match. Qed.

Lemma finishGenerate_ok x pd url :
  pending x = Some pd -> pending_result pd = Ok url -> result (finishGenerate x) = Some url.
Proof. intros E1 E2. unfold finishGenerate. by rewrite E1, E2. Qed.

Lemma generate_enabled s :
  stype s = "image" -> all_ws (prompt s) = false -> loading s = false -> enabled EvGenerate s = true.
Proof.
  intros Et Ep El; unfold enabled; rewrite Et, El.
  rewrite (bool_decide_eq_false_2 (trim (prompt s) = "")) by (rewrite trim_empty; congruence).
  reflexivity.
Qed.

Lemma stale_race st s0 u :
  reachable tier st s0 -> stype s0 = "image" -> all_ws (prompt s0) = false -> loading s0 = false ->
  gen_image (enhancedPrompt s0) (aspectRatio s0) (isPremium tier) = Ok u ->
  let s := run tier EvFinish (run tier (EvSetType "video") (run tier EvGenerate s0)) in
  reachable tier st s /\ stype s = "video" /\ result s = Some u.
Proof.
  intros Hr Et Ep El Hu s. subst s.
  pose proof (handleGenerate_image s0 Et Ep El) as Hp.
  split_and!.
  - eapply rtc_r; [eapply rtc_r; [eapply rtc_r; [exact Hr|]|]|]; apply sstep_run; [by apply generate_enabled|done|].
    unfold enabled. rewrite pending_run. cbn [run0 pending set_stype set_result].
    rewrite pending_run. cbn [run0]. rewrite Hp. by apply bool_decide_eq_true_2.
  - rewrite stype_run. cbn [run0]. rewrite finishGenerate_stype, stype_run. reflexivity.
  - rewrite result_run. cbn [run0].
    apply (finishGenerate_ok _ {| pending_result := gen_image (enhancedPrompt s0) (aspectRatio s0) (isPremium tier) |});
      [|exact Hu].
    rewrite pending_run. cbn [run0 pending set_stype set_result].
    rewrite pending_run. cbn [run0]. exact Hp.
Qed.

(** C22: the result of a generation is stored whatever workflow is shown
    when it arrives: switching to the video workflow while an image is
    being generated ends with the image's PNG data URL as the result of
    the video workflow, which the page renders in a <video> element. *)
Theorem stale_image_in_video_player st s0 u :
  reachable tier st s0 -> stype s0 = "image" -> all_ws (prompt s0) = false -> loading s0 = false ->
  gen_image (enhancedPrompt s0) (aspectRatio s0) (isPremium tier) = Ok u ->
  let s := run tier EvFinish (run tier (EvSetType "video") (run tier EvGenerate s0)) in
  reachable tier st s /\ (exists d, u = "data:image/png;base64," +:+ d) /\
  pg_output (studio_page s) = VideoOut u.
Proof.
  intros Hr Et Ep El Hu s.
  destruct (stale_race st s0 u Hr Et Ep El Hu) as (Hs & Ht & Hres).
  destruct (gen_image_data_url _ _ _ _ Hu) as [d ->].
  split_and!; [exact Hs|by exists d|]. subst s.
  unfold studio_page; cbn [pg_output]. rewrite Hres, Ht. reflexivity.
Qed.

(** C23: While a generation runs the overlay always shows one of the
    [LOADING_MESSAGES]: in every reachable state the interval's index
    stays below [LOADING_MESSAGES.length], so the caption is never
    [undefined], and each tick of the interval shows the next caption,
    cyclically. *)
Theorem studio_overlay_caption st s :
  reachable tier st s -> loading s = true ->
  exists m, pg_overlay (studio_page s) = Some (Some m) /\ m ∈ LOADING_MESSAGES /\
    pg_overlay (studio_page (run tier EvTick s)) =
      Some (LOADING_MESSAGES !! ((loadingMessageIndex s + 1) mod LOADING_MESSAGES_length)%nat).
Proof.
  intros Hr Hl. destruct (reachable_studio_inv st s Hr) as (_ & _ & _ & Hi).
  destruct (lookup_lt_is_Some_2 LOADING_MESSAGES (loadingMessageIndex s) Hi) as [m Hm].
  exists m. unfold studio_page; cbn [pg_overlay run persist run0 set_storage set_loadingMessageIndex loading loadingMessageIndex].
  rewrite Hl, Hm. split_and!; [done|by eapply list_elem_of_lookup_2|done].
Qed.

(** The stale image of [stale_image_in_video_player] is downloaded
    as a video: Download HD then saves the PNG data URL under a [.mp4]
    name. *)
Theorem stale_image_downloaded_as_mp4 st s0 u now :
  reachable tier st s0 -> stype s0 = "image" -> all_ws (prompt s0) = false -> loading s0 = false ->
  gen_image (enhancedPrompt s0) (aspectRatio s0) (isPremium tier) = Ok u ->
  let s := run tier EvFinish (run tier (EvSetType "video") (run tier EvGenerate s0)) in
  (exists d, u = "data:image/png;base64," +:+ d) /\
  downloadMedia now s = Some (u, "giga-ai-video-" +:+ pretty now +:+ ".mp4").
Proof.
  intros Hr Et Ep El Hu s.
  destruct (stale_race st s0 u Hr Et Ep El Hu) as (_ & Ht & Hres).
  destruct (gen_image_data_url _ _ _ _ Hu) as [d ->].
  split; [by exists d|]. subst s.
  unfold downloadMedia; rewrite Hres, Ht, bool_decide_eq_false_2 by discriminate; reflexivity.
Qed.

End Laws.

(** The SDK-backed service meets the interface: [generateImage] only
    returns the data URL of an inline part. *)
#[export] Instance gemini_service_laws ib vb : @MediaServiceLaws (gemini_service ib vb).
Proof.
  constructor. intros p ar hq u Hu. cbn [gen_image gemini_service] in Hu.
  destruct (image_body_ok ib p ar hq [] u (generateImage_ok _ _ _ _ _ _ Hu))
    as (cand & cands & ps & d & _ & _ & _ & ->). eauto.
Qed.

(** ** Witnesses *)

#[local] Existing Instance GS.

Lemma demo_prompted_reachable :
  @reachable GS FREE ∅ demo_prompted.
Proof. apply rtc_once. by apply sstep_run. Qed.

Lemma demo_race_reachable :
  @reachable GS FREE ∅ demo_race.
Proof.
  eapply rtc_r; [eapply rtc_r; [eapply rtc_r; [exact demo_prompted_reachable|]|]|];
    apply sstep_run; vm_compute; reflexivity.
Qed.

Lemma studio_free_tier_no_video_witness :
  FREE = FREE /\
  @reachable GS FREE ∅ demo_race /\
  Forall (fun c => is_video_call c = false)
    (calls demo_race).
Proof.
  split; [reflexivity|]. split; [exact demo_race_reachable|].
  exact (@studio_free_tier_no_video _ _ FREE ∅ _ eq_refl demo_race_reachable).
Defined.

Lemma studio_result_sound_witness :
  result (@demo_race GS) =
    Some "data:image/png;base64,iVBO" /\
  @result_ok GS "data:image/png;base64,iVBO".
Proof.
  assert (E : result (@demo_race GS) =
                Some "data:image/png;base64,iVBO") by (vm_compute; reflexivity).
  split; [exact E|].
  exact (@studio_result_sound _ _ FREE ∅ _ _ demo_race_reachable E).
Defined.

Lemma studio_prefs_roundtrip_witness :
  @reachable GS FREE ∅ demo_prompted /\
  prefs (mount (storage (@demo_prompted GS))) =
    ("image", "1:1", "720p", "a lion", "").
Proof.
  split; [exact demo_prompted_reachable|].
  rewrite (@studio_prefs_roundtrip _ FREE ∅ _ demo_prompted_reachable). vm_compute. reflexivity.
Defined.

Lemma unknown_type_counts_generation_witness :
  stype (persist (mount tampered_store)) = "images" /\
  let s' := @run GS FREE EvGenerate
              (persist (mount tampered_store)) in
  generations s' = 1%nat /\ calls s' = [] /\ result s' = None.
Proof.
  assert (Ht : stype (persist (mount tampered_store)) ∉ ["image"; "video"; "editor"])
    by (apply (bool_decide_eq_false _); vm_compute; reflexivity).
  assert (Hp : all_ws (prompt (persist (mount tampered_store))) = false) by (vm_compute; reflexivity).
  assert (Hl : loading (persist (mount tampered_store)) = false) by reflexivity.
  split; [vm_compute; reflexivity|].
  destruct (@unknown_type_counts_generation GS
              _ FREE _ Ht Hp Hl) as (H1 & H2 & H3 & _).
  split_and!; [rewrite H1; reflexivity | rewrite H2; reflexivity | exact H3].
Defined.

Lemma stale_image_in_video_player_witness :
  @stype (@demo_prompted GS) = "image" /\
  @gen_image GS (enhancedPrompt (@demo_prompted GS)) (aspectRatio (@demo_prompted GS))
    (isPremium FREE) = Ok "data:image/png;base64,iVBO" /\
  pg_output (studio_page (@demo_race GS)) = VideoOut "data:image/png;base64,iVBO".
Proof.
  assert (Et : stype (@demo_prompted GS) = "image") by (vm_compute; reflexivity).
  assert (Ep : all_ws (prompt (@demo_prompted GS)) = false) by (vm_compute; reflexivity).
  assert (El : loading (@demo_prompted GS) = false) by (vm_compute; reflexivity).
  assert (Hu : @gen_image GS (enhancedPrompt (@demo_prompted GS)) (aspectRatio (@demo_prompted GS))
                 (isPremium FREE) = Ok "data:image/png;base64,iVBO") by (vm_compute; reflexivity).
  destruct (@stale_image_in_video_player GS (gemini_service_laws _ _) FREE ∅ _ _ demo_prompted_reachable Et Ep El Hu)
    as (_ & _ & H3).
  split_and!; [exact Et | exact Hu | exact H3].
Defined.

(** The first generation's overlay opens on the first caption. *)
Lemma studio_overlay_caption_witness :
  @reachable GS FREE ∅ (run FREE EvGenerate (@demo_prompted GS)) /\
  loading (run FREE EvGenerate (@demo_prompted GS)) = true /\
  pg_overlay (studio_page (run FREE EvGenerate (@demo_prompted GS))) =
    Some (Some "Initializing Giga Cinematic Engine...").
Proof.
  assert (Hr : @reachable GS FREE ∅ (run FREE EvGenerate (@demo_prompted GS)))
    by (eapply rtc_r; [exact demo_prompted_reachable|apply sstep_run; vm_compute; reflexivity]).
  assert (Hl : loading (run FREE EvGenerate (@demo_prompted GS)) = true) by (vm_compute; reflexivity).
  destruct (@studio_overlay_caption GS (gemini_service_laws _ _) FREE ∅ _ Hr Hl) as (m & Hm & _).
  split_and!; [exact Hr|exact Hl|]. rewrite Hm. vm_compute in Hm. congruence.
Defined.

Lemma stale_image_downloaded_as_mp4_witness :
  @stype (@demo_prompted GS) = "image" /\
  downloadMedia 7 (@demo_race GS) = Some ("data:image/png;base64,iVBO", "giga-ai-video-7.mp4").
Proof.
  assert (Et : stype (@demo_prompted GS) = "image") by (vm_compute; reflexivity).
  assert (Ep : all_ws (prompt (@demo_prompted GS)) = false) by (vm_compute; reflexivity).
  assert (El : loading (@demo_prompted GS) = false) by (vm_compute; reflexivity).
  assert (Hu : @gen_image GS (enhancedPrompt (@demo_prompted GS)) (aspectRatio (@demo_prompted GS))
                 (isPremium FREE) = Ok "data:image/png;base64,iVBO") by (vm_compute; reflexivity).
  destruct (@stale_image_downloaded_as_mp4 GS (gemini_service_laws _ _) FREE ∅ _ _ 7 demo_prompted_reachable Et Ep El Hu)
    as (_ & H2).
  split; [exact Et|]. unfold demo_race. rewrite H2. vm_compute. reflexivity.
Defined.

End Studio.
