(* ===== verification/Shell.v ===== *)
(** * The application shell (src/App.tsx, src/AuthView.tsx, src/Onboarding.tsx,
    src/PricingView.tsx, src/DashboardView.tsx, src/Sidebar.tsx)

    [App] holds the user's session ([UserState]: tier, photos used today,
    logged in), the active tab, the search query and whether the
    onboarding tour shows; it renders [AuthView] while logged out and the
    sidebar, the active view and the tour otherwise.  Its handlers are
    [handleLogin], [handleLogout] (which also removes the
    [giga3_tutorial_seen] flag from [localStorage], [tutorial_seen] here),
    [handleUpgrade], [handleGeneration] (the studio's [onGeneration]: one
    more photo when the tier of the render that passed it is FREE) and [completeOnboarding]; an effect on
    [isLoggedIn] opens the tour when the flag is missing
    ([tutorial_effect], lines 47-52).  [Sidebar] and [DashboardView] only
    call [setActiveTab] and [setSearchQuery] ([nav_click],
    [search_change]); [PricingView]'s plan buttons call [onUpgrade] with
    the plan's tier ([plans]).

    [AuthView] simulates sign-in: submitting sets [loading] and a 1500 ms
    timer that calls [onLogin] (lines 18-26); sending a one-time code and
    resetting a password are timers too.  [Onboarding] walks through the
    five [STEPS] ([handleNext], [handleSkip], lines 83-91).

    The shell is a step relation [astep] over [AppState]: the events are
    the inputs the rendered page takes ([enabled]: a control exists and
    is not behind the tour's backdrop), the firing of a pending timer,
    and the studio's [onGeneration].  A timer remembers which [AuthView]
    instance set it ([auth_epoch]): once that instance is unmounted its
    state updates are dropped, while its [onLogin] still reaches [App].
    Mounting [AuthView] (on logout) resets its state, mounting
    [Onboarding] resets its step ([remount]).  [run_trace] and [trace_ok]
    run a list of events, so that witnesses are computed by [vm_compute].

    The session contract [session_step] says what [App] promises about
    the session; [shell_refines_session] shows every event but the
    studio's callback is a stutter or a step of it under [abs], and pins
    what the callback does.  [AuthView]'s loading overlay only stops the
    pointer, so its forms and buttons stay enabled while it loads
    ([stale_login_after_logout]).  The tour's backdrop is taken to stop
    every input to the page behind it (focus stays in the tooltip).  The navigation progress animation (lines
    29-45) and the unused [handleRefresh] (lines 81-87) are not
    modelled here; the views' texts and controls are in [Pages]. *)

From S2P Require Import Prelude JsString Studio.

Module Shell.
Import Studio.

(** ** State *)

Record UserState := { tier : SubscriptionTier; photosUsedToday : nat; isLoggedIn : bool }.

Inductive AuthMethod := Email | Phone | Google.

#[export] Instance AuthMethod_eq_dec : EqDecision AuthMethod.
Proof. solve_decision. Defined.

Record AuthState := {
  method : AuthMethod;
  isSignup : bool;
  isForgotPassword : bool;
  auth_loading : bool;
  otpSent : bool;
  resetEmailSent : bool
}.

(** The three [setTimeout]s of [AuthView]. *)
Inductive Timer := TLogin | TOtp | TReset.

Record AppState := {
  activeTab : string;
  searchQuery : string;
  showOnboarding : bool;
  user : UserState;
  tutorial_seen : bool;
  currentStep : nat;
  auth : AuthState;
  auth_epoch : nat;
  timers : list (Timer * nat);
  alerts : list string
}.

(** Field updates, [s <| f := v |>]. *)

Declare Scope shell_scope.
#[local] Open Scope shell_scope.

Definition set_tier (x : SubscriptionTier) (s : UserState) : UserState :=
  {| tier := x; photosUsedToday := photosUsedToday s; isLoggedIn := isLoggedIn s |}.
Definition set_photosUsedToday (x : nat) (s : UserState) : UserState :=
  {| tier := tier s; photosUsedToday := x; isLoggedIn := isLoggedIn s |}.
Definition set_isLoggedIn (x : bool) (s : UserState) : UserState :=
  {| tier := tier s; photosUsedToday := photosUsedToday s; isLoggedIn := x |}.

Notation "s <| 'tier' := x |>" := (set_tier x s)
  (at level 1, left associativity, x at level 99) : shell_scope.
Notation "s <| 'photosUsedToday' := x |>" := (set_photosUsedToday x s)
  (at level 1, left associativity, x at level 99) : shell_scope.
Notation "s <| 'isLoggedIn' := x |>" := (set_isLoggedIn x s)
  (at level 1, left associativity, x at level 99) : shell_scope.

Definition set_method (x : AuthMethod) (s : AuthState) : AuthState :=
  {| method := x; isSignup := isSignup s; isForgotPassword := isForgotPassword s; auth_loading := auth_loading s; otpSent := otpSent s; resetEmailSent := resetEmailSent s |}.
Definition set_isSignup (x : bool) (s : AuthState) : AuthState :=
  {| method := method s; isSignup := x; isForgotPassword := isForgotPassword s; auth_loading := auth_loading s; otpSent := otpSent s; resetEmailSent := resetEmailSent s |}.
Definition set_isForgotPassword (x : bool) (s : AuthState) : AuthState :=
  {| method := method s; isSignup := isSignup s; isForgotPassword := x; auth_loading := auth_loading s; otpSent := otpSent s; resetEmailSent := resetEmailSent s |}.
Definition set_auth_loading (x : bool) (s : AuthState) : AuthState :=
  {| method := method s; isSignup := isSignup s; isForgotPassword := isForgotPassword s; auth_loading := x; otpSent := otpSent s; resetEmailSent := resetEmailSent s |}.
Definition set_otpSent (x : bool) (s : AuthState) : AuthState :=
  {| method := method s; isSignup := isSignup s; isForgotPassword := isForgotPassword s; auth_loading := auth_loading s; otpSent := x; resetEmailSent := resetEmailSent s |}.
Definition set_resetEmailSent (x : bool) (s : AuthState) : AuthState :=
  {| method := method s; isSignup := isSignup s; isForgotPassword := isForgotPassword s; auth_loading := auth_loading s; otpSent := otpSent s; resetEmailSent := x |}.

Notation "s <| 'method' := x |>" := (set_method x s)
  (at level 1, left associativity, x at level 99) : shell_scope.
Notation "s <| 'isSignup' := x |>" := (set_isSignup x s)
  (at level 1, left associativity, x at level 99) : shell_scope.
Notation "s <| 'isForgotPassword' := x |>" := (set_isForgotPassword x s)
  (at level 1, left associativity, x at level 99) : shell_scope.
Notation "s <| 'auth_loading' := x |>" := (set_auth_loading x s)
  (at level 1, left associativity, x at level 99) : shell_scope.
Notation "s <| 'otpSent' := x |>" := (set_otpSent x s)
  (at level 1, left associativity, x at level 99) : shell_scope.
Notation "s <| 'resetEmailSent' := x |>" := (set_resetEmailSent x s)
  (at level 1, left associativity, x at level 99) : shell_scope.

Definition set_activeTab (x : string) (s : AppState) : AppState :=
  {| activeTab := x; searchQuery := searchQuery s; showOnboarding := showOnboarding s; user := user s; tutorial_seen := tutorial_seen s; currentStep := currentStep s; auth := auth s; auth_epoch := auth_epoch s; timers := timers s; alerts := alerts s |}.
Definition set_searchQuery (x : string) (s : AppState) : AppState :=
  {| activeTab := activeTab s; searchQuery := x; showOnboarding := showOnboarding s; user := user s; tutorial_seen := tutorial_seen s; currentStep := currentStep s; auth := auth s; auth_epoch := auth_epoch s; timers := timers s; alerts := alerts s |}.
Definition set_showOnboarding (x : bool) (s : AppState) : AppState :=
  {| activeTab := activeTab s; searchQuery := searchQuery s; showOnboarding := x; user := user s; tutorial_seen := tutorial_seen s; currentStep := currentStep s; auth := auth s; auth_epoch := auth_epoch s; timers := timers s; alerts := alerts s |}.
Definition set_user (x : UserState) (s : AppState) : AppState :=
  {| activeTab := activeTab s; searchQuery := searchQuery s; showOnboarding := showOnboarding s; user := x; tutorial_seen := tutorial_seen s; currentStep := currentStep s; auth := auth s; auth_epoch := auth_epoch s; timers := timers s; alerts := alerts s |}.
Definition set_tutorial_seen (x : bool) (s : AppState) : AppState :=
  {| activeTab := activeTab s; searchQuery := searchQuery s; showOnboarding := showOnboarding s; user := user s; tutorial_seen := x; currentStep := currentStep s; auth := auth s; auth_epoch := auth_epoch s; timers := timers s; alerts := alerts s |}.
Definition set_currentStep (x : nat) (s : AppState) : AppState :=
  {| activeTab := activeTab s; searchQuery := searchQuery s; showOnboarding := showOnboarding s; user := user s; tutorial_seen := tutorial_seen s; currentStep := x; auth := auth s; auth_epoch := auth_epoch s; timers := timers s; alerts := alerts s |}.
Definition set_auth (x : AuthState) (s : AppState) : AppState :=
  {| activeTab := activeTab s; searchQuery := searchQuery s; showOnboarding := showOnboarding s; user := user s; tutorial_seen := tutorial_seen s; currentStep := currentStep s; auth := x; auth_epoch := auth_epoch s; timers := timers s; alerts := alerts s |}.
Definition set_auth_epoch (x : nat) (s : AppState) : AppState :=
  {| activeTab := activeTab s; searchQuery := searchQuery s; showOnboarding := showOnboarding s; user := user s; tutorial_seen := tutorial_seen s; currentStep := currentStep s; auth := auth s; auth_epoch := x; timers := timers s; alerts := alerts s |}.
Definition set_timers (x : list (Timer * nat)) (s : AppState) : AppState :=
  {| activeTab := activeTab s; searchQuery := searchQuery s; showOnboarding := showOnboarding s; user := user s; tutorial_seen := tutorial_seen s; currentStep := currentStep s; auth := auth s; auth_epoch := auth_epoch s; timers := x; alerts := alerts s |}.
Definition set_alerts (x : list string) (s : AppState) : AppState :=
  {| activeTab := activeTab s; searchQuery := searchQuery s; showOnboarding := showOnboarding s; user := user s; tutorial_seen := tutorial_seen s; currentStep := currentStep s; auth := auth s; auth_epoch := auth_epoch s; timers := timers s; alerts := x |}.

Notation "s <| 'activeTab' := x |>" := (set_activeTab x s)
  (at level 1, left associativity, x at level 99) : shell_scope.
Notation "s <| 'searchQuery' := x |>" := (set_searchQuery x s)
  (at level 1, left associativity, x at level 99) : shell_scope.
Notation "s <| 'showOnboarding' := x |>" := (set_showOnboarding x s)
  (at level 1, left associativity, x at level 99) : shell_scope.
Notation "s <| 'user' := x |>" := (set_user x s)
  (at level 1, left associativity, x at level 99) : shell_scope.
Notation "s <| 'tutorial_seen' := x |>" := (set_tutorial_seen x s)
  (at level 1, left associativity, x at level 99) : shell_scope.
Notation "s <| 'currentStep' := x |>" := (set_currentStep x s)
  (at level 1, left associativity, x at level 99) : shell_scope.
Notation "s <| 'auth' := x |>" := (set_auth x s)
  (at level 1, left associativity, x at level 99) : shell_scope.
Notation "s <| 'auth_epoch' := x |>" := (set_auth_epoch x s)
  (at level 1, left associativity, x at level 99) : shell_scope.
Notation "s <| 'timers' := x |>" := (set_timers x s)
  (at level 1, left associativity, x at level 99) : shell_scope.
Notation "s <| 'alerts' := x |>" := (set_alerts x s)
  (at level 1, left associativity, x at level 99) : shell_scope.

(** ** Constants *)

(** The tour's steps (lines 4-42): each points at an element of the page. *)
Record OnboardingStep := { targetId : string; step_title : string; description : string; position : string }.

Definition STEPS : list OnboardingStep := [
  {| targetId := "dashboard-hero"; step_title := "Welcome to Giga3 AI";
     description := "This is your centralized command center for premium intelligence workflows.";
     position := "bottom" |};
  {| targetId := "nav-chat"; step_title := "Giga Chat";
     description := "Engage with our most advanced multimodal models for text and vision analysis.";
     position := "right" |};
  {| targetId := "nav-studio"; step_title := "Creative Studio";
     description := "Manifest stunning high-fidelity images and cinematic videos using Veo 3.1.";
     position := "right" |};
  {| targetId := "nav-voice"; step_title := "Voice Link";
     description := "Direct neural-audio uplink for real-time conversation with zero lag.";
     position := "right" |};
  {| targetId := "nav-pricing"; step_title := "Premium Upgrade";
     description := "Unlock unlimited 4K generations and priority rendering buffers.";
     position := "right" |}
].

Definition STEPS_length : nat := length STEPS.

(** The tab ids of [NAV_ITEMS] (in a file outside the sources): the ids
    the tour points at ([nav-chat], ...) and the views [App] renders. *)
Definition nav_ids : list string := ["dashboard"; "chat"; "studio"; "voice"; "pricing"].

Definition auth_init : AuthState := {|
  method := Email; isSignup := false; isForgotPassword := false;
  auth_loading := false; otpSent := false; resetEmailSent := false
|}.

(** [App] mounted, with [localStorage] holding the tutorial flag or not. *)
Definition app_init (seen : bool) : AppState := {|
  activeTab := "dashboard";
  searchQuery := "";
  showOnboarding := false;
  user := {| tier := FREE; photosUsedToday := 0; isLoggedIn := false |};
  tutorial_seen := seen;
  currentStep := 0;
  auth := auth_init;
  auth_epoch := 0;
  timers := [];
  alerts := []
|}.

(** The string values of the enum (src/types.ts lines 1-6), which a
    template literal or JSX prints. *)
Definition tier_value (t : SubscriptionTier) : string :=
  match t with FREE => "FREE" | BASE => "BASE" | POPULAR => "POPULAR" | ENTERPRISE => "ENTERPRISE" end.

Definition upgrade_alert (t : SubscriptionTier) : string :=
  "Success! You have been upgraded to the " +:+ tier_value t +:+ " plan immediately. Fulfillment triggered.".

(** ** The views that only call back into [App] *)

(** A plan of [PricingView] (lines 10-40); its button calls
    [onUpgrade plan.id] (line 80).  [isPopular] is set on the popular
    plan only and read as [false] (undefined) on the others. *)
Record Plan := {
  plan_id : SubscriptionTier; plan_name : string; price : string; features : list string;
  isPopular : bool; accent : string
}.

Definition plans : list Plan := [
  {| plan_id := FREE; plan_name := "Free Access"; price := "0.00";
     features := ["Unlimited General Knowledge"; "Songwriting & Copywriting"; "10 Photos / Day";
                  "Videos < 12 Seconds"; "Standard Processing"];
     isPopular := false; accent := "slate" |};
  {| plan_id := BASE; plan_name := "Base Tier"; price := "55.00";
     features := ["Unlimited Photo Generation"; "Priority Processing"; "Up to 30s Videos";
                  "Full Book Authorship"; "Email Support"];
     isPopular := false; accent := "blue" |};
  {| plan_id := POPULAR; plan_name := "Popular Tier"; price := "130.00";
     features := ["Unlimited High-Res Photos"; "Unlimited Long Videos"; "Enterprise Data Logic";
                  "Priority Rendering"; "Custom AI Voiceovers"];
     isPopular := true; accent := "gold" |};
  {| plan_id := ENTERPRISE; plan_name := "Enterprise"; price := "300.00";
     features := ["Full API Access"; "Team Collaboration"; "24/7 Dedicated Support";
                  "White-Label Options"; "Immediate Fulfillment"];
     isPopular := false; accent := "purple" |}
].

(** The tabs [DashboardView] switches to: its two hero buttons (lines 38
    and 44) and its [quickActions] (lines 15-19). *)
Definition quickActions : list string := ["chat"; "studio"; "voice"].
Definition hero_actions : list string := ["chat"; "studio"].

(** ** [App]'s handlers *)

Definition logged (s : AppState) : bool := isLoggedIn (user s).

(** The tour is on screen: [App] renders it only when logged in. *)
Definition shown (s : AppState) : bool := logged s && showOnboarding s.

Definition handleLogin (s : AppState) : AppState :=
  s <| user := (user s) <| isLoggedIn := true |> |>.

Definition handleLogout (s : AppState) : AppState :=
  s <| user := (user s) <| isLoggedIn := false |> |> <| tutorial_seen := false |>.

Definition handleUpgrade (t : SubscriptionTier) (s : AppState) : AppState :=
  s <| user := (user s) <| tier := t |> |> <| activeTab := "chat" |>
    <| alerts := alerts s ++ [upgrade_alert t] |>.

(** [handleGeneration] as the studio holds it (lines 68-72): the
    closure of the render that passed it as [onGeneration] tests that
    render's [userState.tier], [t]; the updater reads the latest state. *)
Definition handleGeneration (t : SubscriptionTier) (s : AppState) : AppState :=
  if bool_decide (t = FREE)
  then s <| user := (user s) <| photosUsedToday := S (photosUsedToday (user s)) |> |>
  else s.

Definition completeOnboarding (s : AppState) : AppState :=
  s <| showOnboarding := false |> <| tutorial_seen := true |>.

(** The effect of lines 47-52. *)
Definition tutorial_effect (s : AppState) : AppState :=
  if logged s && negb (tutorial_seen s) then s <| showOnboarding := true |> else s.

(** ** The callbacks [Sidebar] and [DashboardView] are given *)

(** A nav button, or a dashboard action: [setActiveTab(item.id)]. *)
Definition nav_click (id : string) (s : AppState) : AppState := s <| activeTab := id |>.

(** The search input: [setSearchQuery(e.target.value)]. *)
Definition search_change (q : string) (s : AppState) : AppState := s <| searchQuery := q |>.

(** ** [Onboarding]'s handlers *)

Definition handleNext (s : AppState) : AppState :=
  if Nat.ltb (currentStep s) (STEPS_length - 1) then s <| currentStep := S (currentStep s) |>
  else completeOnboarding s.

Definition handleSkip (s : AppState) : AppState := completeOnboarding s.

(** ** [AuthView]'s handlers *)

Definition with_auth (f : AuthState -> AuthState) (s : AppState) : AppState :=
  s <| auth := f (auth s) |>.

Definition start_timer (t : Timer) (s : AppState) : AppState :=
  with_auth (fun a => a <| auth_loading := true |>) s <| timers := timers s ++ [(t, auth_epoch s)] |>.

Definition handleSubmit (s : AppState) : AppState := start_timer TLogin s.
Definition handleSendOTP (s : AppState) : AppState := start_timer TOtp s.
Definition handleResetPassword (s : AppState) : AppState := start_timer TReset s.

(** A timer fires: its [setState] calls reach the [AuthView] that set it
    only while that instance is mounted; [onLogin] always reaches [App]. *)
Definition fire_timer (tm : Timer * nat) (s : AppState) : AppState :=
  let live := Nat.eqb (snd tm) (auth_epoch s) && negb (logged s) in
  match fst tm with
  | TLogin =>
      handleLogin (if live then with_auth (fun a => a <| auth_loading := false |>) s else s)
  | TOtp =>
      if live then with_auth (fun a => a <| auth_loading := false |> <| otpSent := true |>) s else s
  | TReset =>
      if live then with_auth (fun a => a <| auth_loading := false |> <| resetEmailSent := true |>) s else s
  end.

(** ** The page *)

Inductive Event :=
| EvMethod (m : AuthMethod)
| EvToggleSignup
| EvForgot
| EvBack
| EvBackAfterReset
| EvSubmit
| EvSendOTP
| EvReset
| EvTimer (i : nat)
| EvLogout
| EvTab (t : string)
| EvSearch (q : string)
| EvUpgrade (t : SubscriptionTier)
| EvGeneration (t : SubscriptionTier)
| EvNext
| EvSkip.

#[export] Instance Event_eq_dec : EqDecision Event.
Proof. solve_decision. Defined.

(** What the rendered page lets happen: [AuthView]'s controls while
    logged out, the shell's while logged in and the tour is not covering
    the page, the tour's buttons while it shows, a pending timer, and
    the studio's [onGeneration].  [AuthView]'s loading overlay
    (lines 117-121) only stops the pointer: nothing is [disabled] and
    the handlers do not test [loading], so the focused form still
    submits on Enter and a focused button still responds to the
    keyboard; its controls are enabled whatever [loading] is.  The
    studio's [onGeneration] can run in any state: a generation started
    before a tab switch or a sign-out settles after it, with the tier of
    the render that started it. *)
Definition enabled (e : Event) (s : AppState) : bool :=
  let a := auth s in
  match e with
  | EvMethod _ => negb (logged s) && negb (isForgotPassword a)
  | EvToggleSignup => negb (logged s)
  | EvForgot => negb (logged s) && negb (isForgotPassword a) &&
                bool_decide (method a = Email) && negb (isSignup a)
  | EvBack => negb (logged s) && isForgotPassword a && negb (resetEmailSent a)
  | EvBackAfterReset => negb (logged s) && isForgotPassword a && resetEmailSent a
  | EvSubmit => negb (logged s) && negb (isForgotPassword a) &&
                (bool_decide (method a = Email) || (bool_decide (method a = Phone) && otpSent a) ||
                 bool_decide (method a = Google))
  | EvSendOTP => negb (logged s) && negb (isForgotPassword a) &&
                 bool_decide (method a = Phone) && negb (otpSent a)
  | EvReset => negb (logged s) && isForgotPassword a && negb (resetEmailSent a)
  | EvTimer i => Nat.ltb i (length (timers s))
  | EvLogout => logged s && negb (shown s)
  | EvTab t => logged s && negb (shown s) &&
               (bool_decide (t ∈ nav_ids) ||
                bool_decide (activeTab s = "dashboard") && bool_decide (t ∈ hero_actions ++ quickActions))
  | EvSearch _ => logged s && negb (shown s)
  | EvUpgrade t => logged s && negb (shown s) && bool_decide (activeTab s = "pricing") &&
                   bool_decide (t ∈ map plan_id plans)
  | EvGeneration _ => true
  | EvNext | EvSkip => shown s
  end.

Definition run0 (e : Event) (s : AppState) : AppState :=
  match e with
  | EvMethod m => with_auth (fun a => a <| method := m |> <| otpSent := false |>) s
  | EvToggleSignup => with_auth (fun a => a <| isSignup := negb (isSignup a) |> <| isForgotPassword := false |>) s
  | EvForgot => with_auth (fun a => a <| isForgotPassword := true |>) s
  | EvBack => with_auth (fun a => a <| isForgotPassword := false |>) s
  | EvBackAfterReset => with_auth (fun a => a <| isForgotPassword := false |> <| resetEmailSent := false |>) s
  | EvSubmit => handleSubmit s
  | EvSendOTP => handleSendOTP s
  | EvReset => handleResetPassword s
  | EvTimer i =>
      match timers s !! i with
      | Some tm => fire_timer tm (s <| timers := delete i (timers s) |>)
      | None => s
      end
  | EvLogout => handleLogout s
  | EvTab t => nav_click t s
  | EvSearch q => search_change q s
  | EvUpgrade t => handleUpgrade t s
  | EvGeneration t => handleGeneration t s
  | EvNext => handleNext s
  | EvSkip => handleSkip s
  end.

(** What React does after a handler: a freshly mounted [AuthView] starts
    from its initial state, the effect on [isLoggedIn] runs when it
    changed, a freshly mounted [Onboarding] starts at step 0. *)
Definition remount (s s' : AppState) : AppState :=
  let s1 := if negb (logged s') && logged s
            then s' <| auth := auth_init |> <| auth_epoch := S (auth_epoch s') |> else s' in
  let s2 := if bool_decide (logged s1 <> logged s) then tutorial_effect s1 else s1 in
  if shown s2 && negb (shown s) then s2 <| currentStep := 0 |> else s2.

Definition run (e : Event) (s : AppState) : AppState := remount s (run0 e s).

Inductive astep : AppState -> AppState -> Prop :=
| astep_run e s : enabled e s = true -> astep s (run e s).

Definition reachable (seen : bool) (s : AppState) : Prop := rtc astep (app_init seen) s.

Definition run_trace (es : list Event) (s : AppState) : AppState := fold_left (fun s e => run e s) es s.

Definition trace_ok (es : list Event) (s : AppState) : bool :=
  (fix go es s := match es with
                  | [] => true
                  | e :: es' => enabled e s && go es' (run e s)
                  end) es s.

(** ** Specifications *)

(** The shell's invariant: the tour's step indexes [STEPS]. *)
Definition shell_inv (s : AppState) : Prop := currentStep s < STEPS_length.

(** Submit the sign-in form, press Enter again while it loads, let the
    first timer sign in, and sign out. *)
Definition double_submit : list Event := [EvSubmit; EvSubmit; EvTimer 0; EvLogout].

(** Sign out, choose Google, sign in, let the timer fire. *)
Definition relogin : list Event := [EvLogout; EvMethod Google; EvSubmit; EvTimer 0].

(** Sign in with no credentials: Google needs no input at all. *)
Definition google_login : list Event := [EvMethod Google; EvSubmit; EvTimer 0].

(** Sign in with Google and walk the whole tour. *)
Definition after_tour : list Event := google_login ++ repeat EvNext 5.

(** ** The session contract

    What [App] promises about the user's session: signing in and out,
    choosing a plan while signed in, and counting a photo on the free
    tier while signed in; nothing else changes the tier or the counter. *)
Record Session := { signed_in : bool; plan : SubscriptionTier; photos : nat }.

Inductive session_step : Session -> Session -> Prop :=
| ss_sign_in p n : session_step (Build_Session false p n) (Build_Session true p n)
| ss_sign_out p n : session_step (Build_Session true p n) (Build_Session false p n)
| ss_choose p p' n : session_step (Build_Session true p n) (Build_Session true p' n)
| ss_count n : session_step (Build_Session true FREE n) (Build_Session true FREE (S n)).

(** The session a shell state implements. *)
Definition abs (s : AppState) : Session := Build_Session (logged s) (tier (user s)) (photosUsedToday (user s)).

(** ** Lemmas *)

Lemma STEPS_length_5 : STEPS_length = 5.
Proof. reflexivity. Qed.

Ltac steps_lia := rewrite ?STEPS_length_5 in *; lia.

Lemma remount_timers s s' : timers (remount s s') = timers s'.
Proof. unfold remount, tutorial_effect; repeat case_match; reflexivity. Qed.
Lemma remount_logged s s' : logged (remount s s') = logged s'.
Proof. unfold remount, tutorial_effect; repeat case_match; reflexivity. Qed.
Lemma remount_step s s' : currentStep (remount s s') = currentStep s' \/ currentStep (remount s s') = 0.
Proof. unfold remount, tutorial_effect; repeat case_match; auto. Qed.
Lemma remount_auth s s' : negb (logged s') && logged s = false ->
  auth (remount s s') = auth s' /\ auth_epoch (remount s s') = auth_epoch s'.
Proof. unfold remount, tutorial_effect; intros ->; simpl; repeat case_match; auto. Qed.
Lemma remount_logout s s' : logged s = true -> logged s' = false -> auth (remount s s') = auth_init.
Proof. unfold remount, tutorial_effect; intros -> ->; simpl; repeat case_match; auto. Qed.

Lemma step_run0 e s : e <> EvNext -> currentStep (run0 e s) = currentStep s.
Proof.
  intros Hn; destruct e; cbn [run0]; try congruence;
    unfold handleSubmit, handleSendOTP, handleResetPassword, start_timer, with_auth, handleLogout, handleUpgrade, handleGeneration, handleSkip, completeOnboarding; simpl; try reflexivity.
  - case_match; [|reflexivity]; destruct p as [[] ?]; unfold fire_timer, with_auth, handleLogin; simpl; repeat case_match; reflexivity.
  - case_match; reflexivity.
Qed.

Lemma shell_inv_step e s : shell_inv s -> enabled e s = true -> shell_inv (run e s).
Proof.
  intros Hstep Hen; unfold run, shell_inv in *.
  destruct (remount_step s (run0 e s)) as [-> | ->]; [|steps_lia].
  destruct (decide (e = EvNext)) as [->|Hn]; [|rewrite step_run0; auto].
  simpl; unfold handleNext; case_match; simpl; [apply Nat.ltb_lt in H; steps_lia|auto].
Qed.

Lemma shell_inv_init seen : shell_inv (app_init seen).
Proof. unfold shell_inv; simpl; steps_lia. Qed.

Lemma reachable_shell_inv seen s : reachable seen s -> shell_inv s.
Proof.
  intros H; apply (rtc_ind_r (R := astep) shell_inv (app_init seen)); [apply shell_inv_init| |exact H].
  intros y z _ [e ? Hen] IH; by apply shell_inv_step.
Qed.


Lemma remount_quiet s s' :
  logged s' = logged s -> (shown s' = true -> shown s = true) -> remount s s' = s'.
Proof.
  intros Hl Hs; unfold remount; rewrite Hl, andb_negb_l; simpl.
  case_bool_decide; [congruence|].
  destruct (shown s'), (shown s); simpl; auto; discriminate Hs; reflexivity.
Qed.

Lemma run_next_shown s :
  shown s = true -> currentStep s < STEPS_length - 1 ->
  shown (run EvNext s) = true /\ currentStep (run EvNext s) = S (currentStep s).
Proof.
  intros Hs Hc; unfold run, run0, handleNext.
  apply Nat.ltb_lt in Hc; rewrite Hc, remount_quiet; auto.
Qed.

Lemma run_next_last s :
  shown s = true -> currentStep s = STEPS_length - 1 ->
  shown (run EvNext s) = false /\ tutorial_seen (run EvNext s) = true.
Proof.
  intros Hs Hc; unfold run, run0, handleNext, completeOnboarding.
  rewrite Hc, Nat.ltb_irrefl, remount_quiet; [|reflexivity|intros; exact Hs].
  unfold shown; simpl; rewrite andb_false_r; auto.
Qed.

Lemma trace_ok_cons e es s : trace_ok (e :: es) s = enabled e s && trace_ok es (run e s).
Proof. reflexivity. Qed.

Lemma run_generation t s :
  run (EvGeneration t) s =
    if bool_decide (t = FREE) then s <| user := (user s) <| photosUsedToday := S (photosUsedToday (user s)) |> |>
    else s.
Proof. unfold run, run0, handleGeneration; case_bool_decide; apply remount_quiet; auto. Qed.

Lemma remount_out s s' : logged s = false -> logged s' = false -> remount s s' = s'.
Proof. intros Hl Hl'; apply remount_quiet; [congruence|unfold shown; rewrite Hl'; discriminate]. Qed.

Lemma run_method m s : logged s = false ->
  run (EvMethod m) s = with_auth (fun a => a <| method := m |> <| otpSent := false |>) s.
Proof. intros Hl; apply remount_out; auto. Qed.

Lemma run_submit s : logged s = false -> run EvSubmit s = handleSubmit s.
Proof. intros Hl; apply remount_out; auto. Qed.

Lemma run_fire_login s : timers s = [(TLogin, auth_epoch s)] -> logged (run (EvTimer 0) s) = true.
Proof.
  intros Ht; unfold run; rewrite remount_logged; unfold run0; rewrite Ht; simpl.
  unfold fire_timer; simpl; destruct (_ && _); reflexivity.
Qed.

Lemma run_fire_login_tour s : timers s = [(TLogin, auth_epoch s)] -> logged s = false -> tutorial_seen s = false ->
  shown (run (EvTimer 0) s) = true /\ currentStep (run (EvTimer 0) s) = 0.
Proof.
  intros Ht Hl Hs; unfold run, remount, run0; rewrite Ht; simpl.
  unfold fire_timer; simpl; rewrite Nat.eqb_refl; unfold tutorial_effect, handleLogin, with_auth, shown, logged in *.
  simpl; rewrite Hl; simpl; rewrite Hs; simpl; auto.
Qed.

Lemma google_login_steps s :
  logged s = false -> auth_loading (auth s) = false -> isForgotPassword (auth s) = false -> timers s = [] ->
  trace_ok google_login s = true /\ logged (run_trace google_login s) = true /\
  (tutorial_seen s = false -> shown (run_trace google_login s) = true /\ currentStep (run_trace google_login s) = 0).
Proof.
  intros Hl Hld Hf Ht.
  unfold google_login; rewrite !trace_ok_cons; unfold run_trace; simpl fold_left.
  rewrite run_method, run_submit by auto.
  rewrite run_fire_login by (simpl; rewrite Ht; reflexivity).
  split_and!; [unfold enabled; unfold logged in *; simpl; rewrite Hl, Hf, Ht; auto|auto|].
  intros Hs; apply run_fire_login_tour; simpl; rewrite ?Ht; auto.
Qed.

Lemma run_logout s : logged s = true ->
  logged (run EvLogout s) = false /\ auth (run EvLogout s) = auth_init /\
  timers (run EvLogout s) = timers s /\ tutorial_seen (run EvLogout s) = false.
Proof.
  intros Hl; unfold run, remount, run0, handleLogout, tutorial_effect, shown, logged in *; simpl.
  rewrite Hl; simpl; auto.
Qed.

Lemma run_trace_cons e es s : run_trace (e :: es) s = run_trace es (run e s).
Proof. reflexivity. Qed.

Lemma relogin_google : relogin = EvLogout :: google_login.
Proof. reflexivity. Qed.

Lemma trace_ok_rtc es s : trace_ok es s = true -> rtc astep s (run_trace es s).
Proof.
  revert s; induction es as [|e es IH]; intros s H; [apply rtc_refl|].
  rewrite trace_ok_cons in H; apply andb_prop in H as [H1 H2].
  rewrite run_trace_cons; eapply rtc_l; [constructor; exact H1|auto].
Qed.

Lemma trace_reachable seen es : trace_ok es (app_init seen) = true -> reachable seen (run_trace es (app_init seen)).
Proof. apply trace_ok_rtc. Qed.

Ltac session_tac :=
  first [left; reflexivity | right; first [apply ss_sign_in | apply ss_sign_out | apply ss_choose | apply ss_count]].

Lemma remount_user s s' : user (remount s s') = user s'.
Proof. unfold remount, tutorial_effect; repeat case_match; reflexivity. Qed.

Lemma abs_run e s : abs (run e s) = Build_Session (isLoggedIn (user (run0 e s))) (tier (user (run0 e s))) (photosUsedToday (user (run0 e s))).
Proof. unfold abs, run, logged; rewrite remount_user; reflexivity. Qed.

(** Every event but the studio's callback is a stutter or one step of
    the session contract. *)
Lemma step_refines e s :
  enabled e s = true -> (forall t, e <> EvGeneration t) ->
  abs (run e s) = abs s \/ session_step (abs s) (abs (run e s)).
Proof.
  intros Hen Hg; rewrite abs_run; unfold abs, logged.
  destruct s as [tab q show [ti ph li] seen step a ep tms al]; simpl.
  destruct e; unfold enabled, logged in Hen; simpl in *; auto.
  all: try (destruct (tms !! i) as [p|]; [|auto];
    destruct p as [[] ?]; unfold fire_timer, handleLogin, with_auth; simpl; repeat case_match; simpl; auto;
      destruct li; session_tac).
  all: try (exfalso; by apply (Hg t)).
  all: destruct li; simpl in Hen; try discriminate; unfold handleNext; simpl.
  all: repeat case_match; subst; simpl; session_tac.
Qed.

Lemma remount_tab s s' : activeTab (remount s s') = activeTab s'.
Proof. unfold remount, tutorial_effect; repeat case_match; reflexivity. Qed.

Lemma tab_step e s : activeTab s ∈ nav_ids -> enabled e s = true -> activeTab (run e s) ∈ nav_ids.
Proof.
  intros Ht Hen; unfold run; rewrite remount_tab.
  destruct e; unfold enabled in Hen; simpl; auto.
  - case_match; [|auto]. destruct p as [[] ?]; unfold fire_timer, handleLogin, with_auth; simpl; repeat case_match; auto.
  - apply andb_prop in Hen as [_ Hen]; apply orb_prop in Hen as [Hen|Hen].
    + by apply bool_decide_eq_true in Hen.
    + apply andb_prop in Hen as [_ Hen]; apply bool_decide_eq_true in Hen; revert Hen; unfold nav_ids; simpl; set_solver.
  - unfold nav_ids; set_solver.
  - unfold handleGeneration; case_match; auto.
  - unfold handleNext, completeOnboarding; case_match; auto.
Qed.

(** ** Properties *)

(** C28: a sign-in timer outlives the sign-out: the loading overlay
    does not stop Enter, so a second submit sets a second 1500 ms timer;
    the first signs in, the user signs out, and the fresh sign-in page
    (no overlay, nothing pending on screen) is then signed in again by
    the second timer's [onLogin], without any input. *)
Theorem stale_login_after_logout :
  exists s, reachable true s /\ logged s = false /\ auth s = auth_init /\ timers s <> [] /\
    enabled (EvTimer 0) s = true /\ logged (run (EvTimer 0) s) = true.
Proof.
  exists (run_trace double_submit (app_init true)).
  split_and!; [apply trace_reachable; vm_compute; reflexivity|vm_compute; reflexivity..|vm_compute; discriminate|
               vm_compute; reflexivity|vm_compute; reflexivity].
Qed.

(** [STEPS[currentStep]] is always defined: in every reachable state
    the tour's step indexes the list of steps. *)
Theorem tour_step_defined seen s : reachable seen s -> is_Some (STEPS !! currentStep s).
Proof.
  intros Hr; apply lookup_lt_is_Some_2; exact (reachable_shell_inv _ _ Hr).
Qed.

(** C33: the tour always ends: from a shown tour at step [k], the
    [STEPS.length - k] clicks on Next are all available and close it,
    recording the tutorial as seen. *)
Theorem tour_completes s :
  shown s = true -> currentStep s < STEPS_length ->
  let es := repeat EvNext (STEPS_length - currentStep s) in
  trace_ok es s = true /\ shown (run_trace es s) = false /\ tutorial_seen (run_trace es s) = true.
Proof.
  remember (STEPS_length - currentStep s) as n eqn:En.
  revert s En; induction n as [|n IH]; intros s En Hs Hc; [steps_lia|].
  cbn [repeat]; rewrite trace_ok_cons; simpl (run_trace _ _).
  change (enabled EvNext s) with (shown s); rewrite Hs; simpl.
  destruct (decide (currentStep s = STEPS_length - 1)) as [Hl|Hl].
  - assert (n = 0) as -> by (steps_lia).
    destruct (run_next_last s) as [H1 H2]; auto.
  - destruct (run_next_shown s) as [H1 H2]; [auto|steps_lia|].
    apply IH; rewrite ?H2; auto; steps_lia.
Qed.


(** choosing a plan sets the tier at once, switches to the chat tab
    and appends the confirmation alert, without any payment step. *)
Theorem upgrade_contract t s :
  enabled (EvUpgrade t) s = true ->
  let s' := run (EvUpgrade t) s in
  tier (user s') = t /\ activeTab s' = "chat" /\ alerts s' = alerts s ++ [upgrade_alert t] /\
  photosUsedToday (user s') = photosUsedToday (user s) /\ logged s' = true.
Proof.
  intros Hen; unfold run, run0, handleUpgrade; rewrite remount_quiet by auto.
  simpl; split_and!; auto.
  unfold enabled in Hen; apply andb_prop in Hen as [Hen _]; do 2 apply andb_prop in Hen as [Hen _]; exact Hen.
Qed.

(** Signing out forgets the tour: from any reachable signed-in state
    without the tour, signing out and back in shows the tour again from
    its first step, even when it had been completed. *)
Theorem relogin_replays_tour seen s :
  reachable seen s -> logged s = true -> shown s = false -> timers s = [] ->
  trace_ok relogin s = true /\ shown (run_trace relogin s) = true /\ currentStep (run_trace relogin s) = 0.
Proof.
  intros Hr Hl Hs Ht.
  destruct (run_logout s Hl) as [H1 [H2 [H3 H4]]].
  destruct (google_login_steps (run EvLogout s)) as [G1 [_ G3]]; rewrite ?H2; auto; [congruence|].
  rewrite relogin_google, trace_ok_cons, run_trace_cons, G1.
  unfold enabled; rewrite Hl, Hs; auto.
Qed.

(** Sign-in checks no credential: from any reachable signed-out
    state with the sign-in card idle and no timer pending, choosing
    Google and submitting signs in once the 1500 ms timer fires. *)
Theorem google_login_no_credentials seen s :
  reachable seen s -> logged s = false -> auth_loading (auth s) = false -> isForgotPassword (auth s) = false ->
  timers s = [] ->
  trace_ok google_login s = true /\ logged (run_trace google_login s) = true.
Proof.
  intros Hr Hl Hld Hf Ht.
  destruct (google_login_steps s) as [? [? _]]; auto.
Qed.

(** C25: refinement, step by step: every enabled event of the shell
    other than the studio's callback leaves the session (signed in,
    tier, photos used) alone or is one step of the session contract;
    the callback [onGeneration], which can come in any state, counts a
    photo exactly when the tier of the render that created it is FREE,
    whatever the current tier and whether the user is still signed in. *)
Theorem shell_refines_session e s :
  enabled e s = true ->
  match e with
  | EvGeneration t =>
      abs (run e s) = Build_Session (logged s) (tier (user s))
                        (if bool_decide (t = FREE) then S (photosUsedToday (user s)) else photosUsedToday (user s))
  | _ => abs (run e s) = abs s \/ session_step (abs s) (abs (run e s))
  end.
Proof.
  intros Hen. destruct e as [| | | | | | | | | | | | |t| |];
    try (apply step_refines; [exact Hen|intros ? ?; discriminate]).
  rewrite run_generation. unfold abs. by case_bool_decide.
Qed.

(** [activeTab] is always one of the five views [App] renders
    (dashboard, chat, studio, voice, pricing): the main area is never
    empty. *)
Theorem active_tab_valid seen s : reachable seen s -> activeTab s ∈ nav_ids.
Proof.
  intros H; apply (rtc_ind_r (R := astep) (fun s => activeTab s ∈ nav_ids) (app_init seen)); [|  |exact H].
  - unfold nav_ids; simpl; set_solver.
  - intros y z _ [e ? Hen] IH; by apply tab_step.
Qed.

(** ** Witnesses *)

Lemma tour_step_defined_witness :
  reachable false (run_trace google_login (app_init false)) /\ is_Some (STEPS !! currentStep (run_trace google_login (app_init false))).
Proof.
  assert (Hr : reachable false (run_trace google_login (app_init false))) by (apply trace_reachable; vm_compute; reflexivity).
  split; [exact Hr|exact (tour_step_defined false _ Hr)].
Defined.

Lemma tour_completes_witness :
  let s := run_trace google_login (app_init false) in
  shown s = true /\ currentStep s < STEPS_length /\
  (trace_ok (repeat EvNext 5) s = true /\ shown (run_trace (repeat EvNext 5) s) = false /\
   tutorial_seen (run_trace (repeat EvNext 5) s) = true).
Proof.
  intros s; assert (Hs : shown s = true) by (vm_compute; reflexivity).
  assert (Hc : currentStep s = 0) by (vm_compute; reflexivity).
  split_and!; [exact Hs|rewrite Hc; steps_lia|..];
    pose proof (tour_completes s Hs ltac:(rewrite Hc; steps_lia)) as H; rewrite Hc in H; apply H.
Defined.


Lemma upgrade_contract_witness :
  let s := run_trace (google_login ++ [EvSkip; EvTab "pricing"]) (app_init false) in
  enabled (EvUpgrade POPULAR) s = true /\ tier (user (run (EvUpgrade POPULAR) s)) = POPULAR /\
  activeTab (run (EvUpgrade POPULAR) s) = "chat".
Proof.
  intros s; assert (He : enabled (EvUpgrade POPULAR) s = true) by (vm_compute; reflexivity).
  destruct (upgrade_contract POPULAR s He) as [H1 [H2 _]]; auto.
Defined.

Lemma relogin_replays_tour_witness :
  let s := run_trace after_tour (app_init false) in
  reachable false s /\ logged s = true /\ shown s = false /\ tutorial_seen s = true /\
  trace_ok relogin s = true /\ shown (run_trace relogin s) = true.
Proof.
  intros s; assert (Hr : reachable false s) by (apply trace_reachable; vm_compute; reflexivity).
  assert (Hl : logged s = true) by (vm_compute; reflexivity).
  assert (Hs : shown s = false) by (vm_compute; reflexivity).
  assert (Ht : timers s = []) by (vm_compute; reflexivity).
  destruct (relogin_replays_tour false s Hr Hl Hs Ht) as [H1 [H2 _]].
  split_and!; auto; vm_compute; reflexivity.
Defined.

Lemma google_login_no_credentials_witness :
  reachable true (app_init true) /\ trace_ok google_login (app_init true) = true /\
  logged (run_trace google_login (app_init true)) = true.
Proof.
  assert (Hr : reachable true (app_init true)) by apply rtc_refl.
  destruct (google_login_no_credentials true (app_init true) Hr) as [H1 H2]; auto.
Defined.

(** A free-tier render's callback counts a photo after the upgrade to
    the Base plan. *)
Lemma shell_refines_session_witness :
  let s := run_trace (google_login ++ [EvSkip; EvTab "pricing"; EvUpgrade BASE]) (app_init false) in
  enabled (EvGeneration FREE) s = true /\ tier (user s) = BASE /\
  photosUsedToday (user (run (EvGeneration FREE) s)) = 1.
Proof.
  intros s. assert (He : enabled (EvGeneration FREE) s = true) by reflexivity.
  pose proof (shell_refines_session (EvGeneration FREE) s He) as H. cbn beta iota in H.
  split_and!; [exact He|vm_compute; reflexivity|].
  change (photosUsedToday (user (run (EvGeneration FREE) s))) with (photos (abs (run (EvGeneration FREE) s))).
  rewrite H. vm_compute. reflexivity.
Defined.

Lemma active_tab_valid_witness :
  reachable false (run_trace (google_login ++ [EvSkip; EvTab "pricing"; EvUpgrade BASE]) (app_init false)) /\
  activeTab (run_trace (google_login ++ [EvSkip; EvTab "pricing"; EvUpgrade BASE]) (app_init false)) ∈ nav_ids.
Proof.
  assert (Hr : reachable false (run_trace (google_login ++ [EvSkip; EvTab "pricing"; EvUpgrade BASE]) (app_init false)))
    by (apply trace_reachable; vm_compute; reflexivity).
  split; [exact Hr|exact (active_tab_valid false _ Hr)].
Defined.

End Shell.
