(* ===== verification/Tour.v ===== *)
(** * Placing the onboarding tooltip (src/Onboarding.tsx, lines 52-81)

    On mount and on every change of [currentStep], [Onboarding]'s effect
    looks up the element the step points at,
    [document.getElementById(step.targetId) ||
     document.querySelector(`[data-tour="${step.targetId.split('-')[1]}"]`)],
    and, when it finds one, highlights it and sets the tooltip's style
    from its bounding box: right of it for [position = 'right'], below it
    for ['bottom'].  When it finds none, the style is left as it was: [{}]
    on mount, so the tooltip is not positioned at all.

    The page is what the logged-in [App] renders: the sidebar's nav
    buttons ([id = nav-X], [data-tour = X], src/Sidebar.tsx lines 47-50)
    and, on the dashboard tab only, the hero section
    ([id = dashboard-hero], src/DashboardView.tsx line 24).  The tour's
    backdrop blocks every click on the page, so the page does not change
    while the tour shows.  Geometry is the browser's: a [Layout] gives the
    bounding box of each element, and the theorems hold for every
    layout.  Pixel strings ([`${x}px`]) are kept as the numbers [Q]. *)

From S2P Require Import Prelude JsString Studio Shell.
From Stdlib Require Import Ascii QArith.

Module Tour.
Import JsString Shell.

(** ** The page *)

(** [getBoundingClientRect()]. *)
Record Rect := { r_left : Q; r_top : Q; r_right : Q; r_bottom : Q; r_width : Q; r_height : Q }.

(** An element the effect can find: its [id], its [data-tour], its box. *)
Record Element := { el_id : string; el_tour : option string; el_rect : Rect }.

Definition Layout := string -> Rect.

Definition nav_element (lay : Layout) (id : string) : Element :=
  {| el_id := "nav-" +:+ id; el_tour := Some id; el_rect := lay ("nav-" +:+ id) |}.

(** The elements with an id or a [data-tour] the logged-in page renders,
    in document order (the sidebar comes before the main area). *)
Definition page (lay : Layout) (s : AppState) : list Element :=
  map (nav_element lay) nav_ids ++
  (if bool_decide (activeTab s = "dashboard")
   then [{| el_id := "dashboard-hero"; el_tour := None; el_rect := lay "dashboard-hero" |}]
   else []).

Definition getElementById (els : list Element) (id : string) : option Element :=
  find (fun e => bool_decide (el_id e = id)) els.

Definition querySelector_tour (els : list Element) (v : string) : option Element :=
  find (fun e => bool_decide (el_tour e = Some v)) els.

(** [step.targetId.split('-')[1]] inside the selector: an index past the
    end reads [undefined], which the template literal prints. *)
Definition tour_selector (t : string) : string :=
  show_opt (nth_error (split_on "-"%char t) 1).

(** [getElementById(...) || querySelector(...)]. *)
Definition tour_target (els : list Element) (st : OnboardingStep) : option Element :=
  match getElementById els (targetId st) with
  | Some e => Some e
  | None => querySelector_tour els (tour_selector (targetId st))
  end.

(** ** The tooltip's style *)

(** The object the effect builds, [position: fixed] with the coordinates
    it sets; [None] in [option Style] is the initial [{}]. *)
Record Style := { st_left : option Q; st_top : option Q; st_transform : option string }.

Definition padding : Q := 20.

Definition style_for (pos : string) (r : Rect) : Style :=
  if bool_decide (pos = "right") then
    {| st_left := Some (r_right r + padding); st_top := Some (r_top r + r_height r / 2);
       st_transform := Some "translateY(-50%)" |}
  else if bool_decide (pos = "bottom") then
    {| st_left := Some (r_left r + r_width r / 2); st_top := Some (r_bottom r + padding);
       st_transform := Some "translateX(-50%)" |}
  else {| st_left := None; st_top := None; st_transform := None |}.

(** One run of the effect at step [k]; [STEPS[k].targetId] on a missing
    step throws a [TypeError]. *)
Definition tour_effect (els : list Element) (k : nat) (prev : option Style) : outcome (option Style) :=
  match STEPS !! k with
  | None => Throw "Cannot read properties of undefined (reading 'targetId')"
  | Some st =>
      Ok (match tour_target els st with
          | Some e => Some (style_for (position st) (el_rect e))
          | None => prev
          end)
  end.

(** The tooltip's style at step [k]: the effect ran on mount (step 0,
    from [{}]) and after each Next. *)
Fixpoint tour_style (els : list Element) (k : nat) : outcome (option Style) :=
  match k with
  | O => tour_effect els 0 None
  | S k' => tour_style els k' ≫= tour_effect els k
  end.

(** The sidebar's part of the page. *)
Definition nav_part (lay : Layout) : list Element := map (nav_element lay) nav_ids.

(** Sign in with Google, skip the tour, open the pricing page, sign out
    and back in. *)
Definition relogin_on_pricing : list Event :=
  google_login ++ [EvSkip; EvTab "pricing"] ++ relogin.

(** ** Lemmas *)


Lemma page_other lay s : activeTab s <> "dashboard" -> page lay s = nav_part lay.
Proof. intros H; unfold page; rewrite bool_decide_eq_false_2 by exact H; apply app_nil_r. Qed.



Lemma tour_style_first_other lay : tour_style (nav_part lay) 0 = Ok None.
Proof. reflexivity. Qed.

Lemma tour_effect_ok els k prev : (k < STEPS_length)%nat -> exists r, tour_effect els k prev = Ok r.
Proof.
  intros Hk; destruct (lookup_lt_is_Some_2 STEPS k Hk) as [st Hst].
  unfold tour_effect; rewrite Hst; eauto.
Qed.

Lemma tour_style_ok els k : (k < STEPS_length)%nat -> exists r, tour_style els k = Ok r.
Proof.
  induction k as [|k IH]; intros Hk; [apply tour_effect_ok; exact Hk|].
  destruct IH as [r Hr]; [lia|]; simpl; rewrite Hr; apply tour_effect_ok; exact Hk.
Qed.



(** ** Properties *)


(** C34: the first step can lose its target: signing out from the pricing
    page and back in reopens the tour on the pricing page, where no
    element is [dashboard-hero] and none has [data-tour="hero"], so for
    every layout the first tooltip keeps the empty style and is not
    placed next to anything. *)
Theorem tour_unanchored_after_relogin :
  exists s, reachable false s /\ shown s = true /\ currentStep s = 0%nat /\ activeTab s = "pricing" /\
    forall lay, tour_style (page lay s) (currentStep s) = Ok None.
Proof.
  exists (run_trace relogin_on_pricing (app_init false)).
  assert (Hc : currentStep (run_trace relogin_on_pricing (app_init false)) = 0%nat) by (vm_compute; reflexivity).
  assert (Ht : activeTab (run_trace relogin_on_pricing (app_init false)) = "pricing") by (vm_compute; reflexivity).
  split_and!; [apply trace_reachable; vm_compute; reflexivity|vm_compute; reflexivity|exact Hc|exact Ht|].
  intros lay; rewrite Hc, page_other by (rewrite Ht; discriminate); apply tour_style_first_other.
Qed.

(** In every reachable state the tour's effect never throws: the
    step always indexes [STEPS], whatever the page holds. *)
Theorem tour_never_throws seen s lay :
  reachable seen s -> exists r, tour_style (page lay s) (currentStep s) = Ok r.
Proof. intros Hr; apply tour_style_ok, (reachable_shell_inv seen s Hr). Qed.

(** ** Witnesses *)


Lemma tour_never_throws_witness :
  reachable false (run_trace relogin_on_pricing (app_init false)) /\
  tour_style (page (fun _ => {| r_left := 0; r_top := 0; r_right := 1; r_bottom := 1; r_width := 1; r_height := 1 |})
                (run_trace relogin_on_pricing (app_init false)))
             (currentStep (run_trace relogin_on_pricing (app_init false))) = Ok None.
Proof.
  assert (Hr : reachable false (run_trace relogin_on_pricing (app_init false))) by (apply trace_reachable; vm_compute; reflexivity).
  destruct (tour_never_throws false _ (fun _ => {| r_left := 0; r_top := 0; r_right := 1; r_bottom := 1; r_width := 1; r_height := 1 |}) Hr) as [r Hs].
  split; [exact Hr|]. rewrite Hs. f_equal. revert Hs. vm_compute. congruence.
Defined.

End Tour.
