(* ===== verification/Voice.v ===== *)
(** * The live voice session (src/VoiceView.tsx, [VoiceView])

    The component keeps React refs that every session's callbacks share:
    [audioContextRef], [outputAudioContextRef], [sessionRef], the playback
    cursor [nextStartTimeRef] and the set of playing sources [sourcesRef];
    and React state [isListening] and [transcript].  [startSession] opens
    two AudioContexts and a live session whose callbacks ([onopen],
    [onmessage], [onclose]) close over that session's own contexts;
    [stopSession] closes what the refs point to.

    The model keeps the refs, the store of AudioContexts and sessions
    (which are open, which context a session's callbacks use), and three
    logs of what the code does to the outside: every [source.start(when)],
    every [source.stop()], every [sendRealtimeInput].  Each callback is a
    function on that state; [vstep] lets any enabled callback run, which
    is how the browser interleaves them (a callback runs to completion:
    the [await] in [onmessage] waits on [decodeAudioData], which resolves
    within the same task).  Times are rationals in seconds; [now] is the
    [currentTime] of the output context the callback closes over. *)

From S2P Require Import Prelude Pcm Base64.
From Stdlib Require Import Ascii QArith Qminmax Lqa.

Module Voice.

(** ** Server messages, as [onmessage] reads them *)

Record Transcription := { tr_text : option string }.
(** [part.inlineData?.data]. *)
Record Part := { part_data : option (list ascii) }.
(** [modelTurn.parts] is optional in the SDK's types. *)
Record Content := { parts : option (list Part) }.
Record ServerContent := {
  inputTranscription : option Transcription;
  outputTranscription : option Transcription;
  modelTurn : option Content;
  interrupted : option bool
}.
Record LiveServerMessage := { serverContent : option ServerContent }.

(** ** State *)

Record SessionInfo := { in_ctx : nat; out_ctx : nat; opened : bool }.

(** One [source.start(when)] of a buffer of the given duration. *)
Record Playback := { pb_node : nat; pb_start : Q; pb_duration : Q }.

Record VoiceState := {
  isListening : bool;
  transcript : list string;
  nextStartTime : Q;
  sources : gset nat;
  audioContextRef : option nat;
  outputAudioContextRef : option nat;
  sessionRef : option nat;
  sessions : gmap nat SessionInfo;
  open_contexts : gset nat;
  open_sessions : gset nat;
  closing_sessions : gset nat;
  started : list Playback;
  stopped : gset nat;
  sent : list (nat * list ascii);
  fresh : nat
}.

Declare Scope voice_scope.

(** Field updates, written [s <| f := v |>]. *)
Definition set_isListening (x : bool) (s : VoiceState) : VoiceState :=
  {| isListening := x; transcript := transcript s; nextStartTime := nextStartTime s; sources := sources s; audioContextRef := audioContextRef s; outputAudioContextRef := outputAudioContextRef s; sessionRef := sessionRef s; sessions := sessions s; open_contexts := open_contexts s; open_sessions := open_sessions s; closing_sessions := closing_sessions s; started := started s; stopped := stopped s; sent := sent s; fresh := fresh s |}.
Definition set_transcript (x : list string) (s : VoiceState) : VoiceState :=
  {| isListening := isListening s; transcript := x; nextStartTime := nextStartTime s; sources := sources s; audioContextRef := audioContextRef s; outputAudioContextRef := outputAudioContextRef s; sessionRef := sessionRef s; sessions := sessions s; open_contexts := open_contexts s; open_sessions := open_sessions s; closing_sessions := closing_sessions s; started := started s; stopped := stopped s; sent := sent s; fresh := fresh s |}.
Definition set_nextStartTime (x : Q) (s : VoiceState) : VoiceState :=
  {| isListening := isListening s; transcript := transcript s; nextStartTime := x; sources := sources s; audioContextRef := audioContextRef s; outputAudioContextRef := outputAudioContextRef s; sessionRef := sessionRef s; sessions := sessions s; open_contexts := open_contexts s; open_sessions := open_sessions s; closing_sessions := closing_sessions s; started := started s; stopped := stopped s; sent := sent s; fresh := fresh s |}.
Definition set_sources (x : gset nat) (s : VoiceState) : VoiceState :=
  {| isListening := isListening s; transcript := transcript s; nextStartTime := nextStartTime s; sources := x; audioContextRef := audioContextRef s; outputAudioContextRef := outputAudioContextRef s; sessionRef := sessionRef s; sessions := sessions s; open_contexts := open_contexts s; open_sessions := open_sessions s; closing_sessions := closing_sessions s; started := started s; stopped := stopped s; sent := sent s; fresh := fresh s |}.
Definition set_audioContextRef (x : option nat) (s : VoiceState) : VoiceState :=
  {| isListening := isListening s; transcript := transcript s; nextStartTime := nextStartTime s; sources := sources s; audioContextRef := x; outputAudioContextRef := outputAudioContextRef s; sessionRef := sessionRef s; sessions := sessions s; open_contexts := open_contexts s; open_sessions := open_sessions s; closing_sessions := closing_sessions s; started := started s; stopped := stopped s; sent := sent s; fresh := fresh s |}.
Definition set_outputAudioContextRef (x : option nat) (s : VoiceState) : VoiceState :=
  {| isListening := isListening s; transcript := transcript s; nextStartTime := nextStartTime s; sources := sources s; audioContextRef := audioContextRef s; outputAudioContextRef := x; sessionRef := sessionRef s; sessions := sessions s; open_contexts := open_contexts s; open_sessions := open_sessions s; closing_sessions := closing_sessions s; started := started s; stopped := stopped s; sent := sent s; fresh := fresh s |}.
Definition set_sessionRef (x : option nat) (s : VoiceState) : VoiceState :=
  {| isListening := isListening s; transcript := transcript s; nextStartTime := nextStartTime s; sources := sources s; audioContextRef := audioContextRef s; outputAudioContextRef := outputAudioContextRef s; sessionRef := x; sessions := sessions s; open_contexts := open_contexts s; open_sessions := open_sessions s; closing_sessions := closing_sessions s; started := started s; stopped := stopped s; sent := sent s; fresh := fresh s |}.
Definition set_sessions (x : gmap nat SessionInfo) (s : VoiceState) : VoiceState :=
  {| isListening := isListening s; transcript := transcript s; nextStartTime := nextStartTime s; sources := sources s; audioContextRef := audioContextRef s; outputAudioContextRef := outputAudioContextRef s; sessionRef := sessionRef s; sessions := x; open_contexts := open_contexts s; open_sessions := open_sessions s; closing_sessions := closing_sessions s; started := started s; stopped := stopped s; sent := sent s; fresh := fresh s |}.
Definition set_open_contexts (x : gset nat) (s : VoiceState) : VoiceState :=
  {| isListening := isListening s; transcript := transcript s; nextStartTime := nextStartTime s; sources := sources s; audioContextRef := audioContextRef s; outputAudioContextRef := outputAudioContextRef s; sessionRef := sessionRef s; sessions := sessions s; open_contexts := x; open_sessions := open_sessions s; closing_sessions := closing_sessions s; started := started s; stopped := stopped s; sent := sent s; fresh := fresh s |}.
Definition set_open_sessions (x : gset nat) (s : VoiceState) : VoiceState :=
  {| isListening := isListening s; transcript := transcript s; nextStartTime := nextStartTime s; sources := sources s; audioContextRef := audioContextRef s; outputAudioContextRef := outputAudioContextRef s; sessionRef := sessionRef s; sessions := sessions s; open_contexts := open_contexts s; open_sessions := x; closing_sessions := closing_sessions s; started := started s; stopped := stopped s; sent := sent s; fresh := fresh s |}.
Definition set_closing_sessions (x : gset nat) (s : VoiceState) : VoiceState :=
  {| isListening := isListening s; transcript := transcript s; nextStartTime := nextStartTime s; sources := sources s; audioContextRef := audioContextRef s; outputAudioContextRef := outputAudioContextRef s; sessionRef := sessionRef s; sessions := sessions s; open_contexts := open_contexts s; open_sessions := open_sessions s; closing_sessions := x; started := started s; stopped := stopped s; sent := sent s; fresh := fresh s |}.
Definition set_started (x : list Playback) (s : VoiceState) : VoiceState :=
  {| isListening := isListening s; transcript := transcript s; nextStartTime := nextStartTime s; sources := sources s; audioContextRef := audioContextRef s; outputAudioContextRef := outputAudioContextRef s; sessionRef := sessionRef s; sessions := sessions s; open_contexts := open_contexts s; open_sessions := open_sessions s; closing_sessions := closing_sessions s; started := x; stopped := stopped s; sent := sent s; fresh := fresh s |}.
Definition set_stopped (x : gset nat) (s : VoiceState) : VoiceState :=
  {| isListening := isListening s; transcript := transcript s; nextStartTime := nextStartTime s; sources := sources s; audioContextRef := audioContextRef s; outputAudioContextRef := outputAudioContextRef s; sessionRef := sessionRef s; sessions := sessions s; open_contexts := open_contexts s; open_sessions := open_sessions s; closing_sessions := closing_sessions s; started := started s; stopped := x; sent := sent s; fresh := fresh s |}.
Definition set_sent (x : list (nat * list ascii)) (s : VoiceState) : VoiceState :=
  {| isListening := isListening s; transcript := transcript s; nextStartTime := nextStartTime s; sources := sources s; audioContextRef := audioContextRef s; outputAudioContextRef := outputAudioContextRef s; sessionRef := sessionRef s; sessions := sessions s; open_contexts := open_contexts s; open_sessions := open_sessions s; closing_sessions := closing_sessions s; started := started s; stopped := stopped s; sent := x; fresh := fresh s |}.
Definition set_fresh (x : nat) (s : VoiceState) : VoiceState :=
  {| isListening := isListening s; transcript := transcript s; nextStartTime := nextStartTime s; sources := sources s; audioContextRef := audioContextRef s; outputAudioContextRef := outputAudioContextRef s; sessionRef := sessionRef s; sessions := sessions s; open_contexts := open_contexts s; open_sessions := open_sessions s; closing_sessions := closing_sessions s; started := started s; stopped := stopped s; sent := sent s; fresh := x |}.

Notation "s <| 'isListening' := x |>" := (set_isListening x s)
  (at level 1, left associativity, x at level 99) : voice_scope.
Notation "s <| 'transcript' := x |>" := (set_transcript x s)
  (at level 1, left associativity, x at level 99) : voice_scope.
Notation "s <| 'nextStartTime' := x |>" := (set_nextStartTime x s)
  (at level 1, left associativity, x at level 99) : voice_scope.
Notation "s <| 'sources' := x |>" := (set_sources x s)
  (at level 1, left associativity, x at level 99) : voice_scope.
Notation "s <| 'audioContextRef' := x |>" := (set_audioContextRef x s)
  (at level 1, left associativity, x at level 99) : voice_scope.
Notation "s <| 'outputAudioContextRef' := x |>" := (set_outputAudioContextRef x s)
  (at level 1, left associativity, x at level 99) : voice_scope.
Notation "s <| 'sessionRef' := x |>" := (set_sessionRef x s)
  (at level 1, left associativity, x at level 99) : voice_scope.
Notation "s <| 'sessions' := x |>" := (set_sessions x s)
  (at level 1, left associativity, x at level 99) : voice_scope.
Notation "s <| 'open_contexts' := x |>" := (set_open_contexts x s)
  (at level 1, left associativity, x at level 99) : voice_scope.
Notation "s <| 'open_sessions' := x |>" := (set_open_sessions x s)
  (at level 1, left associativity, x at level 99) : voice_scope.
Notation "s <| 'closing_sessions' := x |>" := (set_closing_sessions x s)
  (at level 1, left associativity, x at level 99) : voice_scope.
Notation "s <| 'started' := x |>" := (set_started x s)
  (at level 1, left associativity, x at level 99) : voice_scope.
Notation "s <| 'stopped' := x |>" := (set_stopped x s)
  (at level 1, left associativity, x at level 99) : voice_scope.
Notation "s <| 'sent' := x |>" := (set_sent x s)
  (at level 1, left associativity, x at level 99) : voice_scope.
Notation "s <| 'fresh' := x |>" := (set_fresh x s)
  (at level 1, left associativity, x at level 99) : voice_scope.
#[local] Open Scope voice_scope.

Definition init : VoiceState := {|
  isListening := false; transcript := []; nextStartTime := 0;
  sources := ∅; audioContextRef := None; outputAudioContextRef := None;
  sessionRef := None; sessions := ∅; open_contexts := ∅; open_sessions := ∅;
  closing_sessions := ∅; started := []; stopped := ∅; sent := []; fresh := 0 |}.

(** ** [startSession] *)

(** [new AudioContext] twice, the refs set, then [getUserMedia] (which may
    be refused) and [ai.live.connect] (which may fail); a failure ends in
    the [catch] with an alert and leaves the contexts open. *)
Definition startSession (mic_ok connect_ok : bool) (s : VoiceState) : VoiceState :=
  let i := fresh s in let o := S (fresh s) in let k := S (S (fresh s)) in
  let s1 := s <| fresh := S k |> <| open_contexts := {[i; o]} ∪ open_contexts s |>
              <| audioContextRef := Some i |> <| outputAudioContextRef := Some o |> in
  if mic_ok && connect_ok then
    s1 <| sessions := <[k := {| in_ctx := i; out_ctx := o; opened := false |}]> (sessions s1) |>
       <| open_sessions := {[k]} ∪ open_sessions s1 |> <| sessionRef := Some k |>
  else s1.

(** [onopen]: [setIsListening(true)] and the script processor starts. *)
Definition onopen (k : nat) (s : VoiceState) : VoiceState :=
  s <| isListening := true |>
    <| sessions := alter (fun si => {| in_ctx := in_ctx si; out_ctx := out_ctx si; opened := true |}) k (sessions s) |>.

(** [onaudioprocess]: the 16-bit PCM of the frame, base64-encoded, is sent
    to the session the processor was created for. *)
Definition pcm_frame (input : list Q) : list ascii :=
  Base64.encode (Pcm.uint8_view (Pcm.float_to_int16 input)).

Definition onaudioprocess (k : nat) (input : list Q) (s : VoiceState) : VoiceState :=
  s <| sent := sent s ++ [(k, pcm_frame input)] |>.

(** ** [onmessage] *)

Definition show_text (t : Transcription) : string :=
  match tr_text t with Some x => x | None => "undefined" end.

Definition add_transcripts (m : LiveServerMessage) (s : VoiceState) : VoiceState :=
  match serverContent m with
  | None => s
  | Some sc =>
      let l1 := match inputTranscription sc with
                | Some t => [("User: " +:+ show_text t)%string] | None => [] end in
      let l2 := match outputTranscription sc with
                | Some t => [("Giga: " +:+ show_text t)%string] | None => [] end in
      s <| transcript := transcript s ++ l1 ++ l2 |>
  end.

(** [message.serverContent?.modelTurn?.parts[0]?.inlineData?.data]: a
    [modelTurn] without [parts] makes [parts[0]] a [TypeError]. *)
Definition audio_of (m : LiveServerMessage) : outcome (option (list ascii)) :=
  match serverContent m with
  | None => Ok None
  | Some sc =>
      match modelTurn sc with
      | None => Ok None
      | Some c =>
          match parts c with
          | None => Throw "TypeError: Cannot read properties of undefined (reading '0')"
          | Some [] => Ok None
          | Some (p :: _) => Ok (part_data p)
          end
      end
  end.

Definition is_interrupted (m : LiveServerMessage) : bool :=
  match serverContent m with
  | Some sc => match interrupted sc with Some true => true | _ => false end
  | None => false
  end.

(** [nextStartTime = max(nextStartTime, currentTime)], [source.start],
    [nextStartTime += buffer.duration], [sourcesRef.add(source)]. *)
Definition schedule (now : Q) (buf : Pcm.AudioBuffer) (s : VoiceState) : VoiceState :=
  let n := fresh s in
  let t := Qmax (nextStartTime s) now in
  s <| fresh := S n |>
    <| started := started s ++ [{| pb_node := n; pb_start := t;
                                    pb_duration := Pcm.duration buf |}] |>
    <| nextStartTime := t + Pcm.duration buf |>
    <| sources := {[n]} ∪ sources s |>.

(** The [interrupted] branch: stop and forget every source, reset the
    cursor. *)
Definition interrupt (s : VoiceState) : VoiceState :=
  s <| stopped := sources s ∪ stopped s |> <| sources := ∅ |> <| nextStartTime := 0 |>.

Definition onmessage (now : Q) (m : LiveServerMessage) : js VoiceState unit :=
  _ ← js_modify (add_transcripts m);
  audio ← js_lift (audio_of m);
  _ ← match audio with
      | Some ((_ :: _) as data) =>
          bytes ← js_lift (Base64.decode data);
          buf ← js_lift (Pcm.decodeAudioData bytes (inject_Z 24000) 1);
          js_modify (schedule now buf)
      | _ => mret tt
      end;
  if is_interrupted m then js_modify interrupt else mret tt.

(** [onclose]: [setIsListening(false)], whichever session closes. *)
Definition onclose (k : nat) (s : VoiceState) : VoiceState :=
  s <| isListening := false |> <| open_sessions := open_sessions s ∖ {[k]} |>
    <| closing_sessions := closing_sessions s ∖ {[k]} |>.

(** [source.onended]: [sourcesRef.current.delete(source)]. *)
Definition onended (n : nat) (s : VoiceState) : VoiceState :=
  s <| sources := sources s ∖ {[n]} |>.

(** ** [stopSession] *)

(** Closes what the refs point to ([close()] on a session delivers its
    [onclose] later), stops every source; [nextStartTimeRef] is left as
    it is. *)
Definition stopSession (s : VoiceState) : VoiceState :=
  let s1 := match sessionRef s with
            | Some k => s <| open_sessions := open_sessions s ∖ {[k]} |>
                          <| closing_sessions := {[k]} ∪ closing_sessions s |>
                          <| sessionRef := None |>
            | None => s end in
  let s2 := match audioContextRef s1 with
            | Some i => s1 <| open_contexts := open_contexts s1 ∖ {[i]} |>
                           <| audioContextRef := None |>
            | None => s1 end in
  let s3 := match outputAudioContextRef s2 with
            | Some o => s2 <| open_contexts := open_contexts s2 ∖ {[o]} |>
                           <| outputAudioContextRef := None |>
            | None => s2 end in
  s3 <| stopped := sources s3 ∪ stopped s3 |> <| sources := ∅ |> <| isListening := false |>.

(** ** Events and the step relation *)

Inductive Event :=
| EvStart (mic_ok connect_ok : bool)   (** the button, showing "Initialize" *)
| EvStop                               (** the button, showing "Terminate" *)
| EvOpen (k : nat)
| EvProcess (k : nat) (input : list Q)
| EvMessage (k : nat) (now : Q) (m : LiveServerMessage)
| EvClose (k : nat)
| EvEnded (n : nat).

(** When the browser can deliver an event. *)
Definition enabled (e : Event) (s : VoiceState) : bool :=
  match e with
  | EvStart _ _ => negb (isListening s)
  | EvStop => isListening s
  | EvOpen k => bool_decide (k ∈ open_sessions s) &&
                  match sessions s !! k with Some si => negb (opened si) | None => false end
  | EvProcess k _ => match sessions s !! k with
                     | Some si => opened si && bool_decide (in_ctx si ∈ open_contexts s)
                     | None => false end
  | EvMessage k now _ => bool_decide (k ∈ open_sessions s) && Qle_bool 0 now
  | EvClose k => bool_decide (k ∈ open_sessions s ∪ closing_sessions s)
  | EvEnded n => existsb (fun p => Nat.eqb (pb_node p) n) (started s)
  end.

Definition run (e : Event) (s : VoiceState) : VoiceState :=
  match e with
  | EvStart mic con => startSession mic con s
  | EvStop => stopSession s
  | EvOpen k => onopen k s
  | EvProcess k input => onaudioprocess k input s
  | EvMessage k now m => fst (onmessage now m s)
  | EvClose k => onclose k s
  | EvEnded n => onended n s
  end.

Inductive vstep : VoiceState -> VoiceState -> Prop :=
| vstep_run e s : enabled e s = true -> vstep s (run e s).

Definition reachable (s : VoiceState) : Prop := rtc vstep init s.

(** Run a trace of events from a state, as long as each is enabled. *)
Fixpoint run_trace (tr : list Event) (s : VoiceState) : option VoiceState :=
  match tr with
  | [] => Some s
  | e :: tr' => if enabled e s then run_trace tr' (run e s) else None
  end.

(** The playback schedule is sound: every pending source (started, not yet
    ended or stopped) ends by the cursor, and of two pending sources the
    earlier one ends before the later one starts. *)
Definition pending (s : VoiceState) (p : Playback) : Prop := pb_node p ∈ sources s.
Definition pb_end (p : Playback) : Q := pb_start p + pb_duration p.

Record sched_ok (s : VoiceState) : Prop := {
  so_fresh : forall p, In p (started s) -> (pb_node p < fresh s)%nat;
  so_sources : forall n, n ∈ sources s -> (n < fresh s)%nat;
  so_dur : forall p, In p (started s) -> 0 <= pb_duration p;
  so_cursor : forall p, In p (started s) -> pending s p -> pb_end p <= nextStartTime s;
  so_order : forall l1 p l2 q l3, started s = l1 ++ p :: l2 ++ q :: l3 ->
             pending s p -> pending s q -> pb_end p <= pb_start q
}.
(** An AudioContext left open that no ref points to: nothing in the code
    can close it any more. *)
Definition orphan (s : VoiceState) (c : nat) : Prop :=
  c ∈ open_contexts s /\ audioContextRef s <> Some c /\
  outputAudioContextRef s <> Some c /\ (c < fresh s)%nat.

(** ** Sample inputs *)

(** A server message carrying two 16-bit samples and an output
    transcription. *)
Definition demo_chunk : LiveServerMessage := {|
  serverContent := Some {|
    inputTranscription := None;
    outputTranscription := Some {| tr_text := Some "hi" |};
    modelTurn := Some {| parts := Some [{| part_data := Some (Base64.encode [1; 0; 2; 0]%Z) |}] |};
    interrupted := None |} |}.

(** An interruption whose audio part is not valid base64. *)
Definition demo_bad_interrupt : LiveServerMessage := {|
  serverContent := Some {|
    inputTranscription := None; outputTranscription := None;
    modelTurn := Some {| parts := Some [{| part_data := Some (String.list_ascii_of_string "TW-u") |}] |};
    interrupted := Some true |} |}.

(** A session that has played two chunks. *)
(** A burst of audio chunks handled in one tick of the output clock
    ([currentTime] = [now]), and its closed form: chunk [i] starts at the
    cursor (or [now], if later) plus the durations of the chunks before it. *)
Definition burst (now : Q) (bs : list Pcm.AudioBuffer) (s : VoiceState) : VoiceState :=
  fold_left (fun s b => schedule now b s) bs s.

Fixpoint gapless (t : Q) (ds : list Q) : list Q :=
  match ds with [] => [] | d :: ds' => t :: gapless (t + d) ds' end.

(** Two chunks of 100 ms and 50 ms at 24 kHz. *)
Definition demo_buffers : list Pcm.AudioBuffer :=
  [{| Pcm.numberOfChannels := 1; Pcm.buffer_length := 2400; Pcm.buffer_sampleRate := inject_Z 24000;
      Pcm.channel_data := [] |};
   {| Pcm.numberOfChannels := 1; Pcm.buffer_length := 1200; Pcm.buffer_sampleRate := inject_Z 24000;
      Pcm.channel_data := [] |}].

Definition demo_trace : list Event :=
  [EvStart true true; EvOpen 2; EvMessage 2 0 demo_chunk; EvMessage 2 0 demo_chunk].

Definition demo_state : VoiceState :=
  match run_trace demo_trace init with Some s => s | None => init end.

(** ** The schedule invariant *)

Lemma sched_ok_frame s s' :
  started s' = started s -> sources s' = sources s ->
  nextStartTime s' = nextStartTime s -> (fresh s <= fresh s')%nat ->
  sched_ok s -> sched_ok s'.
Proof.
  intros E1 E2 E3 Hf [H1 H2 H3 H4 H5]. unfold pending in *.
  constructor; unfold pending; rewrite ?E1, ?E2, ?E3.
  - intros p Hp. specialize (H1 p Hp). lia.
  - intros n Hn. specialize (H2 n Hn). lia.
  - exact H3.
  - exact H4.
  - exact H5.
Qed.

Lemma sched_ok_shrink s s' :
  started s' = started s -> sources s' ⊆ sources s ->
  nextStartTime s' = nextStartTime s -> fresh s' = fresh s ->
  sched_ok s -> sched_ok s'.
Proof.
  intros E1 E2 E3 E4 [H1 H2 H3 H4 H5]. unfold pending in *.
  constructor; unfold pending; rewrite ?E1, ?E3, ?E4; eauto.
Qed.

Lemma sched_ok_clear s s' :
  started s' = started s -> sources s' = ∅ -> fresh s' = fresh s ->
  sched_ok s -> sched_ok s'.
Proof.
  intros E1 E2 E4 [H1 H2 H3 H4 H5]. unfold pending.
  constructor; rewrite ?E1, ?E2, ?E4; try set_solver; eauto.
Qed.

Lemma sched_ok_schedule now buf s :
  0 <= Pcm.duration buf -> sched_ok s -> sched_ok (schedule now buf s).
Proof.
  intros Hd [H1 H2 H3 H4 H5].
  assert (Hold : forall p, In p (started s) -> pb_node p ∈ {[fresh s]} ∪ sources s ->
                           pb_node p ∈ sources s).
  { intros p Hp Hn. specialize (H1 p Hp). apply elem_of_union in Hn as [Hn|]; [|done].
    apply elem_of_singleton in Hn. lia. }
  pose proof (Q.le_max_l (nextStartTime s) now).
  constructor; unfold pending, pb_end; simpl.
  - intros p [Hp|[<-|[]]]%in_app_or; [specialize (H1 p Hp)|simpl]; lia.
  - intros n [->%elem_of_singleton|Hn]%elem_of_union; [|specialize (H2 n Hn)]; lia.
  - intros p [Hp|[<-|[]]]%in_app_or; [auto|done].
  - intros p [Hp|[<-|[]]]%in_app_or Hn; simpl; [|lra].
    specialize (H4 p Hp (Hold p Hp Hn)). unfold pb_end in H4. lra.
  - intros l1 p l2 q l3 E Hp Hq.
    destruct (app_snoc_split _ _ _ _ _ _ _ (eq_sym E)) as [(-> & Hqx & E') | (l3' & -> & E')].
    + assert (Hpin : In p (started s)) by (rewrite E'; apply in_or_app; simpl; auto).
      specialize (H4 p Hpin (Hold p Hpin Hp)). unfold pb_end in H4. subst q. simpl. lra.
    + assert (Hpin : In p (started s)) by (rewrite E'; apply in_or_app; simpl; auto).
      assert (Hqin : In q (started s))
        by (rewrite E'; apply in_or_app; right; right; apply in_or_app; simpl; auto).
      exact (H5 l1 p l2 q l3' E' (Hold p Hpin Hp) (Hold q Hqin Hq)).
Qed.

Lemma sched_ok_interrupt s : sched_ok s -> sched_ok (interrupt s).
Proof. apply sched_ok_clear; reflexivity. Qed.

Lemma add_transcripts_fields m s :
  started (add_transcripts m s) = started s /\ sources (add_transcripts m s) = sources s /\
  nextStartTime (add_transcripts m s) = nextStartTime s /\ fresh (add_transcripts m s) = fresh s.
Proof. unfold add_transcripts. by destruct (serverContent m). Qed.

Lemma sched_ok_add_transcripts m s : sched_ok s -> sched_ok (add_transcripts m s).
Proof.
  destruct (add_transcripts_fields m s) as (E1 & E2 & E3 & E4).
  apply sched_ok_frame; auto with lia.
Qed.

Lemma onmessage_cases now m s :
  let s1 := add_transcripts m s in
  fst (onmessage now m s) = s1 \/ fst (onmessage now m s) = interrupt s1 \/
  exists buf, 0 <= Pcm.duration buf /\
    (fst (onmessage now m s) = schedule now buf s1 \/
     fst (onmessage now m s) = interrupt (schedule now buf s1)).
Proof.
  cbn zeta. unfold onmessage, mbind, mret, js_bind, js_ret, js_modify, js_lift.
  cbn -[Base64.decode Pcm.decodeAudioData add_transcripts interrupt schedule].
  destruct (audio_of m) as [[[|c data]|]|e];
    cbn -[Base64.decode Pcm.decodeAudioData add_transcripts interrupt schedule];
    [destruct (is_interrupted m); cbn [fst]; auto| |
     destruct (is_interrupted m); cbn [fst]; auto | auto].
  destruct (Base64.decode (c :: data)) as [bytes|e];
    cbn -[Pcm.decodeAudioData add_transcripts interrupt schedule]; [|auto].
  destruct (Pcm.decodeAudioData bytes (inject_Z 24000) 1) as [buf|e] eqn:Eb;
    cbn -[add_transcripts interrupt schedule]; [|auto].
  right; right. exists buf. split.
  - apply Pcm.duration_nonneg. rewrite (Pcm.decodeAudioData_rate _ _ _ _ Eb). reflexivity.
  - destruct (is_interrupted m); cbn [fst]; auto.
Qed.

Lemma sched_ok_onmessage now m s : sched_ok s -> sched_ok (fst (onmessage now m s)).
Proof.
  intros H. pose proof (sched_ok_add_transcripts m s H) as H1.
  destruct (onmessage_cases now m s) as [-> | [-> | (buf & Hd & [-> | ->])]];
    auto using sched_ok_interrupt, sched_ok_schedule.
Qed.

Lemma stopSession_fields s :
  started (stopSession s) = started s /\ sources (stopSession s) = ∅ /\
  nextStartTime (stopSession s) = nextStartTime s /\ fresh (stopSession s) = fresh s /\
  isListening (stopSession s) = false.
Proof. unfold stopSession. by repeat case_match. Qed.

Lemma startSession_fields mic con s :
  started (startSession mic con s) = started s /\ sources (startSession mic con s) = sources s /\
  nextStartTime (startSession mic con s) = nextStartTime s /\
  fresh (startSession mic con s) = S (S (S (fresh s))).
Proof. unfold startSession. by destruct (mic && con). Qed.

Lemma startSession_opens s :
  let k := S (S (fresh s)) in
  k ∈ open_sessions (startSession true true s) /\
  sessions (startSession true true s) !! k =
    Some {| in_ctx := fresh s; out_ctx := S (fresh s); opened := false |} /\
  nextStartTime (startSession true true s) = nextStartTime s /\
  fresh (startSession true true s) = S (S (S (fresh s))).
Proof.
  unfold startSession. simpl. split; [set_solver|]. split; [|done].
  apply lookup_insert_eq.
Qed.

Lemma onopen_fields k s :
  open_sessions (onopen k s) = open_sessions s /\ started (onopen k s) = started s /\
  nextStartTime (onopen k s) = nextStartTime s /\ fresh (onopen k s) = fresh s.
Proof. done. Qed.

Lemma schedule_fields now buf s :
  started (schedule now buf s) =
    started s ++ [{| pb_node := fresh s; pb_start := Qmax (nextStartTime s) now;
                     pb_duration := Pcm.duration buf |}] /\
  nextStartTime (schedule now buf s) = Qmax (nextStartTime s) now + Pcm.duration buf /\
  fresh (schedule now buf s) = S (fresh s) /\
  sources (schedule now buf s) = {[fresh s]} ∪ sources s.
Proof. done. Qed.

Lemma sched_ok_step s s' : vstep s s' -> sched_ok s -> sched_ok s'.
Proof.
  intros [e s0 _] H. destruct e; simpl.
  - destruct (startSession_fields mic_ok connect_ok s0) as (E1 & E2 & E3 & E4).
    apply (sched_ok_frame s0); auto with lia.
  - destruct (stopSession_fields s0) as (E1 & E2 & E3 & E4 & _).
    by apply (sched_ok_clear s0).
  - by apply (sched_ok_frame s0).
  - by apply (sched_ok_frame s0).
  - by apply sched_ok_onmessage.
  - by apply (sched_ok_frame s0).
  - apply (sched_ok_shrink s0); simpl; auto. set_solver.
Qed.

Lemma sched_ok_init : sched_ok init.
Proof. constructor; simpl; try done; unfold pending; simpl; set_solver. Qed.

Lemma reachable_sched_ok s : reachable s -> sched_ok s.
Proof.
  intros H. apply (rtc_ind_r (R := vstep) (fun s => sched_ok s) init);
    [exact sched_ok_init| |exact H].
  intros y z _ Hyz IH. eauto using sched_ok_step.
Qed.

Lemma run_trace_reachable tr s s' :
  reachable s -> run_trace tr s = Some s' -> reachable s'.
Proof.
  revert s. induction tr as [|e tr IH]; intros s Hr Ht; simpl in Ht.
  - by injection Ht as <-.
  - destruct (enabled e s) eqn:He; [|done]. apply (IH (run e s)); [|done].
    eapply rtc_r; [exact Hr|]. by constructor.
Qed.

(** ** What [onmessage] does *)

Lemma onmessage_audio_ok now m s data bytes buf :
  audio_of m = Ok (Some data) -> data <> [] ->
  Base64.decode data = Ok bytes ->
  Pcm.decodeAudioData bytes (inject_Z 24000) 1 = Ok buf ->
  onmessage now m s =
    (let s2 := schedule now buf (add_transcripts m s) in
     if is_interrupted m then interrupt s2 else s2, Ok tt).
Proof.
  intros Ha Hne Hd Hb. unfold onmessage, mbind, mret, js_bind, js_ret, js_modify, js_lift.
  cbn -[Base64.decode Pcm.decodeAudioData add_transcripts interrupt schedule].
  rewrite Ha. destruct data as [|c data]; [done|].
  cbn -[Base64.decode Pcm.decodeAudioData add_transcripts interrupt schedule].
  rewrite Hd. cbn -[Pcm.decodeAudioData add_transcripts interrupt schedule].
  rewrite Hb. by destruct (is_interrupted m).
Qed.

Lemma onmessage_ok_shape now m s :
  snd (onmessage now m s) = Ok tt ->
  exists s2, (s2 = add_transcripts m s \/ exists buf, s2 = schedule now buf (add_transcripts m s)) /\
    fst (onmessage now m s) = if is_interrupted m then interrupt s2 else s2.
Proof.
  unfold onmessage, mbind, mret, js_bind, js_ret, js_modify, js_lift.
  cbn -[Base64.decode Pcm.decodeAudioData add_transcripts interrupt schedule].
  destruct (audio_of m) as [[[|c data]|]|e];
    cbn -[Base64.decode Pcm.decodeAudioData add_transcripts interrupt schedule];
    [| |exists (add_transcripts m s); destruct (is_interrupted m); auto|done].
  - exists (add_transcripts m s). destruct (is_interrupted m); auto.
  - destruct (Base64.decode (c :: data)) as [bytes|e];
      cbn -[Pcm.decodeAudioData add_transcripts interrupt schedule]; [|done].
    destruct (Pcm.decodeAudioData bytes (inject_Z 24000) 1) as [buf|e];
      cbn -[add_transcripts interrupt schedule]; [|done].
    exists (schedule now buf (add_transcripts m s)). split; [eauto|].
    by destruct (is_interrupted m).
Qed.

Lemma reachable_demo_state : reachable demo_state.
Proof.
  apply (run_trace_reachable demo_trace init); [apply rtc_refl|]. vm_compute. reflexivity.
Qed.

(** ** Properties of the voice session *)

(** C1: in every reachable state the playback schedule is sound: every
    pending source ends by the cursor [nextStartTimeRef], and of two
    pending sources the one started first ends before the other starts,
    so queued chunks never overlap. *)
Theorem playback_schedule_sound s :
  reachable s ->
  (forall p, In p (started s) -> pending s p -> pb_end p <= nextStartTime s) /\
  (forall l1 p l2 q l3, started s = l1 ++ p :: l2 ++ q :: l3 ->
     pending s p -> pending s q -> pb_end p <= pb_start q).
Proof. intros H. destruct (reachable_sched_ok s H) as [_ _ _ Hc Ho]. split; auto. Qed.

Lemma playback_schedule_sound_witness :
  reachable demo_state /\
  (forall p, In p (started demo_state) -> pending demo_state p ->
     pb_end p <= nextStartTime demo_state) /\
  (forall l1 p l2 q l3, started demo_state = l1 ++ p :: l2 ++ q :: l3 ->
     pending demo_state p -> pending demo_state q -> pb_end p <= pb_start q).
Proof.
  split; [exact reachable_demo_state|].
  exact (playback_schedule_sound demo_state reachable_demo_state).
Defined.

(** C2: a chunk that decodes is scheduled at [max(nextStartTime,
    currentTime)]: never in the past, never before audio already queued,
    and right at the end of the queue when the queue has not drained; the
    cursor moves to the end of the chunk. *)
Theorem onmessage_schedules now m s data bytes buf :
  audio_of m = Ok (Some data) -> data <> [] ->
  Base64.decode data = Ok bytes ->
  Pcm.decodeAudioData bytes (inject_Z 24000) 1 = Ok buf ->
  is_interrupted m = false ->
  let s' := fst (onmessage now m s) in
  let t := Qmax (nextStartTime s) now in
  snd (onmessage now m s) = Ok tt /\
  started s' = started s ++ [{| pb_node := fresh s; pb_start := t;
                                pb_duration := Pcm.duration buf |}] /\
  nextStartTime s' = t + Pcm.duration buf /\ fresh s ∈ sources s' /\
  now <= t /\ nextStartTime s <= t /\ (now <= nextStartTime s -> t == nextStartTime s).
Proof.
  intros Ha Hne Hd Hb Hi. cbn zeta.
  rewrite (onmessage_audio_ok now m s data bytes buf Ha Hne Hd Hb), Hi. simpl.
  destruct (add_transcripts_fields m s) as (E1 & E2 & E3 & E4).
  rewrite E1, E2, E3, E4. split; [done|]. split; [done|]. split; [done|].
  split; [set_solver|]. split; [apply Q.le_max_r|]. split; [apply Q.le_max_l|].
  intros Hle. apply Q.max_l, Hle.
Qed.

Lemma onmessage_schedules_witness :
  snd (onmessage 0 demo_chunk demo_state) = Ok tt /\
  nextStartTime demo_state <= Qmax (nextStartTime demo_state) 0.
Proof.
  destruct (onmessage_schedules 0 demo_chunk demo_state (Base64.encode [1; 0; 2; 0]%Z)
              [1; 0; 2; 0]%Z {| Pcm.numberOfChannels := 1; Pcm.buffer_length := 2;
                                Pcm.buffer_sampleRate := inject_Z 24000;
                                Pcm.channel_data := [[1 # 32768; 2 # 32768]] |})
    as (H1 & _ & _ & _ & _ & H6 & _);
    [reflexivity|discriminate|vm_compute; reflexivity|vm_compute; reflexivity|reflexivity|].
  split; [exact H1|exact H6].
Defined.

(** C4: an [interrupted] message that the handler completes stops every
    source that was playing (and any chunk the same message carried),
    empties [sourcesRef] and resets the cursor to 0. *)
Theorem onmessage_interrupt now m s :
  is_interrupted m = true -> snd (onmessage now m s) = Ok tt ->
  let s' := fst (onmessage now m s) in
  sources s' = ∅ /\ sources s ⊆ stopped s' /\ nextStartTime s' = 0 /\
  started s `prefix_of` started s'.
Proof.
  intros Hi Hok. destruct (onmessage_ok_shape now m s Hok) as (s2 & Hs2 & ->).
  rewrite Hi. destruct (add_transcripts_fields m s) as (E1 & E2 & _ & _).
  simpl. split; [done|]. split; [|split; [done|]].
  - destruct Hs2 as [-> | (buf & ->)]; simpl; rewrite E2; set_solver.
  - destruct Hs2 as [-> | (buf & ->)]; simpl; rewrite E1; [done|]. by eexists.
Qed.

Lemma onmessage_interrupt_witness :
  let m := {| serverContent := Some {| inputTranscription := None;
                outputTranscription := None; modelTurn := None;
                interrupted := Some true |} |} in
  is_interrupted m = true /\ snd (onmessage 0 m demo_state) = Ok tt /\
  sources (fst (onmessage 0 m demo_state)) = ∅.
Proof.
  intros m. assert (Hi : is_interrupted m = true) by reflexivity.
  assert (Hok : snd (onmessage 0 m demo_state) = Ok tt) by (vm_compute; reflexivity).
  split; [exact Hi|]. split; [exact Hok|].
  exact (proj1 (onmessage_interrupt 0 m demo_state Hi Hok)).
Defined.

(** When the audio part of a message fails to decode (not base64, an
    odd byte count, no samples), [onmessage] throws after updating the
    transcript: nothing is scheduled, and an [interrupted] flag in the same
    message is ignored, so the sources keep playing. *)
Theorem onmessage_bad_audio now m s data e :
  audio_of m = Ok (Some data) -> data <> [] ->
  (Base64.decode data ≫= fun bytes => Pcm.decodeAudioData bytes (inject_Z 24000) 1) = Throw e ->
  onmessage now m s = (add_transcripts m s, Throw e).
Proof.
  intros Ha Hne He. unfold onmessage, mbind, mret, js_bind, js_ret, js_modify, js_lift.
  cbn -[Base64.decode Pcm.decodeAudioData add_transcripts interrupt schedule].
  rewrite Ha. destruct data as [|c data]; [done|].
  cbn -[Base64.decode Pcm.decodeAudioData add_transcripts interrupt schedule].
  destruct (Base64.decode (c :: data)) as [bytes|e']; simpl in He; [|by injection He as ->].
  cbn -[Pcm.decodeAudioData add_transcripts interrupt schedule]. by rewrite He.
Qed.

Lemma onmessage_bad_audio_witness :
  is_interrupted demo_bad_interrupt = true /\
  onmessage 0 demo_bad_interrupt demo_state =
    (add_transcripts demo_bad_interrupt demo_state, Throw "InvalidCharacterError").
Proof.
  split; [reflexivity|].
  apply (onmessage_bad_audio _ _ _ (String.list_ascii_of_string "TW-u"));
    [reflexivity|discriminate|vm_compute; reflexivity].
Defined.

(** C9: [stopSession] leaves [nextStartTimeRef] as it was.  A new session
    gets a fresh output AudioContext whose clock starts at 0, yet its
    first chunk is scheduled at the old session's cursor: after a restart
    the first reply starts as many seconds late as the previous session
    had queued. *)
Theorem restart_resumes_stale_cursor s m data bytes buf :
  isListening s = true ->
  audio_of m = Ok (Some data) -> data <> [] ->
  Base64.decode data = Ok bytes ->
  Pcm.decodeAudioData bytes (inject_Z 24000) 1 = Ok buf ->
  is_interrupted m = false ->
  let k := S (S (fresh s)) in
  exists s1, run_trace [EvStop; EvStart true true; EvOpen k] s = Some s1 /\
    enabled (EvMessage k 0 m) s1 = true /\
    nextStartTime s1 = nextStartTime s /\
    last (started (run (EvMessage k 0 m) s1)) =
      Some {| pb_node := fresh s1; pb_start := Qmax (nextStartTime s) 0;
              pb_duration := Pcm.duration buf |}.
Proof.
  intros Hl Ha Hne Hd Hb Hi k.
  destruct (stopSession_fields s) as (_ & _ & E3 & E4 & E5).
  destruct (startSession_opens (stopSession s)) as (G1 & G2 & G3 & G4).
  rewrite E4 in G1, G2. fold k in G1, G2.
  set (s1 := onopen k (startSession true true (stopSession s))).
  destruct (onopen_fields k (startSession true true (stopSession s))) as (O1 & O2 & O3 & O4).
  fold s1 in O1, O2, O3, O4.
  exists s1. split; [|split; [|split]].
  - cbn [run_trace]. replace (enabled EvStop s) with true by (symmetry; exact Hl).
    cbn [run]. replace (enabled (EvStart true true) (stopSession s)) with true
      by (cbn [enabled]; by rewrite E5).
    cbn [run]. replace (enabled (EvOpen k) (startSession true true (stopSession s))) with true.
    { reflexivity. }
    cbn [enabled]. rewrite bool_decide_eq_true_2 by exact G1. by rewrite G2.
  - cbn [enabled]. rewrite bool_decide_eq_true_2 by (rewrite O1; exact G1). reflexivity.
  - by rewrite O3, G3, E3.
  - cbn [run]. rewrite (onmessage_audio_ok 0 m s1 data bytes buf Ha Hne Hd Hb), Hi.
    cbn [fst]. destruct (schedule_fields 0 buf (add_transcripts m s1)) as (S1 & S2 & _).
    destruct (add_transcripts_fields m s1) as (F1 & _ & F3 & F4).
    rewrite S1, F1, last_app, F3, F4, O3, G3, E3. reflexivity.
Qed.

Lemma restart_resumes_stale_cursor_witness :
  exists s1,
    run_trace [EvStop; EvStart true true; EvOpen (S (S (fresh demo_state)))] demo_state = Some s1 /\
    enabled (EvMessage (S (S (fresh demo_state))) 0 demo_chunk) s1 = true /\
    nextStartTime s1 = nextStartTime demo_state /\
    last (started (run (EvMessage (S (S (fresh demo_state))) 0 demo_chunk) s1)) =
      Some {| pb_node := fresh s1; pb_start := Qmax (nextStartTime demo_state) 0;
              pb_duration := Pcm.duration {| Pcm.numberOfChannels := 1; Pcm.buffer_length := 2;
                Pcm.buffer_sampleRate := inject_Z 24000;
                Pcm.channel_data := [[1 # 32768; 2 # 32768]] |} |}.
Proof.
  apply (restart_resumes_stale_cursor demo_state demo_chunk
           (Base64.encode [1; 0; 2; 0]%Z) [1; 0; 2; 0]%Z);
    try (vm_compute; reflexivity). discriminate.
Defined.

Lemma startSession_refs mic con s :
  audioContextRef (startSession mic con s) = Some (fresh s) /\
  outputAudioContextRef (startSession mic con s) = Some (S (fresh s)) /\
  open_contexts (startSession mic con s) = {[fresh s; S (fresh s)]} ∪ open_contexts s /\
  fresh (startSession mic con s) = S (S (S (fresh s))).
Proof. unfold startSession. by destruct (mic && con). Qed.

Lemma stopSession_contexts s c :
  c ∈ open_contexts s -> audioContextRef s <> Some c -> outputAudioContextRef s <> Some c ->
  c ∈ open_contexts (stopSession s) /\ audioContextRef (stopSession s) = None /\
  outputAudioContextRef (stopSession s) = None.
Proof.
  intros Hc Hi Ho. unfold stopSession.
  repeat case_match; simpl in *; (split; [|split; congruence]);
    repeat match goal with
    | H : ?x = Some ?a, H' : ?x <> Some ?b |- _ =>
        rewrite H in H'; assert (a <> b) by congruence; clear H'
    end;
    set_solver.
Qed.

Lemma onmessage_frame now m s :
  let s' := fst (onmessage now m s) in
  open_contexts s' = open_contexts s /\ audioContextRef s' = audioContextRef s /\
  outputAudioContextRef s' = outputAudioContextRef s /\ (fresh s <= fresh s')%nat.
Proof.
  cbn zeta.
  assert (Ht : open_contexts (add_transcripts m s) = open_contexts s /\
               audioContextRef (add_transcripts m s) = audioContextRef s /\
               outputAudioContextRef (add_transcripts m s) = outputAudioContextRef s /\
               fresh (add_transcripts m s) = fresh s)
    by (unfold add_transcripts; by destruct (serverContent m)).
  destruct Ht as (T1 & T2 & T3 & T4).
  destruct (onmessage_cases now m s) as [-> | [-> | (buf & _ & [-> | ->])]];
    simpl; rewrite ?T1, ?T2, ?T3, ?T4; repeat split; lia.
Qed.

Lemma orphan_step s s' c : vstep s s' -> orphan s c -> orphan s' c.
Proof.
  intros [e s0 _] Horph. destruct e; cbn [run]; try exact Horph.
  - destruct Horph as (Ho & Hi & Hout & Hf).
    destruct (startSession_refs mic_ok connect_ok s0) as (R1 & R2 & R3 & R4).
    unfold orphan. rewrite R1, R2, R3, R4.
    split; [set_solver|]. split; [intros [=]; lia|]. split; [intros [=]; lia|lia].
  - destruct Horph as (Ho & Hi & Hout & Hf).
    destruct (stopSession_contexts s0 c Ho Hi Hout) as (S1 & S2 & S3).
    destruct (stopSession_fields s0) as (_ & _ & _ & S4 & _).
    unfold orphan. rewrite S2, S3, S4. done.
  - destruct Horph as (Ho & Hi & Hout & Hf).
    destruct (onmessage_frame now m s0) as (M1 & M2 & M3 & M4).
    unfold orphan. rewrite M1, M2, M3. split; [done|]. split; [done|]. split; [done|lia].
Qed.

(** C10: an AudioContext can be leaked for good.  When the server closes
    a session, [onclose] sets [isListening] to false and the button offers
    "Initialize" again; [startSession] then overwrites
    [audioContextRef] and [outputAudioContextRef] without closing the
    contexts they held, and no later event closes those. *)
Theorem leaked_context_never_closed :
  exists s c, reachable s /\ orphan s c /\
    forall s', rtc vstep s s' -> c ∈ open_contexts s'.
Proof.
  set (tr := [EvStart true true; EvOpen 2; EvClose 2; EvStart true true]).
  destruct (run_trace tr init) as [s|] eqn:E; [|vm_compute in E; discriminate].
  assert (Hr : reachable s) by exact (run_trace_reachable tr init s (rtc_refl _ _) E).
  assert (Ho : orphan s 0).
  { vm_compute in E. injection E as <-. unfold orphan; simpl.
    split; [set_solver|]. split; [discriminate|]. split; [discriminate|lia]. }
  exists s, 0%nat. split; [done|]. split; [done|].
  intros s' Hs'. enough (orphan s' 0) as [? _] by done.
  clear E Hr. revert Ho. induction Hs' as [x|x y z Hxy _ IH]; intros Ho; [done|].
  apply IH. by apply (orphan_step x).
Qed.

(** C13: the [onclose] of a session closed by [stopSession] can arrive
    after a new session has opened; it sets [isListening] to false while
    [sessionRef] holds the new, open session, so the view shows
    "Initialize Voice Link" over a live uplink. *)
Theorem stale_onclose_hides_live_session :
  exists s k, reachable s /\ isListening s = false /\ sessionRef s = Some k /\
    k ∈ open_sessions s /\ enabled (EvStart true true) s = true.
Proof.
  set (tr := [EvStart true true; EvOpen 2; EvStop; EvStart true true; EvOpen 5; EvClose 2]).
  destruct (run_trace tr init) as [s|] eqn:E; [|vm_compute in E; discriminate].
  assert (Hr : reachable s) by exact (run_trace_reachable tr init s (rtc_refl _ _) E).
  exists s, 5%nat. split; [exact Hr|].
  vm_compute in E. injection E as <-.
  split; [reflexivity|]. split; [reflexivity|]. split; [set_solver|reflexivity].
Qed.

(** C14: every frame [onaudioprocess] sends decodes, through [decode] and
    [decodeAudioData] at 16 kHz, to one channel holding each microphone
    sample of [-1, 1) to within one 16-bit quantization step. *)
Theorem uplink_frame_roundtrip (input : list Q) :
  Forall (fun x => -1 <= x < 1) input -> input <> [] ->
  exists buf,
    (Base64.decode (pcm_frame input) ≫= fun bytes =>
       Pcm.decodeAudioData bytes (inject_Z 16000) 1) = Ok buf /\
    Pcm.channel_data buf = [map (fun x => inject_Z (Pcm.to_int16 x) / inject_Z 32768) input] /\
    Forall (fun x => x - (1 # 32768) < inject_Z (Pcm.to_int16 x) / inject_Z 32768 < x + (1 # 32768))
      input.
Proof.
  intros Hin Hne. unfold pcm_frame.
  rewrite Base64.decode_encode_bytes by apply Pcm.uint8_view_range. simpl.
  assert (Hv : Pcm.int16_view (Pcm.uint8_view (Pcm.float_to_int16 input)) =
               Ok (Pcm.float_to_int16 input)).
  { rewrite Pcm.int16_view_uint8_view. f_equal. unfold Pcm.float_to_int16.
    rewrite map_map. apply map_ext, Pcm.to_int16_wrap. }
  destruct (Pcm.decodeAudioData_mono _ _ (inject_Z 16000) Hv) as [-> _].
  - unfold Pcm.float_to_int16. by destruct input.
  - split; vm_compute; discriminate.
  - eexists. split; [reflexivity|]. split.
    + simpl. unfold Pcm.float_to_int16. by rewrite map_map.
    + eapply Forall_impl; [exact Hin|]. intros x Hx.
      exact (Pcm.to_int16_close x Hx).
Qed.

Lemma uplink_frame_roundtrip_witness :
  Forall (fun x => -1 <= x < 1) [1 # 2; -1] /\ [1 # 2; -1] <> [] /\
  exists buf,
    (Base64.decode (pcm_frame [1 # 2; -1]) ≫= fun bytes =>
       Pcm.decodeAudioData bytes (inject_Z 16000) 1) = Ok buf /\
    Pcm.channel_data buf =
      [map (fun x => inject_Z (Pcm.to_int16 x) / inject_Z 32768) [1 # 2; -1]] /\
    Forall (fun x => x - (1 # 32768) < inject_Z (Pcm.to_int16 x) / inject_Z 32768 < x + (1 # 32768))
      [1 # 2; -1].
Proof.
  assert (H : Forall (fun x => -1 <= x < 1) [1 # 2; -1])
    by (repeat constructor; vm_compute; discriminate).
  split; [exact H|]. split; [discriminate|].
  exact (uplink_frame_roundtrip _ H ltac:(discriminate)).
Defined.

Lemma Qmax_l_eq x y : y <= x -> Qmax x y = x.
Proof.
  intros H; unfold Qmax, GenericMinMax.gmax.
  destruct (Qcompare_spec x y) as [|Hlt|]; auto; exfalso; apply (Qlt_not_le x y); auto.
Qed.

Lemma burst_from now bs s :
  now <= nextStartTime s -> Forall (fun b => 0 <= Pcm.duration b) bs ->
  map pb_start (started (burst now bs s)) =
    map pb_start (started s) ++ gapless (nextStartTime s) (map Pcm.duration bs) /\
  nextStartTime (burst now bs s) = fold_left Qplus (map Pcm.duration bs) (nextStartTime s).
Proof.
  revert s; induction bs as [|b bs IH]; intros s Hn Hd; simpl; [rewrite app_nil_r; auto|].
  inversion Hd as [|? ? Hb Hbs]; subst.
  destruct (schedule_fields now b s) as [E1 [E2 _]].
  rewrite Qmax_l_eq in E1, E2 by exact Hn.
  destruct (IH (schedule now b s)) as [IH1 IH2]; [rewrite E2; lra|exact Hbs|].
  unfold burst in *; simpl; rewrite IH1, IH2, E1, E2, map_app, <- app_assoc; auto.
Qed.

(** C3: the cursor arithmetic of [onmessage] is the closed-form gapless
    schedule: a burst of chunks with non-negative durations is played back
    to back from [max(nextStartTime, currentTime)], chunk [i] starting
    after the durations of the chunks before it, and the cursor ends after
    the last one. *)
Theorem burst_gapless now b bs s :
  Forall (fun b => 0 <= Pcm.duration b) (b :: bs) ->
  map pb_start (started (burst now (b :: bs) s)) =
    map pb_start (started s) ++ gapless (Qmax (nextStartTime s) now) (map Pcm.duration (b :: bs)) /\
  nextStartTime (burst now (b :: bs) s) = fold_left Qplus (map Pcm.duration (b :: bs)) (Qmax (nextStartTime s) now).
Proof.
  intros Hd; inversion Hd as [|? ? Hb Hbs]; subst.
  destruct (schedule_fields now b s) as [E1 [E2 _]].
  destruct (burst_from now bs (schedule now b s)) as [H1 H2]; [rewrite E2; pose proof (Q.le_max_r (nextStartTime s) now); lra|exact Hbs|].
  unfold burst in *; simpl; rewrite H1, H2, E1, E2, map_app, <- app_assoc; auto.
Qed.

Lemma burst_gapless_witness :
  Forall (fun b => 0 <= Pcm.duration b) demo_buffers /\
  Forall2 Qeq (map pb_start (started (burst 0 demo_buffers init))) [0; 1 # 10] /\
  nextStartTime (burst 0 demo_buffers init) == 3 # 20.
Proof.
  assert (Hd : Forall (fun b => 0 <= Pcm.duration b) demo_buffers)
    by (repeat constructor; unfold Qle; simpl; lia).
  destruct (burst_gapless 0 _ _ init Hd) as [H1 H2].
  split_and!; [exact Hd|..]; unfold demo_buffers in *; [rewrite H1; repeat constructor|rewrite H2]; vm_compute; reflexivity.
Defined.

End Voice.
