(* ===== verification/Tabs.v ===== *)
(** * The views behind the tabs (src/App.tsx lines 89-169)

    While signed in, [App] renders one view per tab,
    [{activeTab === 'voice' && <VoiceView />}] and the like (lines
    154-167), so switching tabs, or signing out, unmounts the view shown
    and switching back mounts a new instance with fresh state and refs.
    What an instance started does not stop with it:
    - [VoiceView] (src/VoiceView.tsx) declares no effect, hence no
      cleanup: its two AudioContexts, the microphone stream feeding
      [onaudioprocess] and its live session outlive it;
    - a [StudioView] generation awaiting the service settles after the
      unmount; its [setResult]/[setError] hit the discarded instance and
      its [onGeneration] still runs: [App]'s [handleGeneration] of the
      render that passed it, which reads that render's [userState.tier].

    [TabsState] pairs the shell ([Shell.AppState]) with the voice view's
    state ([Voice.VoiceState], whose browser part, the contexts, sessions
    and logs, is shared by every instance), the sessions the mounted
    voice instance started ([mine]), the studio instance on screen with
    its [tier] prop, and the orphaned generations with the tier their
    [onGeneration] reads.  An event is a shell event ([Shell.run], which
    mounts and unmounts the views), an event of the voice view
    ([Voice.run]: the button while the view is shown and the tour does
    not cover it, the callbacks of the mounted instance's sessions, and
    the two callbacks that only touch the browser's side, whichever
    instance set them, [onaudioprocess] and [source.onended]), an event
    of the studio on screen ([Studio.run] with its tier; a generation it
    reports is [onGeneration] on the shell), or the settlement of an
    orphaned generation.  [generations] of the studio counts its calls of
    [onGeneration].  The shell's [EvGeneration] is not an event of its own
    here: only the studio raises it.

    Not modelled: the callbacks of an unmounted voice instance's sessions
    other than those two ([onmessage], [onclose] update the refs and
    state of the instance whose closure holds them, which this
    composition does not keep).  The chat view, whose state and stream do
    not outlive it, is composed with the shell in [ChatTab]. *)

From S2P Require Import Prelude Studio Shell Voice.
From Stdlib Require Import QArith.

Module Tabs.
Import Voice.
#[local] Open Scope voice_scope.
#[local] Existing Instance Studio.SubscriptionTier_eq_dec.

(** ** The composition *)

(** [userState.isLoggedIn] and [activeTab === 'voice']. *)
Definition voice_shown (a : Shell.AppState) : bool :=
  Shell.logged a && bool_decide (Shell.activeTab a = "voice").

(** A new [VoiceView]: [useState(false)], [useState([])], [useRef(null)]
    three times, [useRef(0)], [useRef(new Set())].  The browser objects
    earlier instances opened are kept as they are. *)
Definition voice_mount (v : VoiceState) : VoiceState :=
  v <| isListening := false |> <| transcript := [] |> <| nextStartTime := 0 |>
    <| sources := ∅ |> <| audioContextRef := None |> <| outputAudioContextRef := None |>
    <| sessionRef := None |>.

(** [userState.isLoggedIn] and [activeTab === 'studio']. *)
Definition studio_shown (a : Shell.AppState) : bool :=
  Shell.logged a && bool_decide (Shell.activeTab a = "studio").

Definition enters (f : Shell.AppState -> bool) (a a' : Shell.AppState) : bool := negb (f a) && f a'.
Definition leaves (f : Shell.AppState -> bool) (a a' : Shell.AppState) : bool := f a && negb (f a').

(** A new [StudioView] reads its preferences back from [localStorage],
    which earlier instances wrote. *)
Definition studio_mount (s : Studio.StudioState) : Studio.StudioState :=
  Studio.persist (Studio.mount (Studio.storage s)).

(** [handleGeneration] of the [App] render whose props a studio instance
    holds: [if (userState.tier === FREE) setUserState(prev => ...)] reads
    the tier of that render, the updater the latest state. *)
Definition onGeneration (t : Studio.SubscriptionTier) (a : Shell.AppState) : Shell.AppState :=
  Shell.handleGeneration t a.

(** The studio instance on screen is [studio] with the tier prop it was
    mounted with; [orphans] are the generations whose instance was
    unmounted while they were pending, with the tier their [onGeneration]
    reads. *)
Record TabsState := {
  app : Shell.AppState;
  voice : VoiceState;
  mine : gset nat;
  studio : Studio.StudioState;
  studio_tier : Studio.SubscriptionTier;
  orphans : list (Studio.Pending * Studio.SubscriptionTier)
}.

Inductive TEvent :=
| TApp (e : Shell.Event)
| TVoice (e : Voice.Event)
| TStudio (e : Studio.Event)
| TOrphan (i : nat).

(** [onGeneration] is the studio's callback: the shell does not raise it
    on its own. *)
Definition is_generation (e : Shell.Event) : bool :=
  match e with Shell.EvGeneration _ => true | _ => false end.

(** The studio's events that are clicks (the tour's backdrop covers
    them), as opposed to its timers and its settled promise. *)
Definition studio_click (e : Studio.Event) : bool :=
  match e with Studio.EvFinish | Studio.EvTick | Studio.EvCopyReset => false | _ => true end.

Definition pending_orphan (m : TabsState) : list (Studio.Pending * Studio.SubscriptionTier) :=
  match Studio.pending (studio m) with Some pd => [(pd, studio_tier m)] | None => [] end.

(** The events of the view's button ("Initialize" / "Terminate"). *)
Definition voice_button (e : Voice.Event) : bool :=
  match e with EvStart _ _ | EvStop => true | _ => false end.

Definition tabs_enabled (e : TEvent) (m : TabsState) : bool :=
  match e with
  | TApp e => Shell.enabled e (app m) && negb (is_generation e)
  | TVoice e =>
      Voice.enabled e (voice m) &&
      if voice_button e then voice_shown (app m) && negb (Shell.shown (app m))
      else match e with
           | EvOpen k | EvMessage k _ _ | EvClose k => bool_decide (k ∈ mine m)
           | _ => true
           end
  | TStudio e =>
      studio_shown (app m) && (if studio_click e then negb (Shell.shown (app m)) else true) &&
      Studio.enabled e (studio m)
  | TOrphan i => bool_decide (is_Some (orphans m !! i))
  end.

Definition tabs_init (seen : bool) : TabsState :=
  {| app := Shell.app_init seen; voice := Voice.init; mine := ∅;
     studio := Studio.mount ∅; studio_tier := Studio.FREE; orphans := [] |}.

Section Run.
Context `{MS : Studio.MediaService}.

(** A shell event, with the views it mounts and unmounts; an event of the
    voice view or of the studio on screen; the settlement of an orphaned
    generation, whose [setResult] or [setError] hits an unmounted
    instance and whose [onGeneration] still runs. *)
Definition tabs_run (e : TEvent) (m : TabsState) : TabsState :=
  match e with
  | TApp e =>
      let a := app m in
      let a' := Shell.run e a in
      {| app := a';
         voice := if enters voice_shown a a' then voice_mount (voice m) else voice m;
         mine := if enters voice_shown a a' then ∅ else mine m;
         studio := if enters studio_shown a a' then studio_mount (studio m) else studio m;
         studio_tier := if enters studio_shown a a' then Shell.tier (Shell.user a') else studio_tier m;
         orphans := if leaves studio_shown a a' then orphans m ++ pending_orphan m else orphans m |}
  | TVoice e =>
      let v' := Voice.run e (voice m) in
      {| app := app m; voice := v';
         mine := match e, sessionRef v' with
                 | EvStart _ _, Some k => {[k]} ∪ mine m
                 | _, _ => mine m
                 end;
         studio := studio m; studio_tier := studio_tier m; orphans := orphans m |}
  | TStudio e =>
      let s' := Studio.run (studio_tier m) e (studio m) in
      {| app := if Nat.ltb (Studio.generations (studio m)) (Studio.generations s')
                then onGeneration (studio_tier m) (app m) else app m;
         voice := voice m; mine := mine m;
         studio := s'; studio_tier := studio_tier m; orphans := orphans m |}
  | TOrphan i =>
      match orphans m !! i with
      | Some (pd, t) =>
          {| app := match Studio.pending_result pd with
                    | Ok _ => onGeneration t (app m)
                    | Throw _ => app m
                    end;
             voice := voice m; mine := mine m; studio := studio m; studio_tier := studio_tier m;
             orphans := delete i (orphans m) |}
      | None => m
      end
  end.

Inductive tstep : TabsState -> TabsState -> Prop :=
| tstep_run e m : tabs_enabled e m = true -> tstep m (tabs_run e m).

Definition reachable (seen : bool) (m : TabsState) : Prop := rtc tstep (tabs_init seen) m.

Fixpoint tabs_trace (es : list TEvent) (m : TabsState) : option TabsState :=
  match es with
  | [] => Some m
  | e :: es' => if tabs_enabled e m then tabs_trace es' (tabs_run e m) else None
  end.

(** ** Invariants *)

(** Every session and its input context were allocated below [fresh]. *)
Definition fresh_bound (v : VoiceState) : Prop :=
  forall k si, sessions v !! k = Some si -> (k < fresh v)%nat /\ (in_ctx si < fresh v)%nat.

(** Session [k] streams the microphone through the open input context
    [c]: [onaudioprocess] fires for it. *)
Definition mic_live (k c : nat) (v : VoiceState) : Prop :=
  (exists si, sessions v !! k = Some si /\ in_ctx si = c /\ opened si = true) /\
  c ∈ open_contexts v /\ (k < fresh v)%nat /\ (c < fresh v)%nat.

(** No ref of the view on screen points at [c]. *)
Definition unreferenced (c : nat) (v : VoiceState) : Prop :=
  audioContextRef v <> Some c /\ outputAudioContextRef v <> Some c.

Definition run_all (es : list TEvent) (m : TabsState) : TabsState :=
  fold_left (fun m e => tabs_run e m) es m.

End Run.

(** Sign in with Google, skip the tour, open the voice tab and start a
    session (number 2) whose server opens it. *)
Definition voice_on : list TEvent :=
  map TApp Shell.google_login ++
  [TApp Shell.EvSkip; TApp (Shell.EvTab "voice"); TVoice (EvStart true true); TVoice (EvOpen 2)].

(** Back on the voice tab: Initialize, the server opens session 5,
    Terminate. *)
Definition voice_back : list TEvent :=
  [TApp (Shell.EvTab "voice"); TVoice (EvStart true true); TVoice (EvOpen 5); TVoice EvStop].

Definition demo_on : TabsState := @run_all Studio.GS voice_on (tabs_init false).
Definition demo_away : TabsState := @tabs_run Studio.GS (TApp (Shell.EvTab "chat")) demo_on.
Definition demo_back : TabsState := @run_all Studio.GS voice_back demo_away.

(** Sign in with Google, skip the tour, open the studio on the free tier
    and generate an image of "a lion". *)
Definition studio_gen : list TEvent :=
  map TApp Shell.google_login ++
  [TApp Shell.EvSkip; TApp (Shell.EvTab "studio"); TStudio (Studio.EvPrompt "a lion"); TStudio Studio.EvGenerate].

(** ... then, before the image arrives, open the pricing page and choose
    the Base plan. *)
Definition studio_upgrade : list TEvent :=
  studio_gen ++ [TApp (Shell.EvTab "pricing"); TApp (Shell.EvUpgrade Studio.BASE)].

Definition demo_gen : TabsState := @run_all Studio.GS studio_gen (tabs_init false).
Definition demo_upgraded : TabsState := @run_all Studio.GS studio_upgrade (tabs_init false).

(** ** Lemmas *)

Section Laws.
Context `{MS : Studio.MediaService}.

Lemma startSession_sessions mic con v k :
  (k < fresh v)%nat -> sessions (startSession mic con v) !! k = sessions v !! k.
Proof.
  intros Hk. unfold startSession. destruct (mic && con); simpl; [|done].
  rewrite lookup_insert_ne by lia. done.
Qed.

Lemma stopSession_sessions v : sessions (stopSession v) = sessions v.
Proof. unfold stopSession. by repeat case_match. Qed.

Lemma onmessage_sessions now msg v : sessions (fst (onmessage now msg v)) = sessions v.
Proof.
  assert (Ht : sessions (add_transcripts msg v) = sessions v)
    by (unfold add_transcripts; by destruct (serverContent msg)).
  destruct (onmessage_cases now msg v) as [-> | [-> | (buf & _ & [-> | ->])]]; exact Ht.
Qed.

Lemma fresh_bound_run e v : fresh_bound v -> fresh_bound (Voice.run e v).
Proof.
  intros Hb k si. destruct e; cbn [Voice.run].
  - destruct (startSession_refs mic_ok connect_ok v) as (_ & _ & _ & ->).
    unfold startSession. destruct (mic_ok && connect_ok); simpl.
    + rewrite lookup_insert_Some. intros [[<- <-]|[_ H]]; simpl; [lia|]. apply Hb in H. lia.
    + intros H. apply Hb in H. lia.
  - rewrite stopSession_sessions. destruct (stopSession_fields v) as (_ & _ & _ & -> & _). apply Hb.
  - simpl. rewrite lookup_alter_Some. intros [(<- & x & Hx & ->)|(_ & H)]; [|by apply Hb].
    apply Hb in Hx. exact Hx.
  - apply Hb.
  - rewrite onmessage_sessions. destruct (onmessage_frame now m v) as (_ & _ & _ & Hf).
    intros H. apply Hb in H. lia.
  - apply Hb.
  - apply Hb.
Qed.

Lemma reachable_fresh_bound seen m : reachable seen m -> fresh_bound (voice m).
Proof.
  intros Hr. apply (rtc_ind_r (R := tstep) (fun m => fresh_bound (voice m)) (tabs_init seen));
    [intros k si; simpl; by rewrite lookup_empty| |exact Hr].
  intros y z _ [e y0 _] IH. destruct e as [e|e|e|i]; cbn [tabs_run].
  - cbn [voice]. by destruct (enters voice_shown (app y0) (Shell.run e (app y0))).
  - by apply fresh_bound_run.
  - exact IH.
  - destruct (orphans y0 !! i) as [[pd t]|]; exact IH.
Qed.

Lemma mic_live_run e v k c :
  mic_live k c v -> (voice_button e = true -> unreferenced c v) ->
  mic_live k c (Voice.run e v) /\ (unreferenced c v -> unreferenced c (Voice.run e v)).
Proof.
  intros Hl Hu. pose proof Hl as ((si & Hk & Hc & Ho) & Hopen & Hkf & Hcf).
  destruct e; cbn [Voice.run voice_button] in Hu |- *.
  - destruct (startSession_refs mic_ok connect_ok v) as (R1 & R2 & R3 & R4).
    assert (Hnew : unreferenced c (startSession mic_ok connect_ok v))
      by (unfold unreferenced; rewrite R1, R2; split; intros [=]; lia).
    split; [|intros _; exact Hnew].
    split_and!; [exists si; rewrite startSession_sessions; auto | rewrite R3; set_solver | rewrite R4; lia..].
  - destruct (Hu eq_refl) as [Hi Hout].
    destruct (stopSession_contexts v c Hopen Hi Hout) as (S1 & S2 & S3).
    destruct (stopSession_fields v) as (_ & _ & _ & S4 & _).
    split; [|intros _; unfold unreferenced; rewrite S2, S3; split; discriminate].
    split_and!; [exists si; rewrite stopSession_sessions; auto|exact S1|rewrite S4; lia..].
  - split; [|intros U; exact U]. split_and!; [|exact Hopen|exact Hkf|exact Hcf].
    cbn [onopen set_sessions set_isListening sessions]. destruct (decide (k0 = k)) as [->|Hne].
    + rewrite lookup_alter, Hk, decide_True by done. eexists. split_and!; [reflexivity|exact Hc|reflexivity].
    + rewrite lookup_alter_ne by done. by exists si.
  - split; [exact Hl|intros U; exact U].
  - destruct (onmessage_frame now m v) as (M1 & M2 & M3 & M4).
    split; [|unfold unreferenced; rewrite M2, M3; intros U; exact U].
    split_and!; [exists si; rewrite onmessage_sessions; auto|by rewrite M1|lia|lia].
  - split; [exact Hl|intros U; exact U].
  - split; [exact Hl|intros U; exact U].
Qed.

(** Once the voice view left the screen, session [k] keeps streaming
    through [c] and no ref of a view on screen points at [c]. *)
Lemma voice_shown_onGeneration t a : voice_shown (onGeneration t a) = voice_shown a.
Proof. unfold onGeneration, Shell.handleGeneration. by case_bool_decide. Qed.

(** A step that takes the voice view off the screen leaves its state
    alone. *)
Lemma tstep_voice_hidden m m1 :
  tstep m m1 -> voice_shown (app m) = true -> voice_shown (app m1) = false -> voice m1 = voice m.
Proof.
  intros [e m0 _] Hs Hs1. destruct e as [e|e|e|i]; cbn [tabs_run] in Hs1 |- *.
  - unfold enters. rewrite Hs. reflexivity.
  - cbn [app] in Hs1. congruence.
  - cbn [app] in Hs1. destruct (_ <? _)%nat; rewrite ?voice_shown_onGeneration in Hs1; congruence.
  - destruct (orphans m0 !! i) as [[pd t]|]; [|congruence]. cbn [app voice] in Hs1 |- *.
    destruct (Studio.pending_result pd); rewrite ?voice_shown_onGeneration in Hs1; congruence.
Qed.

Lemma tstep_mic m m' k c :
  tstep m m' -> mic_live k c (voice m) -> (voice_shown (app m) = false \/ unreferenced c (voice m)) ->
  mic_live k c (voice m') /\ (voice_shown (app m') = false \/ unreferenced c (voice m')).
Proof.
  intros [e m0 He] Hl Hd. destruct e as [e|e|e|i]; cbn [tabs_run].
  - unfold enters.
    destruct (negb (voice_shown (app m0)) && voice_shown (Shell.run e (app m0))) eqn:Em; cbn [app voice].
    + split; [exact Hl|right; split; discriminate].
    + split; [exact Hl|]. destruct (voice_shown (Shell.run e (app m0))) eqn:Es; [|by left].
      right. destruct Hd as [Hd|Hd]; [rewrite Hd in Em; discriminate|exact Hd].
  - cbn [tabs_enabled] in He. apply andb_prop in He as [_ Hg].
    assert (Hu : voice_button e = true -> unreferenced c (voice m0)).
    { intros Hb. rewrite Hb in Hg. destruct Hd as [Hd|Hd]; [|exact Hd].
      rewrite Hd in Hg. discriminate. }
    destruct (mic_live_run e (voice m0) k c Hl Hu) as [H1 H2]. cbn [app voice].
    split; [exact H1|]. destruct Hd as [Hd|Hd]; [by left|right; by apply H2].
  - cbn [app voice]. split; [exact Hl|].
    destruct (_ <? _)%nat; [rewrite voice_shown_onGeneration|]; exact Hd.
  - destruct (orphans m0 !! i) as [[pd t]|]; [|split; assumption]. cbn [app voice].
    split; [exact Hl|]. destruct (Studio.pending_result pd); [rewrite voice_shown_onGeneration|]; exact Hd.
Qed.

Lemma mic_live_process k c m input :
  mic_live k c (voice m) -> tabs_enabled (TVoice (EvProcess k input)) m = true.
Proof.
  intros ((si & Hk & <- & Ho) & Hopen & _). cbn [tabs_enabled Voice.enabled voice_button].
  rewrite Hk, Ho. simpl. by rewrite bool_decide_eq_true_2.
Qed.

Lemma tab_away_hides_voice a t : t <> "voice" -> voice_shown (Shell.run (Shell.EvTab t) a) = false.
Proof.
  intros Ht. unfold voice_shown. rewrite bool_decide_eq_false_2; [apply andb_false_r|].
  unfold Shell.run. rewrite Shell.remount_tab. exact Ht.
Qed.

Lemma tabs_trace_rtc es m m' : tabs_trace es m = Some m' -> rtc tstep m m'.
Proof.
  revert m. induction es as [|e es IH]; intros m; simpl; [intros [= ->]; done|].
  destruct (tabs_enabled e m) eqn:He; [|discriminate].
  intros H. eapply rtc_l; [by apply tstep_run|exact (IH _ H)].
Qed.

Lemma tabs_trace_run_all es m m' : tabs_trace es m = Some m' -> m' = run_all es m.
Proof.
  revert m. induction es as [|e es IH]; intros m; simpl; [by intros [= ->]|].
  destruct (tabs_enabled e m); [apply IH|discriminate].
Qed.

Lemma onGeneration_shell t a :
  Shell.tier (Shell.user (onGeneration t a)) = Shell.tier (Shell.user a) /\
  studio_shown (onGeneration t a) = studio_shown a.
Proof. unfold onGeneration, Shell.handleGeneration. by case_bool_decide. Qed.

Lemma upgrade_off_studio t a : Shell.enabled (Shell.EvUpgrade t) a = true -> studio_shown a = false.
Proof.
  cbn [Shell.enabled]. intros He. repeat apply andb_prop in He as [He ?].
  match goal with H : bool_decide (Shell.activeTab a = "pricing") = true |- _ =>
    apply bool_decide_eq_true in H end.
  unfold studio_shown. by rewrite bool_decide_eq_false_2, andb_false_r by congruence.
Qed.

(** Only choosing a plan changes the tier. *)
Lemma shell_run_tier e a :
  (forall t, e <> Shell.EvUpgrade t) -> Shell.tier (Shell.user (Shell.run e a)) = Shell.tier (Shell.user a).
Proof.
  intros Hu. unfold Shell.run. rewrite Shell.remount_user.
  destruct e; try (exfalso; by eapply Hu); cbn [Shell.run0]; try reflexivity.
  all: unfold Shell.with_auth, Shell.handleGeneration, Shell.handleNext, Shell.completeOnboarding;
    try reflexivity.
  all: try (destruct (Shell.timers a !! i) as [[[] ?]|];
    unfold Shell.fire_timer, Shell.handleLogin, Shell.with_auth; simpl; repeat case_match; reflexivity).
  all: repeat case_match; reflexivity.
Qed.

(** The studio on screen holds the tier of the current session. *)
Definition studio_tier_ok (m : TabsState) : Prop :=
  studio_shown (app m) = true -> studio_tier m = Shell.tier (Shell.user (app m)).

Lemma studio_tier_ok_step m m' : tstep m m' -> studio_tier_ok m -> studio_tier_ok m'.
Proof.
  intros [e m0 He] Hok. unfold studio_tier_ok. destruct e as [e|e|e|i]; cbn [tabs_run].
  - unfold enters. cbn [app studio_tier].
    destruct (negb (studio_shown (app m0)) && studio_shown (Shell.run e (app m0))) eqn:Em; [done|].
    intros Hs. destruct (studio_shown (app m0)) eqn:Hs0; [|rewrite Hs in Em; discriminate].
    rewrite (Hok Hs0). symmetry. apply shell_run_tier. intros t ->.
    cbn [tabs_enabled] in He. apply andb_prop in He as [He _].
    rewrite (upgrade_off_studio t _ He) in Hs0. discriminate.
  - exact Hok.
  - cbn [app studio_tier]. destruct (_ <? _)%nat; [|exact Hok].
    destruct (onGeneration_shell (studio_tier m0) (app m0)) as [-> ->]. exact Hok.
  - destruct (orphans m0 !! i) as [[pd t]|]; [|exact Hok]. cbn [app studio_tier].
    destruct (Studio.pending_result pd); [|exact Hok].
    destruct (onGeneration_shell t (app m0)) as [-> ->]. exact Hok.
Qed.

Lemma reachable_studio_tier_ok seen m : reachable seen m -> studio_tier_ok m.
Proof.
  intros Hr. apply (rtc_ind_r (R := tstep) studio_tier_ok (tabs_init seen)); [discriminate| |exact Hr].
  intros y z _ Hyz IH. by eapply studio_tier_ok_step.
Qed.

(** A generation reported by the studio on screen is a step of the
    session contract: counted on the free tier, ignored otherwise. *)
Lemma onGeneration_session a :
  Shell.logged a = true ->
  Shell.abs (onGeneration (Shell.tier (Shell.user a)) a) = Shell.abs a \/
  Shell.session_step (Shell.abs a) (Shell.abs (onGeneration (Shell.tier (Shell.user a)) a)).
Proof.
  intros Hl. unfold onGeneration, Shell.handleGeneration. case_bool_decide as Hf; [right|by left].
  unfold Shell.abs, Shell.logged in *. cbn [Shell.user Shell.set_user Shell.set_photosUsedToday
    Shell.isLoggedIn Shell.tier Shell.photosUsedToday]. rewrite Hl, Hf. apply Shell.ss_count.
Qed.

(** ** Properties *)

(** C11: the voice session outlives the voice view.  [VoiceView] has no
    cleanup: when the view leaves the screen (another tab, or signing
    out) while the microphone streams into session [k], the input
    AudioContext stays open and [onaudioprocess] keeps sending the
    microphone's frames to [k] in every later state of the application,
    whatever the user does next; the instance mounted on return has empty
    refs, so neither its Initialize nor its Terminate closes what the
    first instance opened. *)
Theorem voice_outlives_view seen m m1 k si :
  reachable seen m -> voice_shown (app m) = true ->
  sessions (voice m) !! k = Some si -> opened si = true -> in_ctx si ∈ open_contexts (voice m) ->
  tstep m m1 -> voice_shown (app m1) = false ->
  forall m', rtc tstep m1 m' ->
    in_ctx si ∈ open_contexts (voice m') /\
    forall input, tabs_enabled (TVoice (EvProcess k input)) m' = true /\
      sent (voice (tabs_run (TVoice (EvProcess k input)) m')) = sent (voice m') ++ [(k, pcm_frame input)].
Proof.
  intros Hr Hs Hk Ho Hc H1 Hs1 m' Hm'.
  destruct (reachable_fresh_bound seen m Hr k si Hk) as [Hkf Hcf].
  assert (H0 : mic_live k (in_ctx si) (voice m1)).
  { rewrite (tstep_voice_hidden m m1 H1 Hs Hs1). split_and!; [by exists si|done|done|done]. }
  assert (Hd : voice_shown (app m1) = false \/ unreferenced (in_ctx si) (voice m1)) by (left; exact Hs1).
  clear Hr Hs Hk Ho Hc Hkf Hcf H1 Hs1.
  induction Hm' as [x|x y z Hxy _ IH].
  - split; [apply H0|]. intros input. split; [by apply (mic_live_process k (in_ctx si))|reflexivity].
  - destruct (tstep_mic x y k (in_ctx si) Hxy H0 Hd) as [Hl Hd']. exact (IH Hl Hd').
Qed.

(** C26: the composed application keeps the session contract for every
    event but one kind: signing in and out, choosing a plan, and every
    generation the studio on screen reports (counted on the free tier
    only) are steps of [Shell.session_step] or leave the session alone.
    The exception, the settlement of a generation whose studio was
    unmounted, is [orphan_generation_breaks_session]. *)
Theorem tabs_refine_session seen m e :
  reachable seen m -> tabs_enabled e m = true -> (forall i, e <> TOrphan i) ->
  Shell.abs (app (tabs_run e m)) = Shell.abs (app m) \/
  Shell.session_step (Shell.abs (app m)) (Shell.abs (app (tabs_run e m))).
Proof.
  intros Hr He Ho. destruct e as [e|e|e|i]; cbn [tabs_run app].
  - cbn [tabs_enabled] in He. apply andb_prop in He as [He Hg].
    apply Shell.step_refines; [exact He|]. intros t ->. discriminate Hg.
  - by left.
  - destruct (_ <? _)%nat; [|by left].
    cbn [tabs_enabled] in He. apply andb_prop in He as [[Hs _]%andb_prop _].
    rewrite (reachable_studio_tier_ok seen m Hr Hs). apply onGeneration_session.
    unfold studio_shown in Hs. by apply andb_prop in Hs as [-> _].
  - exfalso. by eapply Ho.
Qed.

End Laws.

(** ** Witnesses *)

#[local] Existing Instance Studio.GS.

(** Session 2 still hears the microphone after the user left the voice
    tab, came back, started and terminated a second session: the view
    shows "Initialize Voice Link". *)
Lemma voice_outlives_view_witness :
  reachable false demo_on /\ voice_shown (app demo_on) = true /\
  sessions (voice demo_on) !! 2%nat = Some {| in_ctx := 0; out_ctx := 1; opened := true |} /\
  tstep demo_on demo_away /\ voice_shown (app demo_away) = false /\ rtc tstep demo_away demo_back /\
  isListening (voice demo_back) = false /\ tabs_enabled (TVoice (EvProcess 2 [])) demo_back = true.
Proof.
  assert (Hr : reachable false demo_on).
  { apply (tabs_trace_rtc voice_on). vm_compute. reflexivity. }
  assert (Hs : voice_shown (app demo_on) = true) by (vm_compute; reflexivity).
  assert (Hk : sessions (voice demo_on) !! 2%nat = Some {| in_ctx := 0; out_ctx := 1; opened := true |})
    by (vm_compute; reflexivity).
  assert (Ho : opened {| in_ctx := 0; out_ctx := 1; opened := true |} = true) by reflexivity.
  assert (Hc : in_ctx {| in_ctx := 0; out_ctx := 1; opened := true |} ∈ open_contexts (voice demo_on))
    by (vm_compute; set_solver).
  assert (H1 : tstep demo_on demo_away) by (apply tstep_run; vm_compute; reflexivity).
  assert (Hs1 : voice_shown (app demo_away) = false) by (vm_compute; reflexivity).
  assert (Hb : rtc tstep demo_away demo_back) by (apply (tabs_trace_rtc voice_back); vm_compute; reflexivity).
  destruct (voice_outlives_view false demo_on demo_away 2 _ Hr Hs Hk Ho Hc H1 Hs1 demo_back Hb) as [_ H].
  split_and!; [exact Hr|exact Hs|exact Hk|exact H1|exact Hs1|exact Hb|vm_compute; reflexivity|apply H].
Defined.

(** The studio on screen finishes its image on the free tier: one photo
    counted, a step of the contract. *)
Lemma tabs_refine_session_witness :
  reachable false demo_gen /\ tabs_enabled (TStudio Studio.EvFinish) demo_gen = true /\
  Shell.session_step (Shell.abs (app demo_gen)) (Shell.abs (app (tabs_run (TStudio Studio.EvFinish) demo_gen))).
Proof.
  assert (Hr : reachable false demo_gen) by (apply (tabs_trace_rtc studio_gen); vm_compute; reflexivity).
  assert (He : tabs_enabled (TStudio Studio.EvFinish) demo_gen = true) by (vm_compute; reflexivity).
  split_and!; [exact Hr|exact He|].
  destruct (tabs_refine_session false demo_gen _ Hr He ltac:(discriminate)) as [H|H]; [|exact H].
  vm_compute in H. discriminate.
Defined.

(** C27: a generation outlives its studio and breaks the session
    contract: a free-tier user who starts an image, opens the pricing
    page and chooses the Base plan before the image arrives is charged a
    free photo when it does, on the Base plan: the unmounted studio's
    [onGeneration] still runs, with the tier of the render that started
    it.  The step is neither a stutter nor a step of
    [Shell.session_step]. *)
Theorem orphan_generation_breaks_session :
  exists m i, reachable false m /\ tabs_enabled (TOrphan i) m = true /\
    Shell.tier (Shell.user (app m)) = Studio.BASE /\
    Shell.photosUsedToday (Shell.user (app (tabs_run (TOrphan i) m))) =
      S (Shell.photosUsedToday (Shell.user (app m))) /\
    ~ (Shell.abs (app (tabs_run (TOrphan i) m)) = Shell.abs (app m) \/
       Shell.session_step (Shell.abs (app m)) (Shell.abs (app (tabs_run (TOrphan i) m)))).
Proof.
  exists demo_upgraded, 0%nat. split_and!.
  - apply (tabs_trace_rtc studio_upgrade). vm_compute. reflexivity.
  - vm_compute. reflexivity.
  - vm_compute. reflexivity.
  - vm_compute. reflexivity.
  - vm_compute. intros [H|H]; [discriminate H|inversion H].
Qed.

End Tabs.
