(* ===== verification/ChatTab.v ===== *)
(** * The chat view behind its tab (src/App.tsx line 155, src/ChatView.tsx lines 10-19)

    [{activeTab === 'chat' && <ChatView searchQuery={searchQuery} />}]:
    the conversation is [ChatView]'s own state ([useState] of the
    welcome message), so leaving the chat tab, or signing out, unmounts
    it with its history, and coming back mounts a new instance that
    starts from the welcome message again.  A reply being streamed when
    the view leaves keeps running, but its [setMessages] and
    [setLoading] reach only the discarded instance: nothing of it is
    seen again.

    [ChatTabState] pairs the shell with the chat instance on screen.  An
    event is a shell event ([Shell.run], which mounts the view: [mounts])
    or an event of the chat on screen ([Chat.run]): its input, file, send
    and remove-image controls when the tour does not cover them, the
    turns of its reply stream whatever covers the page.  The studio's
    [onGeneration] is a shell event here as in [Shell].

    The composition holds no theorem of its own: that the chat on
    screen is a reachable state of [Chat]'s relation, and that leaving
    the tab and coming back shows the welcome message only, are
    immediate from [ct_run]. *)

From S2P Require Import Prelude JsString Gemini Chat Shell.

Module ChatTab.
Import Gemini Chat.

(** ** The composition *)

(** [userState.isLoggedIn] and [activeTab === 'chat']. *)
Definition chat_shown (a : Shell.AppState) : bool :=
  Shell.logged a && bool_decide (Shell.activeTab a = "chat").

(** A shell step that puts a [ChatView] on screen. *)
Definition mounts (a a' : Shell.AppState) : bool := negb (chat_shown a) && chat_shown a'.

Record ChatTabState := { app : Shell.AppState; chat : ChatState }.

Inductive CEvent :=
| CApp (e : Shell.Event)
| CChat (e : Chat.Event).

(** The chat's controls, as opposed to the turns of its stream. *)
Definition chat_click (e : Chat.Event) : bool :=
  match e with EvChunk | EvEnd => false | _ => true end.

Definition ct_enabled (e : CEvent) (m : ChatTabState) : bool :=
  match e with
  | CApp e => Shell.enabled e (app m)
  | CChat e =>
      chat_shown (app m) && (if chat_click e then negb (Shell.shown (app m)) else true) &&
      Chat.enabled e (chat m)
  end.

Definition ct_init (seen : bool) : ChatTabState := {| app := Shell.app_init seen; chat := init |}.

(** What the chat tab lists: the conversation filtered by the sidebar's
    search query (line 155 passes [searchQuery]). *)
Definition shown_messages (m : ChatTabState) : list Message :=
  filteredMessages (Shell.searchQuery (app m)) (messages (chat m)).

Section Run.
Context (SI : string) (b : TextBackend).

Definition ct_run (e : CEvent) (m : ChatTabState) : ChatTabState :=
  match e with
  | CApp e =>
      let a' := Shell.run e (app m) in
      {| app := a'; chat := if mounts (app m) a' then init else chat m |}
  | CChat e => {| app := app m; chat := Chat.run SI b e (chat m) |}
  end.

Inductive ctstep : ChatTabState -> ChatTabState -> Prop :=
| ctstep_run e m : ct_enabled e m = true -> ctstep m (ct_run e m).

Definition ct_reachable (seen : bool) (m : ChatTabState) : Prop := rtc ctstep (ct_init seen) m.

End Run.

End ChatTab.
