(* ===== verification/Nav.v ===== *)
(** * The navigation progress bar (src/App.tsx lines 17-18, 28-45, 93-101)

    On mount and on every change of [activeTab], an effect shows the bar
    at 30% and sets two timeouts: [t1] (200 ms) widens it to 70%, [t2]
    (500 ms) to 100% and sets a third, inner timeout (300 ms) that hides
    it ([isNavigating] false, width 0).  The effect's cleanup clears [t1]
    and [t2] of its own run, not the inner timeout.  The bar is rendered
    while [isNavigating], with opacity 0 at 100%.

    Time is explicit: a timer has its deadline in milliseconds and the
    creation order the browser breaks ties with; [fire] runs the timer
    due first and moves the clock to its deadline; a change of tab can
    happen at any time up to the next deadline ([EvTabChange w], [w]
    milliseconds after the last event).  [nstep] is the step relation of
    these events. *)

From S2P Require Import Prelude.

Module Nav.

(** ** State *)

(** [t1], [t2] and the timeout [t2] sets. *)
Inductive TimerKind := Grow | Fill | Hide.

#[export] Instance TimerKind_eq_dec : EqDecision TimerKind.
Proof. solve_decision. Defined.

(** A pending timeout: its kind, its deadline, the effect run that set it
    and its creation number. *)
Record Timer := { kind : TimerKind; due : nat; run : nat; tid : nat }.

#[export] Instance Timer_eq_dec : EqDecision Timer.
Proof. solve_decision. Defined.

Record NavState := {
  now : nat;
  isNavigating : bool;
  navWidth : nat;
  timers : list Timer;
  cur : nat;
  next_tid : nat
}.

Definition with_timers (ts : list Timer) (s : NavState) : NavState :=
  {| now := now s; isNavigating := isNavigating s; navWidth := navWidth s; timers := ts;
     cur := cur s; next_tid := next_tid s |}.

Definition with_bar (nav : bool) (w : nat) (s : NavState) : NavState :=
  {| now := now s; isNavigating := nav; navWidth := w; timers := timers s;
     cur := cur s; next_tid := next_tid s |}.

(** ** Handlers *)

(** [setTimeout(f, delay)] from the effect run [cur]. *)
Definition set_timeout (k : TimerKind) (delay : nat) (s : NavState) : NavState :=
  {| now := now s; isNavigating := isNavigating s; navWidth := navWidth s;
     timers := timers s ++ [{| kind := k; due := now s + delay; run := cur s; tid := next_tid s |}];
     cur := cur s; next_tid := S (next_tid s) |}.

Definition is_effect_timer (k : TimerKind) : bool :=
  match k with Grow | Fill => true | Hide => false end.

(** The cleanup of the previous run: [clearTimeout(t1); clearTimeout(t2)]. *)
Definition cleanup (s : NavState) : NavState :=
  with_timers (filter (fun t => negb (bool_decide (run t = cur s) && is_effect_timer (kind t))) (timers s)) s.

(** The effect body: [setIsNavigating(true); setNavWidth(30)] and the two
    timeouts, in a new run. *)
Definition nav_effect (s : NavState) : NavState :=
  let s1 := {| now := now s; isNavigating := true; navWidth := 30; timers := timers s;
               cur := S (cur s); next_tid := next_tid s |} in
  set_timeout Fill 500 (set_timeout Grow 200 s1).

Definition on_tab_change (s : NavState) : NavState := nav_effect (cleanup s).

(** The timer due first, the earliest created among equal deadlines. *)
Fixpoint earliest (ts : list Timer) : option Timer :=
  match ts with
  | [] => None
  | t :: ts' =>
      match earliest ts' with
      | Some u => if Nat.ltb (due u) (due t) then Some u else Some t
      | None => Some t
      end
  end.

Fixpoint remove_first (t : Timer) (ts : list Timer) : list Timer :=
  match ts with
  | [] => []
  | x :: ts' => if bool_decide (x = t) then ts' else x :: remove_first t ts'
  end.

(** The callback of the timer due first. *)
Definition fire (s : NavState) : NavState :=
  match earliest (timers s) with
  | Some t =>
      let s1 := {| now := due t; isNavigating := isNavigating s; navWidth := navWidth s;
                   timers := remove_first t (timers s); cur := cur s; next_tid := next_tid s |} in
      match kind t with
      | Grow => with_bar (isNavigating s1) 70 s1
      | Fill => set_timeout Hide 300 (with_bar (isNavigating s1) 100 s1)
      | Hide => with_bar false 0 s1
      end
  | None => s
  end.

Inductive Event :=
| EvTabChange (wait : nat)
| EvFire.

Definition enabled (e : Event) (s : NavState) : bool :=
  match e with
  | EvTabChange w => match earliest (timers s) with Some t => Nat.leb (now s + w) (due t) | None => true end
  | EvFire => bool_decide (is_Some (earliest (timers s)))
  end.

Definition step (e : Event) (s : NavState) : NavState :=
  match e with
  | EvTabChange w => on_tab_change {| now := now s + w; isNavigating := isNavigating s;
                                       navWidth := navWidth s; timers := timers s; cur := cur s;
                                       next_tid := next_tid s |}
  | EvFire => fire s
  end.

Inductive nstep : NavState -> NavState -> Prop :=
| nstep_run e s : enabled e s = true -> nstep s (step e s).

(** The first render: [useState(false)], [useState(0)], then the effect
    at time 0. *)
Definition init : NavState :=
  nav_effect {| now := 0; isNavigating := false; navWidth := 0; timers := []; cur := 0; next_tid := 0 |}.

Definition reachable (s : NavState) : Prop := rtc nstep init s.

(** [isNavigating && <div style={{ width: navWidth%, opacity: navWidth === 100 ? 0 : 1 }}>]:
    the width and whether it is visible. *)
Definition progress_bar (s : NavState) : option (nat * bool) :=
  if isNavigating s then Some (navWidth s, negb (Nat.eqb (navWidth s) 100)) else None.

(** Callbacks still to run: a [Fill] also runs the [Hide] it sets. *)
Definition weight (t : Timer) : nat := match kind t with Fill => 2 | _ => 1 end.
Definition pending_work (s : NavState) : nat := sum_list_with weight (timers s).

(** The user stops navigating: every pending callback runs. *)
Definition drain (s : NavState) : NavState := Nat.iter (pending_work s) fire s.

Fixpoint run_trace (es : list Event) (s : NavState) : option NavState :=
  match es with
  | [] => Some s
  | e :: es' => if enabled e s then run_trace es' (step e s) else None
  end.

(** Navigate at 0 ms; the bar reaches 70% and 100%; navigate again at
    600 ms. *)
Definition quick_nav : list Event := [EvFire; EvFire; EvTabChange 100].

(** The state of [quick_nav] once the first navigation's inner timeout
    has run. *)
Definition cut_state : NavState :=
  match run_trace quick_nav init with Some s => fire s | None => init end.

(** ** Invariant *)

(** No timer left means the bar was hidden; every pending [t1] has the
    [t2] of its run pending, due later. *)
Definition nav_inv (s : NavState) : Prop :=
  (timers s = [] -> isNavigating s = false /\ navWidth s = 0) /\
  (forall g, g ∈ timers s -> kind g = Grow ->
   exists f, f ∈ timers s /\ kind f = Fill /\ run f = run g /\ due g < due f).

(** ** Lemmas *)

Lemma earliest_spec ts t : earliest ts = Some t -> t ∈ ts /\ forall x, x ∈ ts -> due t <= due x.
Proof.
  revert t. induction ts as [|y ts IH]; intros t; simpl; [discriminate|].
  destruct (earliest ts) as [u|] eqn:Eu.
  - destruct (IH u eq_refl) as [Hu Hmin]. destruct (Nat.ltb_spec (due u) (due y)); intros [= <-].
    + split; [set_solver|]. intros x [->|Hx]%elem_of_cons; [lia|by apply Hmin].
    + split; [set_solver|]. intros x [->|Hx]%elem_of_cons; [lia|]. specialize (Hmin x Hx). lia.
  - intros [= <-]. destruct ts as [|z ts]; [|simpl in Eu; repeat case_match; discriminate].
    split; [set_solver|]. intros x ->%list_elem_of_singleton. lia.
Qed.

Lemma earliest_two a b : due a <= due b -> earliest [a; b] = Some a.
Proof. intros H. simpl. by rewrite (proj2 (Nat.ltb_ge _ _)) by lia. Qed.

Lemma earliest_some ts : ts <> [] -> exists t, earliest ts = Some t.
Proof.
  destruct ts as [|y ts]; [done|]. intros _. simpl.
  destruct (earliest ts) as [u|]; [destruct (_ <? _)|]; eauto.
Qed.

Lemma remove_first_keep x t ts : x ∈ ts -> x <> t -> x ∈ remove_first t ts.
Proof.
  induction ts as [|y ts IH]; simpl; [set_solver|]. intros Hx Hne.
  case_bool_decide; subst; [set_solver|].
  apply elem_of_cons in Hx as [->|Hx]; set_solver.
Qed.

Lemma remove_first_sub x t ts : x ∈ remove_first t ts -> x ∈ ts.
Proof. induction ts as [|y ts IH]; simpl; [set_solver|]. case_bool_decide; set_solver. Qed.

Lemma remove_first_work t ts :
  t ∈ ts -> sum_list_with weight (remove_first t ts) + weight t = sum_list_with weight ts.
Proof.
  induction ts as [|y ts IH]; simpl; [set_solver|]. intros Ht.
  case_bool_decide as E; [subst; lia|]. apply elem_of_cons in Ht as [->|Ht]; [done|].
  simpl. rewrite <- (IH Ht). lia.
Qed.

Lemma sum_weight_app ts us :
  sum_list_with weight (ts ++ us) = sum_list_with weight ts + sum_list_with weight us.
Proof. induction ts; simpl; lia. Qed.

Lemma work_nil s : pending_work s = 0 -> timers s = [].
Proof. unfold pending_work. destruct (timers s) as [|t ts]; [done|]. simpl. unfold weight. case_match; lia. Qed.

Lemma fire_idle s : timers s = [] -> fire s = s.
Proof. intros E. unfold fire. rewrite E. reflexivity. Qed.

Lemma iter_idle n s : timers s = [] -> Nat.iter n fire s = s.
Proof. intros E. induction n as [|n IH]; [done|]. simpl. rewrite IH. by apply fire_idle. Qed.

(** Each callback removes one unit of pending work. *)
Lemma fire_work s : timers s <> [] -> S (pending_work (fire s)) = pending_work s.
Proof.
  intros Hne. destruct (earliest_some _ Hne) as [t Et]. destruct (earliest_spec _ _ Et) as [Ht _].
  unfold fire, pending_work. rewrite Et. rewrite <- (remove_first_work t _ Ht).
  assert (Hw : weight t = match kind t with Fill => 2 | _ => 1 end) by reflexivity.
  rewrite Hw. destruct (kind t); cbn [timers with_bar set_timeout]; rewrite ?sum_weight_app; simpl; lia.
Qed.

Lemma fire_inv s : nav_inv s -> nav_inv (fire s).
Proof.
  intros [Hemp Hgrow]. unfold fire. destruct (earliest (timers s)) as [t|] eqn:Et; [|by split].
  destruct (earliest_spec _ _ Et) as [Ht Hmin].
  assert (Hkeep : forall g, g ∈ timers s -> kind g = Grow ->
            exists f, f ∈ remove_first t (timers s) /\ kind f = Fill /\ run f = run g /\ due g < due f).
  { intros g Hg Hk. destruct (Hgrow g Hg Hk) as (f & Hf & Hfk & Hfr & Hd).
    exists f. split_and!; [|done..]. apply remove_first_keep; [done|].
    intros ->. specialize (Hmin g Hg). lia. }
  destruct (kind t) eqn:Ek; unfold with_bar, set_timeout; cbn [timers isNavigating navWidth now cur].
  - split.
    + destruct (Hgrow t Ht Ek) as (f & Hf & Hfk & _). intros E. simpl in E. exfalso.
      apply (not_elem_of_nil f). rewrite <- E. apply remove_first_keep; [done|congruence].
    + intros g Hg Hk. apply Hkeep; [by eapply remove_first_sub|done].
  - split; [intros E; by destruct (remove_first t (timers s))|].
    intros g Hg Hk. apply elem_of_app in Hg as [Hg|Hg%list_elem_of_singleton]; [|subst; discriminate].
    destruct (Hkeep g (remove_first_sub _ _ _ Hg) Hk) as (f & Hf & ?).
    exists f. split; [apply elem_of_app; by left|done].
  - split; [done|]. intros g Hg Hk. apply Hkeep; [by eapply remove_first_sub|done].
Qed.

Lemma tab_change_inv s w : nav_inv s -> nav_inv (step (EvTabChange w) s).
Proof.
  intros [_ Hgrow]. cbn [step]. unfold on_tab_change, nav_effect, cleanup, set_timeout, with_timers.
  cbn [timers cur now]. split; [intros E; by destruct (filter _ _)|].
  intros g Hg Hk. rewrite <- app_assoc in Hg. apply elem_of_app in Hg as [Hg|Hg].
  - apply list_elem_of_filter in Hg as [Hc Hg].
    destruct (Hgrow g Hg Hk) as (f & Hf & Hfk & Hfr & Hd). exists f. split_and!; [|done..].
    cbn [timers]. rewrite <- app_assoc, elem_of_app, list_elem_of_filter. left. split; [|done]. by rewrite Hfr, Hfk; rewrite Hk in Hc.
  - apply elem_of_cons in Hg as [->|Hg%list_elem_of_singleton]; [|subst; discriminate].
    eexists. cbn [timers]. split; [apply elem_of_app; right; by apply list_elem_of_singleton|].
    split_and!; [reflexivity|reflexivity|simpl; lia].
Qed.

Lemma nav_inv_init : nav_inv init.
Proof.
  split; [discriminate|]. intros g Hg Hk. vm_compute in Hg.
  apply elem_of_cons in Hg as [->|Hg%list_elem_of_singleton]; [|subst; discriminate].
  eexists. split; [vm_compute; right; left|split_and!; [reflexivity|reflexivity|simpl; lia]].
Qed.

Lemma reachable_nav_inv s : reachable s -> nav_inv s.
Proof.
  intros Hr. apply (rtc_ind_r (R := nstep) nav_inv init); [exact nav_inv_init| |exact Hr].
  intros y z _ [[w|] y0 _] IH; [by apply tab_change_inv|by apply fire_inv].
Qed.

Lemma fire_step s : timers s <> [] -> nstep s (fire s).
Proof.
  intros Hne. destruct (earliest_some _ Hne) as [t Et].
  apply (nstep_run EvFire). cbn [enabled]. rewrite Et. by apply bool_decide_eq_true_2.
Qed.

Lemma iter_fire n s :
  nav_inv s -> pending_work s = n ->
  timers (Nat.iter n fire s) = [] /\ nav_inv (Nat.iter n fire s) /\ rtc nstep s (Nat.iter n fire s).
Proof.
  revert s. induction n as [|n IH]; intros s Hi Hw; [split_and!; [by apply work_nil|done|done]|].
  assert (Hne : timers s <> []) by (intros E; unfold pending_work in Hw; rewrite E in Hw; discriminate).
  rewrite Nat.iter_succ_r. destruct (IH (fire s)) as (H1 & H2 & H3).
  - by apply fire_inv.
  - pose proof (fire_work s Hne). lia.
  - split_and!; [done|done|]. eapply rtc_l; [by apply fire_step|exact H3].
Qed.

Lemma run_trace_rtc es s s' : run_trace es s = Some s' -> rtc nstep s s'.
Proof.
  revert s. induction es as [|e es IH]; intros s; simpl; [by intros [= ->]|].
  destruct (enabled e s) eqn:He; [|discriminate]. intros H.
  eapply rtc_l; [by apply nstep_run|exact (IH _ H)].
Qed.

Lemma cut_state_reachable : reachable cut_state.
Proof.
  assert (Hq : run_trace quick_nav init = Some (step (EvTabChange 100) (fire (fire init))))
    by (vm_compute; reflexivity).
  apply (rtc_r _ (step (EvTabChange 100) (fire (fire init)))); [exact (run_trace_rtc _ _ _ Hq)|].
  unfold cut_state. rewrite Hq. apply fire_step. vm_compute. discriminate.
Qed.

(** ** Properties *)

(** One navigation left alone, from a state with no pending timer:
    the bar shows at 30%, reaches 70% 200 ms after the change of tab and
    100% (transparent) at 500 ms, and is hidden at 800 ms, after which no
    timer is pending. *)
Theorem nav_single s w : timers s = [] ->
  progress_bar (step (EvTabChange w) s) = Some (30, true) /\
  progress_bar (fire (step (EvTabChange w) s)) = Some (70, true) /\
  now (fire (step (EvTabChange w) s)) = now s + w + 200 /\
  progress_bar (fire (fire (step (EvTabChange w) s))) = Some (100, false) /\
  now (fire (fire (step (EvTabChange w) s))) = now s + w + 500 /\
  progress_bar (fire (fire (fire (step (EvTabChange w) s)))) = None /\
  now (fire (fire (fire (step (EvTabChange w) s)))) = now s + w + 800 /\
  timers (fire (fire (fire (step (EvTabChange w) s)))) = [].
Proof.
  intros E. set (G := {| kind := Grow; due := now s + w + 200; run := S (cur s); tid := next_tid s |}).
  set (F := {| kind := Fill; due := now s + w + 500; run := S (cur s); tid := S (next_tid s) |}).
  assert (H0 : step (EvTabChange w) s = {| now := now s + w; isNavigating := true; navWidth := 30;
     timers := [G; F]; cur := S (cur s); next_tid := S (S (next_tid s)) |})
    by (unfold step, on_tab_change, cleanup, nav_effect; cbn; rewrite E; reflexivity).
  assert (H1 : fire (step (EvTabChange w) s) = {| now := now s + w + 200; isNavigating := true; navWidth := 70;
     timers := [F]; cur := S (cur s); next_tid := S (S (next_tid s)) |}).
  { rewrite H0. unfold fire. cbn [timers]. rewrite earliest_two by (simpl; lia). cbn.
    by rewrite bool_decide_eq_true_2. }
  assert (H2 : fire (fire (step (EvTabChange w) s)) = {| now := now s + w + 500; isNavigating := true; navWidth := 100;
     timers := [{| kind := Hide; due := now s + w + 800; run := S (cur s); tid := S (S (next_tid s)) |}];
     cur := S (cur s); next_tid := S (S (S (next_tid s))) |}).
  { rewrite H1. unfold fire. cbn. rewrite bool_decide_eq_true_2 by done. unfold set_timeout. cbn. do 3 f_equal. lia. }
  rewrite H2, H1, H0. unfold fire at 1. cbn. rewrite bool_decide_eq_true_2 by done.
  split_and!; reflexivity.
Qed.

(** C37: the progress bar always goes away: from every reachable state,
    once the user stops changing tabs, the pending timeouts run (one
    callback per unit of [pending_work], a [t2] counting for the inner
    timeout it sets), after which no timer is left and the bar is not
    rendered. *)
Theorem nav_bar_settles s :
  reachable s -> rtc nstep s (drain s) /\ timers (drain s) = [] /\ progress_bar (drain s) = None.
Proof.
  intros Hr. destruct (iter_fire (pending_work s) s (reachable_nav_inv s Hr) eq_refl) as (H1 & [Hemp _] & H3).
  unfold drain. split_and!; [done|done|]. unfold progress_bar. by rewrite (proj1 (Hemp H1)).
Qed.

(** C36: the cleanup does not clear the inner timeout, so a navigation
    that follows the previous one by 500 to 800 ms loses its bar: when
    the user changes tab 600 ms after the last one, the previous
    navigation's inner timeout hides the bar 200 ms later, while the
    current navigation's [t2] is still pending, and the bar is not shown
    again until the next change of tab, whatever timers run. *)
Theorem nav_bar_cut_short :
  exists s, reachable s /\ progress_bar s = None /\
    (exists f, f ∈ timers s /\ kind f = Fill /\ run f = cur s) /\
    forall n, progress_bar (Nat.iter n fire s) = None.
Proof.
  exists cut_state. split_and!; [exact cut_state_reachable|vm_compute; reflexivity| |].
  - eexists. split; [vm_compute; right; left|split; reflexivity].
  - intros n. destruct n as [|[|[|n]]]; [vm_compute; reflexivity..|].
    rewrite !Nat.iter_succ_r, iter_idle by (vm_compute; reflexivity). vm_compute. reflexivity.
Qed.

(** ** Witnesses *)

Lemma nav_single_witness :
  timers (drain cut_state) = [] /\
  progress_bar (fire (fire (step (EvTabChange 50) (drain cut_state)))) = Some (100, false).
Proof.
  assert (E : timers (drain cut_state) = []) by (vm_compute; reflexivity).
  split; [exact E|exact (proj1 (proj2 (proj2 (proj2 (nav_single _ 50 E)))))].
Defined.

Lemma nav_bar_settles_witness :
  reachable cut_state /\ timers (drain cut_state) = [] /\ now (drain cut_state) = 1400.
Proof.
  split_and!; [exact cut_state_reachable|exact (proj1 (proj2 (nav_bar_settles _ cut_state_reachable)))|].
  vm_compute. reflexivity.
Defined.

End Nav.
