(* ===== verification/Pages.v ===== *)
(** * What the pages render (src/AuthView.tsx, Sidebar.tsx, DashboardView.tsx,
      PricingView.tsx, Onboarding.tsx lines 92-130, VoiceView.tsx lines 157-220)

    Each page is a value computed from the state it reads, with the texts
    and the controls the JSX puts on screen; styling is left out, except
    where a class carries meaning (the highlighted nav button, the
    style of a transcript line).  A control is the [Shell] or [Voice]
    event its [onClick] or [onSubmit] raises; a button without a handler
    is rendered but raises nothing.

    The theorems tie pages to the states the step relations reach: the
    sidebar highlights exactly the active tab; the tour's tooltip counts
    its steps within bounds and labels its last button by what it does.  The
    defects: the sign-in page can show "Check your inbox" for a reset
    the user never saw confirmed, and the voice page offers "Initialize
    Voice Link" over a session that still streams the microphone. *)

From S2P Require Import Prelude JsString Studio Shell Voice Tabs.
From stdpp Require Import pretty.

Module Pages.
Import JsString Studio Shell.

(** ** The sign-in page ([AuthView], lines 44-296) *)

(** The content of the card (lines 122-271). *)
Inductive AuthCard :=
| ResetForm                                 (** Send Reset Link, Back to Sign In *)
| CheckInbox                                (** the reset confirmation, Back to Login *)
| EmailForm (forgot_link : bool) (submit : string)
| PhoneNumber                               (** Send Verification Code *)
| PhoneCode                                 (** Verify & Continue, and a Resend without handler *)
| GoogleCard.                               (** Continue with Google *)

#[export] Instance AuthCard_eq_dec : EqDecision AuthCard.
Proof. solve_decision. Defined.

(** A method tab of lines 95-112: its method, label, and whether it is
    the selected one. *)
Record MethodTab := { mt_method : AuthMethod; mt_label : string; mt_selected : bool }.

Record AuthPage := {
  ap_heading : string;
  ap_subtitle : string;
  ap_tabs : list MethodTab;
  ap_overlay : bool;
  ap_card : AuthCard;
  ap_toggle : string
}.

Definition method_tabs : list (AuthMethod * string) :=
  [(Email, "Email"); (Phone, "Phone"); (Google, "Google")].

Definition auth_heading (a : AuthState) : string :=
  if isForgotPassword a then "Reset Password"
  else if isSignup a then "Create your account" else "Welcome back".

Definition auth_subtitle (a : AuthState) : string :=
  if isForgotPassword a then "Enter your email to receive a reset link"
  else "Choose your preferred way to access Giga3 AI".

Definition auth_card (a : AuthState) : AuthCard :=
  if isForgotPassword a then (if resetEmailSent a then CheckInbox else ResetForm)
  else match method a with
       | Email => EmailForm (negb (isSignup a)) (if isSignup a then "Create Account" else "Sign In")
       | Phone => if otpSent a then PhoneCode else PhoneNumber
       | Google => GoogleCard
       end.

Definition auth_page (a : AuthState) : AuthPage := {|
  ap_heading := auth_heading a;
  ap_subtitle := auth_subtitle a;
  ap_tabs := if isForgotPassword a then []
             else map (fun '(m, l) => {| mt_method := m; mt_label := l; mt_selected := bool_decide (method a = m) |})
                      method_tabs;
  ap_overlay := auth_loading a;
  ap_card := auth_card a;
  ap_toggle := if isSignup a then "Already have an account? Sign In" else "Don't have an account? Create one"
|}.

(** The events the card's buttons and forms raise. *)
Definition card_controls (c : AuthCard) : list Event :=
  match c with
  | ResetForm => [EvReset; EvBack]
  | CheckInbox => [EvBackAfterReset]
  | EmailForm f _ => (if f then [EvForgot] else []) ++ [EvSubmit]
  | PhoneNumber => [EvSendOTP]
  | PhoneCode => [EvSubmit]
  | GoogleCard => [EvSubmit]
  end.

(** What the user can raise: the method tabs, the toggle below the card
    and the card's controls.  The loading overlay covers the card
    against the pointer only: nothing is [disabled], so the focused form
    still submits on Enter and a focused button still responds to the
    keyboard. *)
Definition auth_controls (p : AuthPage) : list Event :=
  map (fun t => EvMethod (mt_method t)) (ap_tabs p) ++ [EvToggleSignup] ++ card_controls (ap_card p).

(** The events of [AuthView]'s controls. *)
Definition auth_event (e : Event) : bool :=
  match e with
  | EvMethod _ | EvToggleSignup | EvForgot | EvBack | EvBackAfterReset
  | EvSubmit | EvSendOTP | EvReset => true
  | _ => false
  end.

(** The states a run of the shell goes through. *)
Fixpoint trace_states (es : list Event) (s : AppState) : list AppState :=
  s :: match es with [] => [] | e :: es' => trace_states es' (run e s) end.

(** Ask for a reset link, go to the sign-up form while it is sent, and
    come back to the sign-in form. *)
Definition reset_then_toggle : list Event := [EvForgot; EvReset; EvToggleSignup; EvTimer 0; EvToggleSignup].

(** ** The sidebar ([Sidebar], lines 14-96) *)

(** A nav button of [NAV_ITEMS.map] (lines 47-66): its id and whether it
    has the active style ([activeTab === item.id], lines 54, 59, 60, 63). *)
Record NavButton := { nb_id : string; nb_active : bool }.

(** The search input's value, the nav buttons, the plan badge
    ([{tier}], line 75) and the usage line (line 80). *)
Record SidebarPage := { sb_search : string; sb_nav : list NavButton; sb_badge : string; sb_usage : string }.

Definition nav_button (active : string) (id : string) : NavButton :=
  {| nb_id := id; nb_active := bool_decide (active = id) |}.

Definition sidebar (s : AppState) : SidebarPage := {|
  sb_search := searchQuery s;
  sb_nav := map (nav_button (activeTab s)) nav_ids;
  sb_badge := tier_value (tier (user s));
  sb_usage := "40% of monthly tokens used"
|}.

(** The nav buttons' [setActiveTab(item.id)]; the search input raises
    [EvSearch] with whatever is typed. *)
Definition sidebar_controls (p : SidebarPage) : list Event := map (fun b => EvTab (nb_id b)) (sb_nav p).

(** ** The dashboard ([DashboardView], lines 8-112) *)

Record Stat := { stat_label : string; stat_value : string; stat_unit : string }.

(** [stats] (lines 9-13), constant. *)
Definition stats : list Stat := [
  {| stat_label := "Creative Content"; stat_value := "142"; stat_unit := "Generated" |};
  {| stat_label := "Academic Tokens"; stat_value := "12.4k"; stat_unit := "Processed" |};
  {| stat_label := "Cloud Storage"; stat_value := "84%"; stat_unit := "Used" |}
].

(** [quickActions] (lines 15-19), without the emoji icons and colours. *)
Record QuickAction := { qa_id : string; qa_title : string; qa_desc : string }.

Definition quick_actions : list QuickAction := [
  {| qa_id := "chat"; qa_title := "Deep Research"; qa_desc := "Author full books or papers" |};
  {| qa_id := "studio"; qa_title := "Viral Studio"; qa_desc := "AI-powered high-engagement videos" |};
  {| qa_id := "voice"; qa_title := "Live Voice"; qa_desc := "Real-time vocal intelligence" |}
].

(** The hero's two buttons, the stat cards, the quick-access cards with
    their [onAction(action.id)], and the "View Metrics" button of the
    updates section, which has no handler. *)
Record DashboardPage := {
  db_hero : list (string * Event);
  db_stats : list Stat;
  db_actions : list (QuickAction * Event);
  db_metrics : string
}.

Definition dashboard_page : DashboardPage := {|
  db_hero := [("Begin Research", EvTab "chat"); ("Enter Studio", EvTab "studio")];
  db_stats := stats;
  db_actions := map (fun q => (q, EvTab (qa_id q))) quick_actions;
  db_metrics := "View Metrics"
|}.

Definition dashboard_controls (p : DashboardPage) : list Event := map snd (db_hero p) ++ map snd (db_actions p).

(** ** The pricing page ([PricingView], lines 9-113) *)

(** A plan card (lines 51-89): name, price (between the constant "GHC"
    and "/mo"), features,
    the "Best Value" badge of [plan.isPopular], and "Choose Plan" with
    its [onUpgrade(plan.id)]. *)
Record PlanCard := {
  pc_name : string;
  pc_price : string;
  pc_features : list string;
  pc_badge : option string;
  pc_button : string * Event
}.

Definition plan_card (p : Plan) : PlanCard := {|
  pc_name := plan_name p;
  pc_price := price p;
  pc_features := features p;
  pc_badge := if isPopular p then Some "Best Value" else None;
  pc_button := ("Choose Plan", EvUpgrade (plan_id p))
|}.

Definition pricing_page : list PlanCard := map plan_card plans.

Definition pricing_controls (cs : list PlanCard) : list Event := map (fun c => snd (pc_button c)) cs.

(** ** The tour's tooltip ([Onboarding], lines 92-130) *)

(** The counter [Tutorial {currentStep + 1}/{STEPS.length}], the step's
    title and description, and the label of the main button. *)
Record Tooltip := { tt_counter : string; tt_title : string; tt_desc : string; tt_next : string }.

(** [STEPS[currentStep].title] on a missing step throws. *)
Definition tooltip (k : nat) : outcome Tooltip :=
  match STEPS !! k with
  | None => Throw "Cannot read properties of undefined (reading 'title')"
  | Some st =>
      Ok {| tt_counter := "Tutorial " +:+ pretty (S k) +:+ "/" +:+ pretty STEPS_length;
            tt_title := step_title st;
            tt_desc := description st;
            tt_next := if bool_decide (k = STEPS_length - 1) then "Get Started" else "Next Step" |}
  end.

(** The backdrop, the close button and "Skip Tour" call [handleSkip]; the
    main button calls [handleNext]. *)
Definition tooltip_controls : list Event := [EvSkip; EvSkip; EvSkip; EvNext].

(** ** The logged-in page ([App], lines 89-169) *)

(** What a click can raise: the tour's controls while it shows, its
    backdrop covering the rest; otherwise the sidebar, the Sign Out
    button of the header, and the main area's view: the dashboard's and
    the pricing page's buttons ([ChatView], [StudioView] and [VoiceView]
    raise their own events). *)
Definition app_controls (s : AppState) : list Event :=
  if showOnboarding s then tooltip_controls
  else sidebar_controls (sidebar s) ++ [EvLogout] ++
       (if bool_decide (activeTab s = "dashboard") then dashboard_controls dashboard_page
        else if bool_decide (activeTab s = "pricing") then pricing_controls pricing_page
        else []).

(** The page [App] renders: [AuthView] while logged out. *)
Definition page_controls (s : AppState) : list Event :=
  if logged s then app_controls s else auth_controls (auth_page (auth s)).

(** The shell's events a click raises (not the timers, the search input
    or the studio's [onGeneration]). *)
Definition click_event (e : Event) : bool :=
  match e with
  | EvTimer _ | EvSearch _ | EvGeneration _ => false
  | _ => true
  end.

(** ** The voice page ([VoiceView], lines 157-220) *)

(** The listening bar and pulse, the main button's label, and the
    transcript: the placeholder "Awaiting Neural Signal..." when empty,
    otherwise each line with the user's style when it starts with
    [User:]. *)
Record VoicePage := {
  vp_bar : bool;
  vp_pulse : bool;
  vp_button : string;
  vp_transcript : option (list (string * bool))
}.

Definition voice_page (v : Voice.VoiceState) : VoicePage := {|
  vp_bar := Voice.isListening v;
  vp_pulse := Voice.isListening v;
  vp_button := if Voice.isListening v then "Terminate Uplink" else "Initialize Voice Link";
  vp_transcript :=
    match Voice.transcript v with
    | [] => None
    | ls => Some (map (fun l => (l, starts_with_by ascii_eqb "User:" l)) ls)
    end
|}.

(** Sign in, open the voice tab, start a session the server opens, go to
    the chat and come back to the voice tab. *)
Definition voice_return : list Tabs.TEvent :=
  Tabs.voice_on ++ [Tabs.TApp (EvTab "chat"); Tabs.TApp (EvTab "voice")].

(** ** Lemmas *)

Lemma pretty_STEPS_length : pretty STEPS_length = "5".
Proof. vm_compute. reflexivity. Qed.

(** ** Properties *)

(** C30: in every reachable state the active tab is one of the five views
    [App] renders, and the sidebar highlights exactly one nav button,
    the active tab's. *)
Theorem sidebar_highlights_active_tab seen s :
  reachable seen s ->
  activeTab s ∈ nav_ids /\ List.filter nb_active (sb_nav (sidebar s)) = [nav_button (activeTab s) (activeTab s)].
Proof.
  intros Hr. pose proof (active_tab_valid seen s Hr) as Ht. split; [exact Ht|].
  unfold sidebar, nav_ids in *; cbn [sb_nav].
  repeat (apply elem_of_cons in Ht as [Ht|Ht]; [rewrite Ht; reflexivity|]). by apply not_elem_of_nil in Ht.
Qed.

(** C31: while the tour shows, its tooltip reads a defined step: the
    counter stays within [Tutorial 1/5 .. Tutorial 5/5] and shows the
    step's title; the main button reads "Get Started" exactly on the
    last step, where it closes the tour, and "Next Step" before, where it
    moves to the next step. *)
Theorem tooltip_step_bounds seen s :
  reachable seen s -> shown s = true ->
  exists st tt, STEPS !! currentStep s = Some st /\ tooltip (currentStep s) = Ok tt /\
    (1 <= S (currentStep s) <= STEPS_length)%nat /\
    tt_counter tt = "Tutorial " +:+ pretty (S (currentStep s)) +:+ "/5" /\ tt_title tt = step_title st /\
    (tt_next tt = "Get Started" /\ shown (run EvNext s) = false \/
     tt_next tt = "Next Step" /\ shown (run EvNext s) = true /\ currentStep (run EvNext s) = S (currentStep s)).
Proof.
  intros Hr Hs. pose proof (reachable_shell_inv seen s Hr) as Hk. unfold shell_inv in Hk.
  destruct (lookup_lt_is_Some_2 STEPS (currentStep s) Hk) as [st Hst].
  exists st. unfold tooltip. rewrite Hst. eexists. split_and!; [done|reflexivity|lia|lia| |reflexivity|].
  - cbn [tt_counter]. by rewrite pretty_STEPS_length.
  - cbn [tt_next]. case_bool_decide as E.
    + left. split; [reflexivity|]. apply (run_next_last s Hs E).
    + right. split; [reflexivity|]. apply (run_next_shown s Hs). lia.
Qed.

(** ** Properties of the sign-in page *)

(** C29: leaving the reset screen through the sign-up toggle while the
    link is being sent keeps [resetEmailSent]: the user asks for a reset,
    switches to sign-up before the confirmation shows and back to
    sign-in, never seeing "Check your inbox"; the next click on "Forgot
    Password?" then shows "Check your inbox" without asking for a link. *)
Theorem stale_reset_confirmation :
  exists es, trace_ok (es ++ [EvForgot]) (app_init false) = true /\
    Forall (fun s => ap_card (auth_page (auth s)) <> CheckInbox) (trace_states es (app_init false)) /\
    ap_card (auth_page (auth (run_trace es (app_init false)))) = EmailForm true "Sign In" /\
    ap_card (auth_page (auth (run_trace (es ++ [EvForgot]) (app_init false)))) = CheckInbox.
Proof.
  exists reset_then_toggle. split_and!; [vm_compute; reflexivity| |vm_compute; reflexivity..].
  vm_compute. repeat (constructor; [vm_compute; discriminate|]). constructor.
Qed.

(** C12: coming back to the voice tab after leaving it during a session
    shows a fresh view: no listening bar or pulse, "Initialize Voice
    Link" and "Awaiting Neural Signal...", while the session opened
    before still has the microphone: its context is open and every
    [onaudioprocess] of it is enabled and sends the frame.  Nothing on
    the page can stop it. *)
Theorem voice_page_hides_live_session :
  exists m k c, @Tabs.reachable Studio.GS false m /\ Tabs.voice_shown (Tabs.app m) = true /\
    voice_page (Tabs.voice m) =
      {| vp_bar := false; vp_pulse := false; vp_button := "Initialize Voice Link"; vp_transcript := None |} /\
    Tabs.mic_live k c (Tabs.voice m) /\
    forall input, Tabs.tabs_enabled (Tabs.TVoice (Voice.EvProcess k input)) m = true.
Proof.
  exists (@Tabs.run_all Studio.GS voice_return (Tabs.tabs_init false)), 2%nat, 0%nat.
  split_and!; [|vm_compute; reflexivity|vm_compute; reflexivity| |intros input; vm_compute; reflexivity].
  - apply (@Tabs.tabs_trace_rtc Studio.GS voice_return). vm_compute. reflexivity.
  - split_and!; [|vm_compute; set_solver|vm_compute; lia|vm_compute; lia].
    exists {| Voice.in_ctx := 0; Voice.out_ctx := 1; Voice.opened := true |}. split_and!; [vm_compute|..]; reflexivity.
Qed.

(** ** Witnesses *)

Lemma sidebar_highlights_active_tab_witness :
  reachable true (run_trace (google_login ++ [EvTab "studio"]) (app_init true)) /\
  List.filter nb_active (sb_nav (sidebar (run_trace (google_login ++ [EvTab "studio"]) (app_init true)))) =
    [{| nb_id := "studio"; nb_active := true |}].
Proof.
  assert (Hr : reachable true (run_trace (google_login ++ [EvTab "studio"]) (app_init true)))
    by (apply trace_reachable; vm_compute; reflexivity).
  split; [exact Hr|]. rewrite (proj2 (sidebar_highlights_active_tab _ _ Hr)). vm_compute. reflexivity.
Defined.

Lemma tooltip_step_bounds_witness :
  reachable false (run_trace google_login (app_init false)) /\ shown (run_trace google_login (app_init false)) = true /\
  tooltip (currentStep (run_trace google_login (app_init false))) =
    Ok {| tt_counter := "Tutorial 1/5"; tt_title := "Welcome to Giga3 AI";
          tt_desc := "This is your centralized command center for premium intelligence workflows.";
          tt_next := "Next Step" |}.
Proof.
  assert (Hr : reachable false (run_trace google_login (app_init false))) by (apply trace_reachable; vm_compute; reflexivity).
  assert (Hs : shown (run_trace google_login (app_init false)) = true) by (vm_compute; reflexivity).
  destruct (tooltip_step_bounds false _ Hr Hs) as (st & tt & _ & Htt & _).
  split_and!; [exact Hr|exact Hs|]. rewrite Htt. revert Htt. vm_compute. congruence.
Defined.

End Pages.
